(** * Recommendation platform: ranking, fusion and feature services

    A shallow embedding of the Python services of the repository
    (ranking-service and feature-service) together with the properties of
    their specification.

    Conventions of the embedding.
    - Python [float] scores are rationals ([Q]); equality of scores is [Qeq].
      The one exception is the module [FusionFloat], which embeds the
      first stage of the fusion over binary64 floats, for the property
      that depends on their rounding.
    - A Python dict whose iteration order matters is an association list
      with the update discipline of [dict] (a key keeps the position of its
      first insertion).
    - An operation that may raise returns [Exec]; a caught exception is the
      [Raise] branch of the surrounding [match].
    - External collaborators (redis, the model, the analytical store) are
      parameters of the functions that call them. *)

From Stdlib Require Import ZArith QArith Qminmax String Ascii Lia.
From Stdlib Require PrimFloat Uint63.
From stdpp Require Import base list gmap strings sorting.

Open Scope Q_scope.

(** ** Python values shared by the services *)

Module Py.

(** Outcome of running a block of code: a value, or an exception. *)
Inductive Exec (A : Type) : Type :=
  | Ok (a : A)
  | Raise.
Arguments Ok {A} a.
Arguments Raise {A}.

(** The block ran to its end. *)
Definition completes {A} (m : Exec A) : Prop :=
  match m with
  | Ok _ => True
  | Raise => False
  end.

#[global] Instance exec_ret : MRet Exec := fun A a => Ok a.

#[global] Instance exec_bind : MBind Exec := fun A B k m =>
  match m with
  | Ok a => k a
  | Raise => Raise
  end.

(** [a < b] and [a > b] on scores, as booleans. *)
Definition Qlt_bool (a b : Q) : bool := negb (Qle_bool b a).
Definition Qgt_bool (a b : Q) : bool := Qlt_bool b a.

(** A dict value of a feature record: a number or a string. *)
Inductive FeatureValue : Type :=
  | FNum (q : Q)
  | FStr (s : string).

(** [dict] with insertion order: [d.get(k)], [d[k] = v], [{**d1, **d2}]. *)
Definition dict (V : Type) : Type := list (string * V).

Fixpoint dict_get {V} (d : dict V) (k : string) : option V :=
  match d with
  | [] => None
  | (k', v) :: d' => if String.eqb k' k then Some v else dict_get d' k
  end.

Fixpoint dict_set {V} (d : dict V) (k : string) (v : V) : dict V :=
  match d with
  | [] => [(k, v)]
  | (k', v') :: d' =>
      if String.eqb k' k then (k', v) :: d' else (k', v') :: dict_set d' k v
  end.

Definition dict_merge {V} (d1 d2 : dict V) : dict V :=
  fold_left (fun d kv => dict_set d (fst kv) (snd kv)) d2 d1.

(** [l[:k]] and [l[k:]] for a possibly negative [k]. *)
Definition slice_to {A} (l : list A) (k : Z) : list A :=
  if (0 <=? k)%Z then take (Z.to_nat k) l
  else take (length l - Z.to_nat (- k)) l.

Definition slice_from {A} (l : list A) (k : Z) : list A :=
  if (0 <=? k)%Z then drop (Z.to_nat k) l
  else drop (length l - Z.to_nat (- k)) l.

(** [sorted(l, key=key, reverse=True)]: the sort is stable, elements of
    equal key keep their order; with a total order on keys the result of
    any stable sort is this one. *)
Fixpoint insert_desc {A} (key : A -> Q) (x : A) (l : list A) : list A :=
  match l with
  | [] => [x]
  | y :: l' =>
      if Qlt_bool (key x) (key y) then y :: insert_desc key x l'
      else x :: y :: l'
  end.

Definition sorted_reverse {A} (key : A -> Q) (l : list A) : list A :=
  foldr (insert_desc key) [] l.

(** [a] may stand before [b] in a list sorted by descending key. *)
Definition desc {A} (key : A -> Q) (a b : A) : Prop := key b <= key a.

End Py.
Import Py.

(** ** ranking-service/app/models/model_server.py *)

Module ModelServer.

Definition Features : Type := dict FeatureValue.

(** The frame construction and [self.model.predict(model_input)] followed
    by [flatten().tolist()]: one score list for a feature list, or an
    exception ([None]). *)
Definition Model : Type := list Features -> option (list Q).

(** [class PredictionRequest]; [event] is the state of the asyncio event. *)
Record PredictionRequest : Type := {
  features : Features;
  result : option Q;
  event : bool;
}.

(** [class ModelServer].  Request objects live in [objects], keyed by the
    identity of the object; [pending_requests] holds references. *)
Record ModelServer : Type := {
  model : option Model;
  max_batch_size : Z;
  pending_requests : list nat;
  objects : gmap nat PredictionRequest;
  next_object : nat;
  total_requests : nat;
  total_predictions : nat;
  batch_count : nat;
}.

Definition init (m : option Model) (max_batch : Z) : ModelServer :=
  {| model := m; max_batch_size := max_batch; pending_requests := [];
     objects := ∅; next_object := 0; total_requests := 0;
     total_predictions := 0; batch_count := 0 |}.

(** [PredictionRequest.set_result], on the request and on the server
    that holds it. *)
Definition completed (r : PredictionRequest) (score : Q) : PredictionRequest :=
  {| features := features r; result := Some score; event := true |}.

Definition set_result (s : ModelServer) (req : nat) (score : Q) : ModelServer :=
  {| model := model s; max_batch_size := max_batch_size s;
     pending_requests := pending_requests s;
     objects := alter (fun r => completed r score) req (objects s);
     next_object := next_object s; total_requests := total_requests s;
     total_predictions := total_predictions s; batch_count := batch_count s |}.

(** What the caller of [predict_async] gets back from [get_result]. *)
Inductive CallOutcome : Type :=
  | Returned (value : option Q)
  | Failed (kind : string).

(** [PredictionRequest.get_result]: the stored result once the event is
    set; when the wait times out, the default [0.0]. *)
Definition get_result (r : PredictionRequest) : CallOutcome :=
  if event r then Returned (result r) else Returned (Some 0).

(** First half of [predict_async]: build the request and append it to
    the pending queue under the lock.  Returns the new request. *)
Definition predict_async_enqueue (s : ModelServer) (x : Features)
  : nat * ModelServer :=
  let req := next_object s in
  (req,
   {| model := model s; max_batch_size := max_batch_size s;
      pending_requests := pending_requests s ++ [req];
      objects := <[req := {| features := x; result := None; event := false |}]>
                   (objects s);
      next_object := S req; total_requests := S (total_requests s);
      total_predictions := total_predictions s;
      batch_count := batch_count s |}).

(** Second half of [predict_async]: [await request.get_result()]. *)
Definition predict_async_result (s : ModelServer) (req : nat)
  : option CallOutcome :=
  get_result <$> objects s !! req.

(** [predict_batch_sync]. *)
Definition predict_batch_sync (s : ModelServer) (features_list : list Features)
  : Exec (list Q) * ModelServer :=
  match model s with
  | None => (Raise, s)
  | Some m =>
      match m features_list with
      | Some scores =>
          (Ok scores,
           {| model := model s; max_batch_size := max_batch_size s;
              pending_requests := pending_requests s; objects := objects s;
              next_object := next_object s;
              total_requests := total_requests s;
              total_predictions :=
                total_predictions s + length features_list;
              batch_count := S (batch_count s) |})
      | None => (Ok (replicate (length features_list) 0), s)
      end
  end.

Definition request_features (s : ModelServer) (req : nat) : Features :=
  from_option features [] (objects s !! req).

(** [_process_batch]. *)
Definition _process_batch (s : ModelServer) (batch_requests : list nat)
  : ModelServer :=
  let features_list := request_features s <$> batch_requests in
  match predict_batch_sync s features_list with
  | (Ok scores, s') =>
      fold_left (fun st rs => set_result st (fst rs) (snd rs))
                (zip batch_requests scores) s'
  | (Raise, s') =>
      fold_left (fun st req => set_result st req 0) batch_requests s'
  end.

(** The requests one iteration of [batch_processor] takes from the queue. *)
Definition sealed_batch (s : ModelServer) : list nat :=
  match pending_requests s with
  | [] => []
  | _ :: _ =>
      let batch_size :=
        Z.min (Z.of_nat (length (pending_requests s))) (max_batch_size s) in
      slice_to (pending_requests s) batch_size
  end.

Definition after_seal (s : ModelServer) : ModelServer :=
  match pending_requests s with
  | [] => s
  | _ :: _ =>
      let batch_size :=
        Z.min (Z.of_nat (length (pending_requests s))) (max_batch_size s) in
      {| model := model s; max_batch_size := max_batch_size s;
         pending_requests := slice_from (pending_requests s) batch_size;
         objects := objects s; next_object := next_object s;
         total_requests := total_requests s;
         total_predictions := total_predictions s;
         batch_count := batch_count s |}
  end.

(** One iteration of the loop of [batch_processor]. *)
Definition batch_processor_step (s : ModelServer) : ModelServer :=
  match sealed_batch s with
  | [] => after_seal s
  | batch_requests => _process_batch (after_seal s) batch_requests
  end.

(** Submitting [x_1 .. x_N] in that order. *)
Fixpoint submit_all (s : ModelServer) (xs : list Features)
  : list nat * ModelServer :=
  match xs with
  | [] => ([], s)
  | x :: xs' =>
      let '(req, s1) := predict_async_enqueue s x in
      let '(reqs, s2) := submit_all s1 xs' in
      (req :: reqs, s2)
  end.

(** Invariant of the object store and the queue. *)
Record wf (s : ModelServer) : Prop := {
  wf_nodup : NoDup (pending_requests s);
  wf_pending : forall req, req ∈ pending_requests s -> is_Some (objects s !! req);
  wf_fresh : forall req, is_Some (objects s !! req) -> (req < next_object s)%nat;
}.

(** *** Sample servers *)

(** A scorer that reads the score of each row from its feature [s]. *)
Definition sample_model : Model := fun features_list =>
  Some ((fun f => match dict_get f "s" with
                  | Some (FNum q) => q
                  | _ => 0
                  end) <$> features_list).

(** A scorer whose [predict] raises on every input. *)
Definition failing_model : Model := fun _ => None.

Definition sample_inputs : list Features :=
  [[("s", FNum 0.5)]; [("s", FNum 0.6)]; [("s", FNum 0.7)]]%string.

(** *** Loading and reloading the model *)

(** The fields of [ModelServer] that describe the loaded model, beside
    the server the batcher works on. *)
Record Deployment : Type := {
  server : ModelServer;
  model_path : string;
  model_version : option string;
  model_loaded_time : option Z;
}.

(** What loading depends on: the construction
    [WideDeepModel(wide_columns, deep_columns)] after
    [create_wide_deep_feature_columns()], which builds a fresh, untrained
    model ([None]: one of the two raises); [keras.models.load_model]
    ([None]: it raises); and the modification time of the file, as
    [_get_model_version] formats it. *)
Record Loader : Type := {
  WideDeepModel : option Model;
  keras_load : string -> option Model;
  version_of : string -> string;
}.

Definition with_model (s : ModelServer) (m : option Model) : ModelServer :=
  {| model := m; max_batch_size := max_batch_size s;
     pending_requests := pending_requests s; objects := objects s;
     next_object := next_object s; total_requests := total_requests s;
     total_predictions := total_predictions s; batch_count := batch_count s |}.

(** [model_path or self.model_path]: an empty path is falsy. *)
Definition effective_path (d : Deployment) (path : option string) : string :=
  match path with
  | Some p => if String.eqb p "" then model_path d else p
  | None => model_path d
  end.

(** [load_model].  When the construction raises, [self.model] is not
    assigned; when it returns, the fresh model is assigned before the
    weights are loaded, and it stays when loading them raises. *)
Definition load_model (ld : Loader) (d : Deployment) (path : option string)
    (now : Z) : bool * Deployment :=
  let p := effective_path d path in
  match WideDeepModel ld with
  | None => (false, d)
  | Some fresh =>
      match keras_load ld p with
      | Some m =>
          (true,
           {| server := with_model (server d) (Some m);
              model_path := model_path d;
              model_version := Some (version_of ld p);
              model_loaded_time := Some now |})
      | None =>
          (false,
           {| server := with_model (server d) (Some fresh);
              model_path := model_path d; model_version := model_version d;
              model_loaded_time := model_loaded_time d |})
      end
  end.

(** [reload_model]. *)
Definition reload_model (ld : Loader) (d : Deployment) (path : option string)
    (now : Z) : bool * Deployment :=
  let old_model := model (server d) in
  let old_version := model_version d in
  let '(success, d') := load_model ld d path now in
  if success then (true, d')
  else
    (false,
     {| server := with_model (server d') old_model; model_path := model_path d';
        model_version := old_version;
        model_loaded_time := model_loaded_time d' |}).

(** [health_check]: the flag [model_loaded]. *)
Definition model_loaded (d : Deployment) : bool :=
  match model (server d) with
  | Some _ => true
  | None => false
  end.

(** A scorer that answers with one score whatever the batch. *)
Definition short_model : Model := fun _ => Some [0.5].

(** A loader whose model construction raises, a loader that builds the
    fresh model but finds no model file, and a deployment with three
    requests waiting. *)
Definition broken_loader : Loader :=
  {| WideDeepModel := None; keras_load := fun _ => None;
     version_of := fun p => p |}.

Definition missing_file_loader : Loader :=
  {| WideDeepModel := Some short_model; keras_load := fun _ => None;
     version_of := fun p => p |}.

Definition sample_deployment : Deployment :=
  {| server := snd (submit_all (init None 3) sample_inputs);
     model_path := "models/wide_deep"; model_version := None;
     model_loaded_time := None |}.

End ModelServer.

(** ** ranking-service/app/models/model_evaluator.py, [OnlineEvaluator] *)

Module OnlineEvaluator.

Record OnlineEvaluator : Type := {
  window_size : Z;
  predictions : list Q;
  labels : list Z;
  timestamps : list string;
}.

Definition init (w : Z) : OnlineEvaluator :=
  {| window_size := w; predictions := []; labels := []; timestamps := [] |}.

(** [l.pop(0)] on a non-empty list. *)
Definition pop0 {A} (l : list A) : list A := drop 1 l.

(** [add_prediction]; [now] is [datetime.now().isoformat()], used when no
    timestamp, or an empty one, is passed.  [ModelServer.add_feedback]
    calls it without a timestamp. *)
Definition add_prediction (e : OnlineEvaluator) (prediction : Q) (label : Z)
    (timestamp : option string) (now : string) : OnlineEvaluator :=
  let stamp :=
    match timestamp with
    | Some t => if String.eqb t "" then now else t
    | None => now
    end in
  let ps := predictions e ++ [prediction] in
  let ls := labels e ++ [label] in
  let ts := timestamps e ++ [stamp] in
  if (window_size e <? Z.of_nat (length ps))%Z then
    {| window_size := window_size e; predictions := pop0 ps;
       labels := pop0 ls; timestamps := pop0 ts |}
  else
    {| window_size := window_size e; predictions := ps; labels := ls;
       timestamps := ts |}.

(** [ModelServer.add_feedback] for every pair of a list, oldest first. *)
Definition add_feedbacks (e : OnlineEvaluator) (feedback : list (Q * Z))
    (now : string) : OnlineEvaluator :=
  fold_left (fun e pl => add_prediction e (fst pl) (snd pl) None now)
    feedback e.

(** [get_current_metrics] answers with a message while the window holds
    fewer than ten samples. *)
Definition has_enough_samples (e : OnlineEvaluator) : bool :=
  negb (length (predictions e) <? 10)%nat.

End OnlineEvaluator.

(** ** ranking-service/app/services/ranking_service.py *)

Module RankingService.

Definition Features : Type := dict FeatureValue.

(** A candidate dict: the keys of the request surface, the score the
    service attaches, and a popularity figure a caller may send along. *)
Record Candidate : Type := {
  content_id : option string;
  content_type : option string;
  title : option string;
  category : option string;
  popularity_score : option Q;
  metadata : dict FeatureValue;
  ranking_score : option Q;
}.

(** [c = candidate.copy(); c['ranking_score'] = score]. *)
Definition with_ranking_score (c : Candidate) (score : Q) : Candidate :=
  {| content_id := content_id c; content_type := content_type c;
     title := title c; category := category c;
     popularity_score := popularity_score c; metadata := metadata c;
     ranking_score := Some score |}.

(** The collaborators of the service.  [redis_get] is
    [redis_client.get] followed by [json.loads] ([None]: no value under
    the key); [predict_try] is the [try] block of [_predict_score]: frame
    construction, [pipeline.transform], [model.predict] and
    [float(prediction[0][0])]. *)
Record Collaborators (Redis : Type) : Type := {
  redis_get : Redis -> string -> Exec (option Features);
  redis_setex : Redis -> string -> Features -> Exec unit * Redis;
  process_context_features : Features -> Exec Features;
  predict_try : Features -> Exec Q;
}.
Arguments redis_get {Redis}.
Arguments redis_setex {Redis}.
Arguments process_context_features {Redis}.
Arguments predict_try {Redis}.

Definition default_user_features : Features :=
  [("user_age", FNum 25); ("user_gender", FStr "Unknown");
   ("user_activity_score", FNum 0.5); ("user_interests", FStr "general")]%string.

Definition default_content_features : Features :=
  [("content_type", FStr "article"); ("content_category", FStr "general");
   ("content_hot_score", FNum 0.5); ("content_duration", FNum 300)]%string.

(** [FeatureStore.get_*_features] then, on a miss, [set_*_features] of the
    defaults; any exception is caught and the defaults are returned.  An
    empty cached dict is falsy and counts as a miss. *)
Definition get_or_default {Redis} (env : Collaborators Redis) (r : Redis)
    (key : string) (default_features : Features) : Features * Redis :=
  match redis_get env r key with
  | Ok (Some (kv :: cached)) => (kv :: cached, r)
  | Ok _ => (default_features, snd (redis_setex env r key default_features))
  | Raise => (default_features, r)
  end.

Definition _get_user_features {Redis} (env : Collaborators Redis) (r : Redis)
    (user_id : string) : Features * Redis :=
  get_or_default env r ("user_features:" ++ user_id)%string
    default_user_features.

Definition _get_content_features {Redis} (env : Collaborators Redis)
    (r : Redis) (cid : string) : Features * Redis :=
  get_or_default env r ("content_features:" ++ cid)%string
    default_content_features.

(** [_predict_score]. *)
Definition _predict_score {Redis} (env : Collaborators Redis)
    (combined_features : Features) : Q :=
  match predict_try env combined_features with
  | Ok score => score
  | Raise => 0
  end.

(** The [try] block of the loop body of [rank_candidates];
    [candidate['content_id']] raises [KeyError] when the key is absent. *)
Definition score_candidate_try {Redis} (env : Collaborators Redis)
    (user_features context_features : Features) (r : Redis) (c : Candidate)
  : Exec (Candidate * Redis) :=
  cid ← from_option Ok Raise (content_id c);
  let '(content_features, r') := _get_content_features env r cid in
  let combined_features :=
    dict_merge (dict_merge user_features content_features) context_features in
  let score := _predict_score env combined_features in
  Ok (with_ranking_score c score, r').

(** The loop body with its [except] branch. *)
Definition score_candidate {Redis} (env : Collaborators Redis)
    (user_features context_features : Features) (r : Redis) (c : Candidate)
  : Candidate * Redis :=
  match score_candidate_try env user_features context_features r c with
  | Ok res => res
  | Raise => (with_ranking_score c 0, r)
  end.

Fixpoint score_candidates {Redis} (env : Collaborators Redis)
    (user_features context_features : Features) (r : Redis)
    (candidates : list Candidate) : list Candidate * Redis :=
  match candidates with
  | [] => ([], r)
  | c :: rest =>
      let '(c', r1) := score_candidate env user_features context_features r c in
      let '(rest', r2) :=
        score_candidates env user_features context_features r1 rest in
      (c' :: rest', r2)
  end.

(** The sort key [x['ranking_score']]; every scored candidate has one. *)
Definition ranking_score_key (c : Candidate) : Q :=
  default 0 (ranking_score c).

(** [rank_candidates].  A missing or empty [context] is falsy. *)
Definition rank_candidates {Redis} (env : Collaborators Redis) (r : Redis)
    (user_id : string) (candidates : list Candidate)
    (context : option Features) : list Candidate * Redis :=
  match candidates with
  | [] => ([], r)
  | _ :: _ =>
      let '(user_features, r1) := _get_user_features env r user_id in
      let context_features :=
        match context with
        | Some (kv :: ctx) => process_context_features env (kv :: ctx)
        | _ => Ok []
        end in
      match context_features with
      | Ok context_features =>
          let '(scored_candidates, r2) :=
            score_candidates env user_features context_features r1 candidates in
          (sorted_reverse ranking_score_key scored_candidates, r2)
      | Raise => ((fun c => with_ranking_score c 0) <$> candidates, r1)
      end
  end.

(** [context_features] of [rank_candidates]: what
    [process_context_features] makes of a context that is neither missing
    nor empty. *)
Definition processed_context {Redis} (env : Collaborators Redis)
    (context : option Features) : Exec Features :=
  match context with
  | Some (kv :: ctx) => process_context_features env (kv :: ctx)
  | _ => Ok []
  end.

(** [combined_features] of a candidate whose content features are read
    while the store is in the state [r0]. *)
Definition combined_features {Redis} (env : Collaborators Redis)
    (user_features context_features : Features) (r0 : Redis) (cid : string)
  : Features :=
  dict_merge
    (dict_merge user_features (fst (_get_content_features env r0 cid)))
    context_features.

(** The candidate as it was sent, without the attached score. *)
Definition strip_score (c : Candidate) : Candidate :=
  {| content_id := content_id c; content_type := content_type c;
     title := title c; category := category c;
     popularity_score := popularity_score c; metadata := metadata c;
     ranking_score := None |}.

(** [c'] is the candidate [c] with a score attached, and the score is
    [0.0] when [c] has no [content_id]. *)
Definition scored_from (c c' : Candidate) : Prop :=
  exists q, c' = with_ranking_score c q /\ (content_id c = None -> q = 0).

(** The order the specification claims for a response: descending
    score, then descending popularity, then ascending id. *)
Definition claimed_before (a b : Candidate) : Prop :=
  let pa := default 0 (popularity_score a) in
  let pb := default 0 (popularity_score b) in
  ranking_score_key b < ranking_score_key a
  \/ (ranking_score_key a == ranking_score_key b
      /\ (pb < pa
          \/ (pa == pb
              /\ String.leb (default ""%string (content_id a))
                   (default ""%string (content_id b)) = true))).

(** *** Sample requests *)

Definition sample_candidate (cid : string) (popularity : Q) : Candidate :=
  {| content_id := Some cid; content_type := Some "article"%string;
     title := None; category := None; popularity_score := Some popularity;
     metadata := []; ranking_score := None |}.

(** A store that knows no key and a model that scores everything [0.42]. *)
Definition tie_env : Collaborators unit :=
  {| redis_get := fun _ _ => Ok None;
     redis_setex := fun _ _ _ => (Ok (), ());
     process_context_features := fun _ => Ok [];
     predict_try := fun _ => Ok 0.42 |}.

(** A store whose every read raises and a model that scores everything
    [0.7]. *)
Definition store_down_env : Collaborators unit :=
  {| redis_get := fun _ _ => Raise;
     redis_setex := fun _ _ _ => (Raise, ());
     process_context_features := fun _ => Ok [];
     predict_try := fun _ => Ok 0.7 |}.

End RankingService.

(** ** feature-service/app/models/schemas.py *)

Module Schemas.

Inductive ContentType : Type := ARTICLE | VIDEO | PRODUCT.

Inductive ActionType : Type := VIEW | CLICK | LIKE | SHARE | COMMENT | PURCHASE.

#[global] Instance ActionType_eq_dec : EqDecision ActionType.
Proof. solve_decision. Defined.

#[global] Instance ContentType_eq_dec : EqDecision ContentType.
Proof. solve_decision. Defined.

(** The [value] of an enum member and the constructor call [ActionType(s)],
    which raises [ValueError] on an unknown string. *)
Definition action_value (a : ActionType) : string :=
  match a with
  | VIEW => "view" | CLICK => "click" | LIKE => "like"
  | SHARE => "share" | COMMENT => "comment" | PURCHASE => "purchase"
  end.

Definition all_actions : list ActionType :=
  [VIEW; CLICK; LIKE; SHARE; COMMENT; PURCHASE].

Definition ActionType_of (s : string) : Exec ActionType :=
  from_option (fun found => Ok (snd found)) Raise
    (list_find (fun a => String.eqb (action_value a) s = true) all_actions).

Definition content_value (c : ContentType) : string :=
  match c with
  | ARTICLE => "article" | VIDEO => "video" | PRODUCT => "product"
  end.

Definition ContentType_of (s : string) : Exec ContentType :=
  from_option (fun found => Ok (snd found)) Raise
    (list_find (fun c => String.eqb (content_value c) s = true)
       [ARTICLE; VIDEO; PRODUCT]).

(** A [datetime]: its seconds, and whether it carries an offset (a
    timestamp sent with an offset, ['...Z'] for one, is parsed as an aware
    datetime; [datetime.now()] is naive).  The difference of an aware and
    a naive datetime raises [TypeError]. *)
Record datetime : Type := {
  seconds : Z;
  aware : bool;
}.

Definition naive (t : Z) : datetime := {| seconds := t; aware := false |}.

(** [(a - b).total_seconds()]. *)
Definition datetime_sub (a b : datetime) : Exec Z :=
  if Bool.eqb (aware a) (aware b) then Ok (seconds a - seconds b)%Z
  else Raise.

(** [class UserFeatures]; [created_at] and [updated_at] are readings of
    the service clock, in seconds. *)
Record UserFeatures : Type := {
  user_id : string;
  age_group : option string;
  gender : option string;
  location : option string;
  interests : list string;
  behavior_score : Q;
  activity_level : string;
  preferred_content_types : list ContentType;
  last_active : option datetime;
  feature_vector : list Q;
  created_at : Z;
  updated_at : Z;
}.

(** [class UserBehavior]. *)
Record UserBehavior : Type := {
  b_user_id : string;
  b_content_id : string;
  b_action_type : ActionType;
  b_content_type : ContentType;
  b_session_id : option string;
  b_device_type : option string;
  b_duration : option Z;
  b_timestamp : datetime;
}.

End Schemas.

(** ** feature-service/app/services/user_feature_service.py *)

Module UserFeatureService.
Import Schemas.

(** [self.behavior_weights]. *)
Definition behavior_weights : list (ActionType * Q) :=
  [(VIEW, 1.0); (CLICK, 2.0); (LIKE, 3.0); (SHARE, 4.0); (COMMENT, 3.5);
   (PURCHASE, 5.0)].

(** [self.behavior_weights.get(a, 1.0)]. *)
Definition behavior_weight (a : ActionType) : Q :=
  default 1.0
    ((fun found => snd (snd found)) <$>
       list_find (fun kv => fst kv = a) behavior_weights).

(** One row of the query of [_compute_user_features]:
    [(action_type, content_type, action_count, avg_duration, last_action)]. *)
Record BehaviorRow : Type := {
  row_action_type : string;
  row_content_type : string;
  row_action_count : nat;
  row_avg_duration : Q;
  row_last_action : Z;
}.

(** The analytical store as the service sees it: the rows of the query
    for a user, or an exception (which includes [int(user_id)] failing). *)
Definition ClickHouse : Type := string -> Exec (list BehaviorRow).

(** The redis cache of serialized features: under a cache key, the
    value and the time at which the key expires.  The cache is taken to be
    reachable: when redis raises, each method of the service logs the
    exception and stores nothing. *)
Definition Redis : Type := gmap string (UserFeatures * Z).

(** [settings.USER_FEATURE_EXPIRE], in seconds. *)
Definition USER_FEATURE_EXPIRE : Z := 3600.

(** [redis_client.get(key)] at the time [now], followed by [json.loads]
    and the construction of [UserFeatures] from the parsed data: an
    expired key is gone. *)
Definition redis_get (redis : Redis) (key : string) (now : Z)
  : option UserFeatures :=
  match redis !! key with
  | Some (value, expires) => if (now <? expires)%Z then Some value else None
  | None => None
  end.

(** [redis_client.setex(key, ttl, value)] at the time [now]. *)
Definition redis_setex (redis : Redis) (key : string) (ttl : Z)
    (value : UserFeatures) (now : Z) : Redis :=
  <[key := (value, (now + ttl)%Z)]> redis.

Definition redis_key_prefix : string := "user:features:".

Definition with_behavior_score (f : UserFeatures) (v : Q) : UserFeatures :=
  {| user_id := user_id f; age_group := age_group f; gender := gender f;
     location := location f; interests := interests f; behavior_score := v;
     activity_level := activity_level f;
     preferred_content_types := preferred_content_types f;
     last_active := last_active f; feature_vector := feature_vector f;
     created_at := created_at f; updated_at := updated_at f |}.

Definition with_interests (f : UserFeatures) (v : list string) : UserFeatures :=
  {| user_id := user_id f; age_group := age_group f; gender := gender f;
     location := location f; interests := v;
     behavior_score := behavior_score f; activity_level := activity_level f;
     preferred_content_types := preferred_content_types f;
     last_active := last_active f; feature_vector := feature_vector f;
     created_at := created_at f; updated_at := updated_at f |}.

Definition with_activity_level (f : UserFeatures) (v : string) : UserFeatures :=
  {| user_id := user_id f; age_group := age_group f; gender := gender f;
     location := location f; interests := interests f;
     behavior_score := behavior_score f; activity_level := v;
     preferred_content_types := preferred_content_types f;
     last_active := last_active f; feature_vector := feature_vector f;
     created_at := created_at f; updated_at := updated_at f |}.

Definition with_preferred (f : UserFeatures) (v : list ContentType)
  : UserFeatures :=
  {| user_id := user_id f; age_group := age_group f; gender := gender f;
     location := location f; interests := interests f;
     behavior_score := behavior_score f; activity_level := activity_level f;
     preferred_content_types := v;
     last_active := last_active f; feature_vector := feature_vector f;
     created_at := created_at f; updated_at := updated_at f |}.

Definition with_feature_vector (f : UserFeatures) (v : list Q) : UserFeatures :=
  {| user_id := user_id f; age_group := age_group f; gender := gender f;
     location := location f; interests := interests f;
     behavior_score := behavior_score f; activity_level := activity_level f;
     preferred_content_types := preferred_content_types f;
     last_active := last_active f; feature_vector := v;
     created_at := created_at f; updated_at := updated_at f |}.

Definition with_times (f : UserFeatures) (active : option datetime)
    (updated : Z)
  : UserFeatures :=
  {| user_id := user_id f; age_group := age_group f; gender := gender f;
     location := location f; interests := interests f;
     behavior_score := behavior_score f; activity_level := activity_level f;
     preferred_content_types := preferred_content_types f;
     last_active := active; feature_vector := feature_vector f;
     created_at := created_at f; updated_at := updated |}.

(** [UserFeatures(user_id=uid)]: the defaults of the schema. *)
Definition new_features (uid : string) (now : Z) : UserFeatures :=
  {| user_id := uid; age_group := None; gender := None; location := None;
     interests := []; behavior_score := 0.0; activity_level := "low";
     preferred_content_types := []; last_active := None;
     feature_vector := []; created_at := now; updated_at := now |}.

(** [_create_default_features]. *)
Definition _create_default_features (uid : string) (now : Z) : UserFeatures :=
  with_feature_vector (new_features uid now) (replicate 64 0.0).

(** [_generate_feature_vector]. *)
Definition _generate_feature_vector (f : UserFeatures) : list Q :=
  let vector := replicate 64 0.0 in
  let vector := <[0%nat := behavior_score f / 10.0]> vector in
  let activity :=
    if String.eqb (activity_level f) "low" then 0.2
    else if String.eqb (activity_level f) "medium" then 0.6
    else if String.eqb (activity_level f) "high" then 1.0
    else 0.2 in
  let vector := <[1%nat := activity]> vector in
  let vector :=
    fold_left (fun v i => <[(2 + i)%nat := 1.0]> v)
      (seq 0 (length (take 3 (preferred_content_types f)))) vector in
  fold_left (fun v i => <[(5 + i)%nat := 1.0]> v)
    (seq 0 (length (take 10 (interests f)))) vector.

(** The accumulation loop of [_compute_user_features]: the weighted score
    and the per-content-type counts. *)
Fixpoint accumulate_rows (rows : list BehaviorRow) (total_score : Q)
    (content_type_counts : dict nat) : Exec (Q * dict nat) :=
  match rows with
  | [] => Ok (total_score, content_type_counts)
  | row :: rest =>
      a ← ActionType_of (row_action_type row);
      let weight := behavior_weight a in
      let total_score :=
        total_score + weight * inject_Z (Z.of_nat (row_action_count row)) in
      let seen := default 0%nat (dict_get content_type_counts
                                   (row_content_type row)) in
      accumulate_rows rest total_score
        (dict_set content_type_counts (row_content_type row)
           (seen + row_action_count row)%nat)
  end.

Fixpoint content_types_of (l : list (string * nat)) : Exec (list ContentType) :=
  match l with
  | [] => Ok []
  | (ct, _) :: rest =>
      c ← ContentType_of ct;
      cs ← content_types_of rest;
      Ok (c :: cs)
  end.

(** The [try] block of [_compute_user_features] once the query returned
    [result]. *)
Definition compute_from_rows (uid : string) (now : Z)
    (result : list BehaviorRow) : Exec UserFeatures :=
  match result with
  | [] => Ok (_create_default_features uid now)
  | _ :: _ =>
      let features := new_features uid now in
      '(total_score, content_type_counts) ← accumulate_rows result 0 [];
      let features :=
        with_behavior_score features (Qmin (total_score / 100.0) 10.0) in
      features ←
        match content_type_counts with
        | [] => Ok features
        | _ :: _ =>
            let sorted_types :=
              sorted_reverse (fun kv => inject_Z (Z.of_nat (snd kv)))
                content_type_counts in
            cts ← content_types_of (take 3 sorted_types);
            Ok (with_preferred features cts)
        end;
      let total_actions := sum_list (row_action_count <$> result) in
      let features :=
        with_activity_level features
          (if (100 <? total_actions)%nat then "high"
           else if (20 <? total_actions)%nat then "medium"
           else "low") in
      Ok (with_feature_vector features (_generate_feature_vector features))
  end.

(** [_compute_user_features]: [None] when anything raised. *)
Definition _compute_user_features (ch : ClickHouse) (uid : string) (now : Z)
  : option UserFeatures :=
  match result ← ch uid; compute_from_rows uid now result with
  | Ok features => Some features
  | Raise => None
  end.

(** [_cache_user_features], at the time [now]. *)
Definition _cache_user_features (redis : Redis) (uid : string)
    (features : UserFeatures) (now : Z) : Redis :=
  redis_setex redis (redis_key_prefix ++ uid)%string USER_FEATURE_EXPIRE
    features now.

(** [get_user_features]. *)
Definition get_user_features (ch : ClickHouse) (redis : Redis) (uid : string)
    (now : Z) : option UserFeatures * Redis :=
  match redis_get redis (redis_key_prefix ++ uid)%string now with
  | Some cached => (Some cached, redis)
  | None =>
      match _compute_user_features ch uid now with
      | Some features =>
          (Some features, _cache_user_features redis uid features now)
      | None => (None, redis)
      end
  end.

(** [_update_interest_tags]. *)
Definition _update_interest_tags (f : UserFeatures) (b : UserBehavior)
  : UserFeatures :=
  match b_content_type b with
  | ARTICLE =>
      if bool_decide ("tech"%string ∈ interests f) then f
      else with_interests f (interests f ++ ["tech"%string])
  | VIDEO =>
      if bool_decide ("entertainment"%string ∈ interests f) then f
      else with_interests f (interests f ++ ["entertainment"%string])
  | PRODUCT => f
  end.

(** [time_diff = behavior.timestamp - features.last_active] of
    [_update_activity_level], evaluated when [last_active] is set. *)
Definition time_diff (f : UserFeatures) (b : UserBehavior) : Exec (option Z) :=
  match last_active f with
  | Some active => d ← datetime_sub (b_timestamp b) active; Ok (Some d)
  | None => Ok None
  end.

(** [_update_activity_level], where the subtraction does not raise. *)
Definition _update_activity_level (f : UserFeatures) (b : UserBehavior)
  : UserFeatures :=
  match last_active f with
  | Some active =>
      if (seconds (b_timestamp b) - seconds active <? 3600)%Z then
        if String.eqb (activity_level f) "low" then
          with_activity_level f "medium"
        else if String.eqb (activity_level f) "medium" then
          with_activity_level f "high"
        else f
      else f
  | None => f
  end.

(** The incremental update of [process_user_behavior] applied to the
    features it loaded. *)
Definition patch_features (current_features : UserFeatures) (b : UserBehavior)
    (now : Z) : UserFeatures :=
  let weight := behavior_weight (b_action_type b) in
  let f :=
    with_behavior_score current_features
      (behavior_score current_features + weight * 0.1) in
  let f := _update_interest_tags f b in
  let f := _update_activity_level f b in
  with_times f (Some (b_timestamp b)) now.

(** The [try] block of [process_user_behavior] from the weight to the
    time stamps: the patch, unless the subtraction of
    [_update_activity_level] raises.  The two steps before it change
    neither [last_active] nor the event. *)
Definition patch_features_try (current_features : UserFeatures)
    (b : UserBehavior) (now : Z) : Exec UserFeatures :=
  _ ← time_diff current_features b;
  Ok (patch_features current_features b now).

(** [process_user_behavior]: when the patch raises, the [except] branch
    logs the exception and the patch is not cached; what
    [get_user_features] cached stays. *)
Definition process_user_behavior (ch : ClickHouse) (redis : Redis)
    (b : UserBehavior) (now : Z) : Redis :=
  let '(loaded, redis) := get_user_features ch redis (b_user_id b) now in
  let current_features :=
    default (_create_default_features (b_user_id b) now) loaded in
  match patch_features_try current_features b now with
  | Ok patched => _cache_user_features redis (b_user_id b) patched now
  | Raise => redis
  end.

(** The ingestion path over a sequence of events that arrive while the
    service clock reads [now]. *)
Definition process_user_behaviors (ch : ClickHouse) (redis : Redis)
    (events : list UserBehavior) (now : Z) : Redis :=
  fold_left (fun r b => process_user_behavior ch r b now) events redis.

(** The three activity levels in ascending order; any other string
    stands below them. *)
Definition activity_rank (level : string) : nat :=
  if String.eqb level "low" then 1
  else if String.eqb level "medium" then 2
  else if String.eqb level "high" then 3
  else 0.

(** *** A sample ingestion *)

(** An analytical store without rows for any user. *)
Definition empty_log : ClickHouse := fun _ => Ok [].

Definition sample_purchase (t : Z) : UserBehavior :=
  {| b_user_id := "1"; b_content_id := "7"; b_action_type := PURCHASE;
     b_content_type := PRODUCT; b_session_id := None; b_device_type := None;
     b_duration := None; b_timestamp := naive t |}.

(** A view of the viewer ["1"] whose timestamp carries an offset. *)
Definition sample_aware_view : UserBehavior :=
  {| b_user_id := "1"; b_content_id := "7"; b_action_type := VIEW;
     b_content_type := ARTICLE; b_session_id := None; b_device_type := None;
     b_duration := None; b_timestamp := {| seconds := 150; aware := true |} |}.

(** A behavior log with the same rows for every user: 30 article views
    and 4 video likes. *)
Definition sample_log : ClickHouse := fun _ =>
  Ok [ {| row_action_type := "view"; row_content_type := "article";
          row_action_count := 30; row_avg_duration := 12;
          row_last_action := 90 |};
       {| row_action_type := "like"; row_content_type := "video";
          row_action_count := 4; row_avg_duration := 40;
          row_last_action := 95 |} ].

(** The features computed from [sample_log] for the viewer ["1"]. *)
Definition sample_computed : UserFeatures :=
  default (new_features "1" 100) (_compute_user_features sample_log "1" 100).

End UserFeatureService.

(** ** feature-service/app/services/clickhouse_service.py *)

Module ClickHouseService.
Import Schemas.

(** A row of the table [user_behaviors], as [batch_insert_user_behaviors]
    writes it. *)
Record Row : Type := {
  user_id : Z;
  content_id : Z;
  action_type : string;
  content_type : string;
  timestamp : Z;
  duration : Z;
}.

(** SQL [multiIf(c1, v1, c2, v2, ..., otherwise)]. *)
Fixpoint multiIf (branches : list (bool * Q)) (otherwise : Q) : Q :=
  match branches with
  | [] => otherwise
  | (c, v) :: rest => if c then v else multiIf rest otherwise
  end.

(** The summand of [behavior_score] in [compute_user_offline_features]. *)
Definition behavior_score_term (action_type : string) : Q :=
  multiIf [(String.eqb action_type "view", 1);
           (String.eqb action_type "click", 2);
           (String.eqb action_type "like", 3);
           (String.eqb action_type "share", 4);
           (String.eqb action_type "comment", 3.5);
           (String.eqb action_type "purchase", 5)] 0.

(** The summand of [popularity_score] in
    [compute_content_offline_features]. *)
Definition popularity_score_term (action_type : string) : Q :=
  multiIf [(String.eqb action_type "view", 1);
           (String.eqb action_type "click", 2);
           (String.eqb action_type "like", 3);
           (String.eqb action_type "share", 5);
           (String.eqb action_type "comment", 4);
           (String.eqb action_type "purchase", 10)] 0.

(** The summand of [interaction_score] in
    [compute_user_content_interaction_matrix]. *)
Definition interaction_score_term (action_type : string) : Q :=
  multiIf [(String.eqb action_type "view", 1);
           (String.eqb action_type "click", 2);
           (String.eqb action_type "like", 3);
           (String.eqb action_type "share", 4);
           (String.eqb action_type "comment", 3.5);
           (String.eqb action_type "purchase", 5)] 0.

(** The summand of [trend_score] in [get_trending_contents]. *)
Definition trend_score_term (action_type : string) : Q :=
  multiIf [(String.eqb action_type "view", 1);
           (String.eqb action_type "click", 2);
           (String.eqb action_type "like", 3);
           (String.eqb action_type "share", 5);
           (String.eqb action_type "comment", 4)] 0.

(** SQL [sum(term(action_type))] over the rows of a group. *)
Definition sum_term (term : string -> Q) (group : list Row) : Q :=
  foldr (fun row acc => term (action_type row) + acc) 0 group.

(** The four aggregation templates that carry a weighted score, each on
    the rows of one group of the window. *)
Inductive Template : Type :=
  | ViewerAggregates
  | ItemAggregates
  | InteractionMatrix
  | Trending.

Definition template_term (t : Template) : string -> Q :=
  match t with
  | ViewerAggregates => behavior_score_term
  | ItemAggregates => popularity_score_term
  | InteractionMatrix => interaction_score_term
  | Trending => trend_score_term
  end.

Definition weighted_score (t : Template) (group : list Row) : Q :=
  sum_term (template_term t) group.

(** The weight a template gives to one event of an action kind. *)
Definition template_weight (t : Template) (a : ActionType) : Q :=
  template_term t (action_value a).

(** SQL [countIf(action_type = a)] over the rows of a group. *)
Definition countIf (a : string) (group : list Row) : nat :=
  length (filter (fun row => String.eqb (action_type row) a = true) group).

End ClickHouseService.

(** ** ranking-service/app/services/fusion_reranking_service.py *)

Module FusionRerankingService.

(** A truthy [publish_time].  [Naive t]: a naive datetime, or an ISO
    string without offset, [t] seconds of wall-clock time.  [Aware t]: a
    datetime with an offset (a string ending in [Z], for one); its date
    and hour can be read, subtracting it from [datetime.now()] raises.
    [Unparsable]: any other truthy value. *)
Inductive PublishTime : Type :=
  | Naive (t : Z)
  | Aware (t : Z)
  | Unparsable.

(** An entry of [algorithm_details]. *)
Record ScoreInfo : Type := {
  info_score : Q;
  info_weight : Q;
  info_position : nat;
}.

Record ScoreBreakdown : Type := {
  base_score : Q;
  freshness_boost : Q;
  popularity_boost : Q;
  personalization_boost : Q;
}.

(** A content dict; [None] is an absent key. *)
Record Content : Type := {
  content_id : option string;
  score : option Q;
  ranking_score : option Q;
  title : option string;
  summary : option string;
  description : option string;
  quality_score : option Q;
  publish_time : option PublishTime;
  category : option string;
  author_id : option string;
  user_rating : option Q;
  review_status : option string;
  content_type : option string;
  view_count : option Z;
  like_count : option Z;
  share_count : option Z;
  comment_count : option Z;
  device_preference : option (list string);
  fusion_score : option Q;
  algorithm_coverage : option nat;
  algorithm_details : option (dict ScoreInfo);
  final_score : option Q;
  score_breakdown : option ScoreBreakdown;
}.

(** The keys [_fuse_algorithm_results] writes into a copy. *)
Definition with_fusion (c : Content) (fs : Q) (coverage : nat)
    (details : dict ScoreInfo) : Content :=
  {| content_id := content_id c; score := score c;
     ranking_score := ranking_score c; title := title c;
     summary := summary c; description := description c;
     quality_score := quality_score c; publish_time := publish_time c;
     category := category c; author_id := author_id c;
     user_rating := user_rating c; review_status := review_status c;
     content_type := content_type c; view_count := view_count c;
     like_count := like_count c; share_count := share_count c;
     comment_count := comment_count c;
     device_preference := device_preference c;
     fusion_score := Some fs; algorithm_coverage := Some coverage;
     algorithm_details := Some details;
     final_score := final_score c; score_breakdown := score_breakdown c |}.

(** The keys [_final_ranking_optimization] writes into a copy. *)
Definition with_final (c : Content) (fs : Q) (breakdown : ScoreBreakdown)
  : Content :=
  {| content_id := content_id c; score := score c;
     ranking_score := ranking_score c; title := title c;
     summary := summary c; description := description c;
     quality_score := quality_score c; publish_time := publish_time c;
     category := category c; author_id := author_id c;
     user_rating := user_rating c; review_status := review_status c;
     content_type := content_type c; view_count := view_count c;
     like_count := like_count c; share_count := share_count c;
     comment_count := comment_count c;
     device_preference := device_preference c;
     fusion_score := fusion_score c;
     algorithm_coverage := algorithm_coverage c;
     algorithm_details := algorithm_details c;
     final_score := Some fs; score_breakdown := Some breakdown |}.

(** [k in d] on a key modelled as an optional field. *)
Definition has_key {A} (field : option A) : bool :=
  match field with
  | Some _ => true
  | None => false
  end.

(** Truthiness of a content dict: it has a key. *)
Definition dict_truthy (c : Content) : bool :=
  has_key (content_id c) || has_key (score c)
  || has_key (ranking_score c) || has_key (title c)
  || has_key (summary c) || has_key (description c)
  || has_key (quality_score c) || has_key (publish_time c)
  || has_key (category c) || has_key (author_id c)
  || has_key (user_rating c) || has_key (review_status c)
  || has_key (content_type c) || has_key (view_count c)
  || has_key (like_count c) || has_key (share_count c)
  || has_key (comment_count c) || has_key (device_preference c)
  || has_key (fusion_score c) || has_key (algorithm_coverage c)
  || has_key (algorithm_details c) || has_key (final_score c)
  || has_key (score_breakdown c).

(** The sections of the configuration; [None] is an absent key. *)
Record DiversityConfig : Type := {
  category_diversity_weight : option Q;
  content_type_diversity_weight : option Q;
  author_diversity_weight : option Q;
  time_diversity_weight : option Q;
  max_same_category_ratio : option Q;
  max_same_author_ratio : option Q;
}.

Record BusinessRules : Type := {
  min_content_quality_score : option Q;
  max_content_age_days : option Z;
  blocked_categories : option (list string);
  blocked_authors : option (list string);
  min_user_rating : option Q;
  require_content_review : option bool;
}.

Record DedupConfig : Type := {
  similarity_threshold : option Q;
  title_similarity_weight : option Q;
  content_similarity_weight : option Q;
}.

Record FinalRankingConfig : Type := {
  base_score_weight : option Q;
  freshness_boost_weight : option Q;
  popularity_boost_weight : option Q;
  personalization_boost_weight : option Q;
  freshness_half_life_hours : option Q;
  max_popularity_score : option Q;
}.

(** [math.exp] and [math.log] on floats, which the embedding does not
    compute; [exp] may raise [OverflowError]. *)
Record MathLib : Type := {
  exp : Q -> Exec Q;
  log : Q -> Q;
}.

(** [class FusionRerankingService] after [__init__]. *)
Record Service : Type := {
  algorithm_weights : dict Q;
  diversity_config : DiversityConfig;
  business_rules : BusinessRules;
  dedup_config : DedupConfig;
  final_ranking_config : FinalRankingConfig;
  math : MathLib;
}.

(** [_get_default_config]. *)
Definition default_algorithm_weights : dict Q :=
  [("collaborative_filtering", 0.3); ("content_based", 0.3);
   ("deep_learning", 0.4)]%string.

Definition default_diversity_config : DiversityConfig :=
  {| category_diversity_weight := Some 0.3;
     content_type_diversity_weight := Some 0.2;
     author_diversity_weight := Some 0.2;
     time_diversity_weight := Some 0.3;
     max_same_category_ratio := Some 0.4;
     max_same_author_ratio := Some 0.3 |}.

Definition default_business_rules : BusinessRules :=
  {| min_content_quality_score := Some 0.6;
     max_content_age_days := Some 30%Z;
     blocked_categories := Some [];
     blocked_authors := Some [];
     min_user_rating := Some 3.0;
     require_content_review := Some true |}.

Definition default_dedup_config : DedupConfig :=
  {| similarity_threshold := Some 0.8;
     title_similarity_weight := Some 0.4;
     content_similarity_weight := Some 0.6 |}.

Definition default_final_ranking_config : FinalRankingConfig :=
  {| base_score_weight := Some 0.6;
     freshness_boost_weight := Some 0.15;
     popularity_boost_weight := Some 0.15;
     personalization_boost_weight := Some 0.1;
     freshness_half_life_hours := Some 24;
     max_popularity_score := Some 20 |}.

Definition default_service (m : MathLib) : Service :=
  {| algorithm_weights := default_algorithm_weights;
     diversity_config := default_diversity_config;
     business_rules := default_business_rules;
     dedup_config := default_dedup_config;
     final_ranking_config := default_final_ranking_config;
     math := m |}.

(** [content['content_id']]. *)
Definition subscript_content_id (c : Content) : Exec string :=
  from_option Ok Raise (content_id c).

(** *** Stage 1: [_fuse_algorithm_results] *)

(** [content.get('score', content.get('ranking_score', 0.5))]. *)
Definition original_score (c : Content) : Q :=
  default (default 0.5 (ranking_score c)) (score c).

(** The body of the inner loop of the first pass, on
    [(content_scores, all_contents)]. *)
Definition collect_content (algorithm_name : string) (algorithm_weight : Q)
    (idx : nat) (content : Content)
    (st : dict (dict ScoreInfo) * dict Content)
  : Exec (dict (dict ScoreInfo) * dict Content) :=
  let '(content_scores, all_contents) := st in
  cid ← subscript_content_id content;
  let all_contents :=
    match dict_get all_contents cid with
    | Some _ => all_contents
    | None => dict_set all_contents cid content
    end in
  let position_score := 1.0 / inject_Z (Z.of_nat idx + 1) in
  let combined_score := original_score content * position_score in
  let per_content := default [] (dict_get content_scores cid) in
  Ok (dict_set content_scores cid
        (dict_set per_content algorithm_name
           {| info_score := combined_score; info_weight := algorithm_weight;
              info_position := idx |}),
      all_contents).

Fixpoint collect_results (algorithm_name : string) (algorithm_weight : Q)
    (idx : nat) (results : list Content)
    (st : dict (dict ScoreInfo) * dict Content)
  : Exec (dict (dict ScoreInfo) * dict Content) :=
  match results with
  | [] => Ok st
  | content :: rest =>
      st' ← collect_content algorithm_name algorithm_weight idx content st;
      collect_results algorithm_name algorithm_weight (S idx) rest st'
  end.

Fixpoint collect_algorithms (weights : dict Q)
    (algorithm_results : dict (list Content))
    (st : dict (dict ScoreInfo) * dict Content)
  : Exec (dict (dict ScoreInfo) * dict Content) :=
  match algorithm_results with
  | [] => Ok st
  | (algorithm_name, results) :: rest =>
      let algorithm_weight := default 0.1 (dict_get weights algorithm_name) in
      st' ← collect_results algorithm_name algorithm_weight 0 results st;
      collect_algorithms weights rest st'
  end.

(** The two accumulators of the second pass. *)
Definition weighted_and_total (algorithm_scores : dict ScoreInfo) : Q * Q :=
  fold_left
    (fun acc kv =>
       (fst acc + info_score (snd kv) * info_weight (snd kv),
        snd acc + info_weight (snd kv)))
    algorithm_scores (0.0, 0.0).

(** [final_score] before the bonus: the weighted mean of the scores. *)
Definition normalized_score (algorithm_scores : dict ScoreInfo) : Q :=
  let '(weighted_score, total_weight) := weighted_and_total algorithm_scores in
  if Qgt_bool total_weight 0 then weighted_score / total_weight else 0.0.

(** [coverage_bonus], for a non-empty [self.algorithm_weights]. *)
Definition coverage_bonus (weights : dict Q)
    (algorithm_scores : dict ScoreInfo) : Q :=
  inject_Z (Z.of_nat (length algorithm_scores))
  / inject_Z (Z.of_nat (length weights)) * 0.1.

(** The body of the second pass for one entry of [all_contents]; the
    division by [len(self.algorithm_weights)] raises when no algorithm is
    configured. *)
Definition fuse_content (weights : dict Q)
    (content_scores : dict (dict ScoreInfo)) (entry : string * Content)
  : Exec Content :=
  let algorithm_scores := default [] (dict_get content_scores (fst entry)) in
  let final_score := normalized_score algorithm_scores in
  match weights with
  | [] => Raise
  | _ :: _ =>
      Ok (with_fusion (snd entry)
            (final_score + coverage_bonus weights algorithm_scores)
            (length algorithm_scores) algorithm_scores)
  end.

Fixpoint fuse_contents (weights : dict Q)
    (content_scores : dict (dict ScoreInfo)) (all_contents : dict Content)
  : Exec (list Content) :=
  match all_contents with
  | [] => Ok []
  | entry :: rest =>
      c ← fuse_content weights content_scores entry;
      cs ← fuse_contents weights content_scores rest;
      Ok (c :: cs)
  end.

Definition fusion_score_key (c : Content) : Q := default 0.0 (fusion_score c).

Definition _fuse_algorithm_results (svc : Service)
    (algorithm_results : dict (list Content)) : Exec (list Content) :=
  '(content_scores, all_contents) ←
     collect_algorithms (algorithm_weights svc) algorithm_results ([], []);
  fused_results ←
     fuse_contents (algorithm_weights svc) content_scores all_contents;
  Ok (sorted_reverse fusion_score_key fused_results).

(** *** Stage 2: [_deduplicate_results] *)

(** [str.lower] and [str.split] on ASCII text. *)
Definition lower_ascii (c : ascii) : ascii :=
  let n := nat_of_ascii c in
  if ((65 <=? n) && (n <=? 90))%nat then ascii_of_nat (n + 32) else c.

Definition lower (s : string) : string :=
  string_of_list_ascii (lower_ascii <$> list_ascii_of_string s).

Definition is_space (c : ascii) : bool :=
  let n := nat_of_ascii c in
  ((n =? 32) || ((9 <=? n) && (n <=? 13)) || ((28 <=? n) && (n <=? 31)))%nat.

(** [word] holds the current word, last character first. *)
Fixpoint split_from (word : list ascii) (s : list ascii) : list string :=
  match s with
  | [] =>
      match word with
      | [] => []
      | _ :: _ => [string_of_list_ascii (rev word)]
      end
  | c :: s' =>
      if is_space c then
        match word with
        | [] => split_from [] s'
        | _ :: _ => string_of_list_ascii (rev word) :: split_from [] s'
        end
      else split_from (c :: word) s'
  end.

Definition split (s : string) : list string :=
  split_from [] (list_ascii_of_string s).

(** [_calculate_text_similarity]. *)
Definition _calculate_text_similarity (text1 text2 : string) : Q :=
  if String.eqb text1 "" || String.eqb text2 "" then 0.0
  else
    let words1 : gset string := list_to_set (split text1) in
    let words2 : gset string := list_to_set (split text2) in
    if bool_decide (words1 = ∅) && bool_decide (words2 = ∅) then 1.0
    else
      let intersection := size (words1 ∩ words2) in
      let union := size (words1 ∪ words2) in
      if (0 <? union)%nat then
        inject_Z (Z.of_nat intersection) / inject_Z (Z.of_nat union)
      else 0.0.

(** [content.get('title', '').lower()] and
    [content.get('summary', content.get('description', '')).lower()]. *)
Definition title_text (c : Content) : string :=
  lower (default ""%string (title c)).

Definition summary_text (c : Content) : string :=
  lower (default (default ""%string (description c)) (summary c)).

(** [overall_similarity] of [_is_similar_to_existing]. *)
Definition overall_similarity (cfg : DedupConfig) (content existing : Content)
  : Q :=
  let title_similarity :=
    _calculate_text_similarity (title_text content) (title_text existing) in
  let content_similarity :=
    _calculate_text_similarity (summary_text content) (summary_text existing) in
  title_similarity * default 0.4 (title_similarity_weight cfg)
  + content_similarity * default 0.6 (content_similarity_weight cfg).

Definition _is_similar_to_existing (cfg : DedupConfig) (content : Content)
    (existing_contents : list Content) : bool :=
  existsb
    (fun existing =>
       Qgt_bool (overall_similarity cfg content existing)
         (default 0.8 (similarity_threshold cfg)))
    existing_contents.

(** The loop of [_deduplicate_results] on
    [(deduplicated, seen_content_ids)]. *)
Fixpoint dedup_loop (cfg : DedupConfig) (results : list Content)
    (deduplicated : list Content) (seen_content_ids : gset string)
  : Exec (list Content) :=
  match results with
  | [] => Ok deduplicated
  | content :: rest =>
      cid ← subscript_content_id content;
      if bool_decide (cid ∈ seen_content_ids) then
        dedup_loop cfg rest deduplicated seen_content_ids
      else if _is_similar_to_existing cfg content deduplicated then
        dedup_loop cfg rest deduplicated seen_content_ids
      else
        dedup_loop cfg rest (deduplicated ++ [content])
          ({[ cid ]} ∪ seen_content_ids)
  end.

Definition _deduplicate_results (svc : Service) (results : list Content)
  : Exec (list Content) :=
  dedup_loop (dedup_config svc) results [] ∅.

(** *** Stage 3: [_apply_business_rules] *)

Definition in_list (s : string) (l : list string) : bool :=
  existsb (String.eqb s) l.

(** [_check_user_preferences]: every branch falls through to
    [return True]. *)
Definition _check_user_preferences (c : Content) : bool := true.

(** The body of the loop for one item: the counter of [filter_stats] that
    is incremented, or [None] when the item is kept. *)
Definition rejection (rules : BusinessRules) (current_time : Z) (c : Content)
  : option string :=
  let quality_score := default 0.8 (quality_score c) in
  let min_quality := default 0.6 (min_content_quality_score rules) in
  if Qlt_bool quality_score min_quality then Some "low_quality"%string
  else if
    match publish_time c with
    | Some (Naive t) =>
        let content_age := ((current_time - t) `div` 86400)%Z in
        let max_age := default 30%Z (max_content_age_days rules) in
        (max_age <? content_age)%Z
    | _ => false
    end
  then Some "too_old"%string
  else if in_list (default ""%string (category c))
            (default [] (blocked_categories rules))
  then Some "blocked_category"%string
  else if in_list (default ""%string (author_id c))
            (default [] (blocked_authors rules))
  then Some "blocked_author"%string
  else if Qlt_bool (default 5.0 (user_rating c))
            (default 3.0 (min_user_rating rules))
  then Some "low_rating"%string
  else if default true (require_content_review rules)
          && negb (String.eqb (default "pending"%string (review_status c))
                     "approved")
  then Some "not_reviewed"%string
  else if negb (_check_user_preferences c) then Some "user_preference"%string
  else None.

Definition _apply_business_rules (svc : Service) (current_time : Z)
    (results : list Content) : list Content :=
  filter (fun c => rejection (business_rules svc) current_time c = None)
    results.

(** An item passes every check of the loop, a missing field standing
    for its default: quality 0.8, rating 5.0, review status ['pending']. *)
Definition passes_rules (rules : BusinessRules) (current_time : Z)
    (c : Content) : Prop :=
  default 0.6 (min_content_quality_score rules)
  <= default 0.8 (quality_score c)
  /\ match publish_time c with
     | Some (Naive t) =>
         ((current_time - t) `div` 86400
          <= default 30 (max_content_age_days rules))%Z
     | _ => True
     end
  /\ in_list (default ""%string (category c))
       (default [] (blocked_categories rules)) = false
  /\ in_list (default ""%string (author_id c))
       (default [] (blocked_authors rules)) = false
  /\ default 3.0 (min_user_rating rules) <= default 5.0 (user_rating c)
  /\ (default true (require_content_review rules) = true ->
      default "pending"%string (review_status c) = "approved"%string).

(** The counters [filter_stats] holds when the loop ends. *)
Definition filter_stats (svc : Service) (current_time : Z)
    (results : list Content) (reason : string) : nat :=
  length
    (filter (fun c => rejection (business_rules svc) current_time c
                      = Some reason) results).

(** *** Stage 4: [_ensure_diversity] *)

(** The four [defaultdict(int)] counters.  A time bucket
    [f"{dt.date()}_{dt.hour//6}"] is the number of the six-hour interval
    ([Some]); [None] is the key ['unknown']. *)
Record Counters : Type := {
  category_count : gmap string nat;
  content_type_count : gmap string nat;
  author_count : gmap string nat;
  time_bucket_count : gmap (option Z) nat;
}.

Definition empty_counters : Counters :=
  {| category_count := ∅; content_type_count := ∅; author_count := ∅;
     time_bucket_count := ∅ |}.

Definition increment `{Countable K} (m : gmap K nat) (k : K) : gmap K nat :=
  <[k := S (default 0%nat (m !! k))]> m.

Definition time_bucket (t : Z) : Z := (t `div` 21600)%Z.

(** [_update_diversity_counters]. *)
Definition _update_diversity_counters (c : Content) (n : Counters) : Counters :=
  {| category_count :=
       increment (category_count n) (default "unknown"%string (category c));
     content_type_count :=
       increment (content_type_count n)
         (default "unknown"%string (content_type c));
     author_count :=
       increment (author_count n) (default "unknown"%string (author_id c));
     time_bucket_count :=
       match publish_time c with
       | None => time_bucket_count n
       | Some (Naive t) | Some (Aware t) =>
           increment (time_bucket_count n) (Some (time_bucket t))
       | Some Unparsable => increment (time_bucket_count n) None
       end |}.

Definition count_ratio (count total_selected : nat) : Q :=
  inject_Z (Z.of_nat count) / inject_Z (Z.of_nat total_selected).

(** [_calculate_diversity_score]. *)
Definition _calculate_diversity_score (cfg : DiversityConfig)
    (candidate : Content) (selected : list Content) (n : Counters) : Q :=
  match selected with
  | [] => 1.0
  | _ :: _ =>
      let total_selected := length selected in
      let category_ratio :=
        count_ratio
          (default 0%nat
             (category_count n !! default "unknown"%string (category candidate)))
          total_selected in
      let category_penalty :=
        Qmax 0 (category_ratio - default 0.4 (max_same_category_ratio cfg)) in
      let diversity_score :=
        0.0 + (1.0 - category_penalty)
              * default 0.3 (category_diversity_weight cfg) in
      let type_ratio :=
        count_ratio
          (default 0%nat
             (content_type_count n
                !! default "unknown"%string (content_type candidate)))
          total_selected in
      let diversity_score :=
        diversity_score
        + (1.0 - type_ratio) * default 0.2 (content_type_diversity_weight cfg) in
      let author_ratio :=
        count_ratio
          (default 0%nat
             (author_count n !! default "unknown"%string (author_id candidate)))
          total_selected in
      let author_penalty :=
        Qmax 0 (author_ratio - default 0.3 (max_same_author_ratio cfg)) in
      let diversity_score :=
        diversity_score
        + (1.0 - author_penalty) * default 0.2 (author_diversity_weight cfg) in
      let time_weight := default 0.3 (time_diversity_weight cfg) in
      let diversity_score :=
        match publish_time candidate with
        | None => diversity_score
        | Some (Naive t) | Some (Aware t) =>
            let time_ratio :=
              count_ratio
                (default 0%nat (time_bucket_count n !! Some (time_bucket t)))
                total_selected in
            diversity_score + (1.0 - time_ratio) * time_weight
        | Some Unparsable => diversity_score + 0.5 * time_weight
        end in
      Qmin 1.0 (Qmax 0.0 diversity_score)
  end.

(** [combined_score] of a candidate in the selection loop. *)
Definition mmr_score (cfg : DiversityConfig) (diversified : list Content)
    (n : Counters) (candidate : Content) : Q :=
  let diversity_score :=
    _calculate_diversity_score cfg candidate diversified n in
  let relevance_score := default 0.0 (fusion_score candidate) in
  let lambda_param := 0.7 in
  lambda_param * relevance_score + (1 - lambda_param) * diversity_score.

(** The [for] loop over [enumerate(remaining)], on
    [(best_candidate, best_idx, best_score)]. *)
Fixpoint best_of (combined : Content -> Q) (idx : nat)
    (remaining : list Content) (best : option (nat * Content)) (best_score : Q)
  : option (nat * Content) :=
  match remaining with
  | [] => best
  | candidate :: rest =>
      if Qgt_bool (combined candidate) best_score then
        best_of combined (S idx) rest (Some (idx, candidate))
          (combined candidate)
      else best_of combined (S idx) rest best best_score
  end.

(** The [while] loop.  An iteration that selects nothing leaves the loop
    state as it was, so the loop never ends: this is [None].  Every other
    iteration shortens [remaining]; [fuel] bounds their number. *)
Fixpoint mmr_loop (cfg : DiversityConfig) (fuel : nat) (target_size : Z)
    (diversified remaining : list Content) (n : Counters)
  : option (list Content) :=
  if (Z.of_nat (length diversified) <? target_size)%Z
     && negb (bool_decide (remaining = []))
  then
    match best_of (mmr_score cfg diversified n) 0 remaining None (-1) with
    | Some (best_idx, best_candidate) =>
        if dict_truthy best_candidate then
          match fuel with
          | O => None
          | S fuel' =>
              mmr_loop cfg fuel' target_size (diversified ++ [best_candidate])
                (delete best_idx remaining)
                (_update_diversity_counters best_candidate n)
          end
        else None
    | None => None
    end
  else Some diversified.

Definition _ensure_diversity (svc : Service) (results : list Content)
    (target_size : Z) : option (list Content) :=
  if (Z.of_nat (length results) <=? target_size)%Z then Some results
  else
    match results with
    | [] => mmr_loop (diversity_config svc) 0 target_size [] [] empty_counters
    | best_item :: remaining =>
        mmr_loop (diversity_config svc) (length remaining) target_size
          [best_item] remaining
          (_update_diversity_counters best_item empty_counters)
    end.

(** *** Stage 5: [_final_ranking_optimization] *)

(** The request context; [context_extra] holds the keys the service does
    not read.  An absent or empty context is falsy. *)
Record Context : Type := {
  user_active_hours : option (list Z);
  device_type : option string;
  context_extra : dict FeatureValue;
}.

Definition context_truthy (context : option Context) : bool :=
  match context with
  | None => false
  | Some ctx =>
      has_key (user_active_hours ctx) || has_key (device_type ctx)
      || negb (bool_decide (context_extra ctx = []))
  end.

(** [_calculate_freshness_boost]; [current_time] is [datetime.now()]. *)
Definition _calculate_freshness_boost (svc : Service) (current_time : Z)
    (c : Content) : Q :=
  match publish_time c with
  | Some (Naive t) =>
      let age_hours := inject_Z (current_time - t) / 3600 in
      let half_life_hours :=
        default 24 (freshness_half_life_hours (final_ranking_config svc)) in
      if Qeq_bool half_life_hours 0 then 0.5
      else
        match exp (math svc) (- age_hours / half_life_hours) with
        | Ok freshness => Qmin 1.0 (Qmax 0.0 freshness)
        | Raise => 0.5
        end
  | _ => 0.5
  end.

(** [math.log(count + 1)]: [ValueError] unless the argument is positive. *)
Definition log1p_count (svc : Service) (count : option Z) : Exec Q :=
  let x := (default 0 count + 1)%Z in
  if (0 <? x)%Z then Ok (log (math svc) (inject_Z x)) else Raise.

(** [_calculate_popularity_boost]. *)
Definition _calculate_popularity_boost (svc : Service) (c : Content) : Exec Q :=
  lv ← log1p_count svc (view_count c);
  ll ← log1p_count svc (like_count c);
  ls ← log1p_count svc (share_count c);
  lc ← log1p_count svc (comment_count c);
  let popularity_score := lv * 0.4 + ll * 0.3 + ls * 0.2 + lc * 0.1 in
  let max_expected_score :=
    default 20 (max_popularity_score (final_ranking_config svc)) in
  if Qeq_bool max_expected_score 0 then Raise
  else Ok (Qmin 1.0 (popularity_score / max_expected_score)).

(** [_calculate_personalization_boost]. *)
Definition _calculate_personalization_boost (current_time : Z) (c : Content)
    (context : option Context) : Q :=
  let personalization_score := 0.5 in
  let personalization_score :=
    match context with
    | Some ctx =>
        if context_truthy context then
          let current_hour := ((current_time `div` 3600) `mod` 24)%Z in
          let hours := default [] (user_active_hours ctx) in
          let s1 :=
            if negb (bool_decide (hours = []))
               && bool_decide (current_hour ∈ hours)
            then personalization_score + 0.2 else personalization_score in
          if in_list (default ""%string (device_type ctx))
               (default [] (device_preference c))
          then s1 + 0.1 else s1
        else personalization_score
    | None => personalization_score
    end in
  Qmin 1.0 (Qmax 0.0 personalization_score).

(** The body of the loop of [_final_ranking_optimization]. *)
Definition optimize_content (svc : Service) (current_time : Z)
    (context : option Context) (c : Content) : Exec Content :=
  let base := default 0.0 (fusion_score c) in
  let freshness := _calculate_freshness_boost svc current_time c in
  popularity ← _calculate_popularity_boost svc c;
  let personalization :=
    _calculate_personalization_boost current_time c context in
  let cfg := final_ranking_config svc in
  let final :=
    base * default 0.6 (base_score_weight cfg)
    + freshness * default 0.15 (freshness_boost_weight cfg)
    + popularity * default 0.15 (popularity_boost_weight cfg)
    + personalization * default 0.1 (personalization_boost_weight cfg) in
  Ok (with_final c final
        {| base_score := base; freshness_boost := freshness;
           popularity_boost := popularity;
           personalization_boost := personalization |}).

Fixpoint optimize_contents (svc : Service) (current_time : Z)
    (context : option Context) (results : list Content) : Exec (list Content) :=
  match results with
  | [] => Ok []
  | c :: rest =>
      c' ← optimize_content svc current_time context c;
      rest' ← optimize_contents svc current_time context rest;
      Ok (c' :: rest')
  end.

Definition final_score_key (c : Content) : Q := default 0.0 (final_score c).

Definition _final_ranking_optimization (svc : Service) (current_time : Z)
    (context : option Context) (results : list Content) : Exec (list Content) :=
  optimized_results ← optimize_contents svc current_time context results;
  Ok (sorted_reverse final_score_key optimized_results).

(** *** [fuse_and_rerank] *)

(** The [try] block up to [final_results]; [Ok None]: the selection loop
    of stage 4 does not end. *)
Definition fuse_and_rerank_try (svc : Service) (current_time : Z)
    (algorithm_results : dict (list Content)) (target_size : Z)
    (context : option Context) : Exec (option (list Content)) :=
  fused_results ← _fuse_algorithm_results svc algorithm_results;
  deduplicated_results ← _deduplicate_results svc fused_results;
  let filtered_results :=
    _apply_business_rules svc current_time deduplicated_results in
  match _ensure_diversity svc filtered_results target_size with
  | None => Ok None
  | Some diversified_results =>
      final_results ←
        _final_ranking_optimization svc current_time context
          diversified_results;
      Ok (Some final_results)
  end.

(** The fallback of the [except] branch: the first non-empty result list. *)
Fixpoint fallback_results (algorithm_results : dict (list Content))
    (target_size : Z) : list Content :=
  match algorithm_results with
  | [] => []
  | (_, []) :: rest => fallback_results rest target_size
  | (_, results) :: _ => slice_to results target_size
  end.

(** How a call of [fuse_and_rerank] ends. *)
Inductive FuseOutcome : Type :=
  | Fused (items : list Content)
  | Degraded (items : list Content)
  | NoReturn.

Definition fuse_and_rerank (svc : Service) (current_time : Z)
    (algorithm_results : dict (list Content)) (target_size : Z)
    (context : option Context) : FuseOutcome :=
  match fuse_and_rerank_try svc current_time algorithm_results target_size
          context with
  | Ok (Some final_results) => Fused (slice_to final_results target_size)
  | Ok None => NoReturn
  | Raise => Degraded (fallback_results algorithm_results target_size)
  end.

(** Content dicts that differ from [c] in one key. *)
Definition with_quality_score (c : Content) (v : option Q) : Content :=
  {| content_id := content_id c; score := score c;
     ranking_score := ranking_score c; title := title c;
     summary := summary c; description := description c;
     quality_score := v; publish_time := publish_time c;
     category := category c; author_id := author_id c;
     user_rating := user_rating c; review_status := review_status c;
     content_type := content_type c; view_count := view_count c;
     like_count := like_count c; share_count := share_count c;
     comment_count := comment_count c;
     device_preference := device_preference c;
     fusion_score := fusion_score c;
     algorithm_coverage := algorithm_coverage c;
     algorithm_details := algorithm_details c;
     final_score := final_score c;
     score_breakdown := score_breakdown c |}.

Definition with_user_rating (c : Content) (v : option Q) : Content :=
  {| content_id := content_id c; score := score c;
     ranking_score := ranking_score c; title := title c;
     summary := summary c; description := description c;
     quality_score := quality_score c; publish_time := publish_time c;
     category := category c; author_id := author_id c; user_rating := v;
     review_status := review_status c; content_type := content_type c;
     view_count := view_count c; like_count := like_count c;
     share_count := share_count c; comment_count := comment_count c;
     device_preference := device_preference c;
     fusion_score := fusion_score c;
     algorithm_coverage := algorithm_coverage c;
     algorithm_details := algorithm_details c;
     final_score := final_score c;
     score_breakdown := score_breakdown c |}.

Definition with_review_status (c : Content) (v : option string) : Content :=
  {| content_id := content_id c; score := score c;
     ranking_score := ranking_score c; title := title c;
     summary := summary c; description := description c;
     quality_score := quality_score c; publish_time := publish_time c;
     category := category c; author_id := author_id c;
     user_rating := user_rating c; review_status := v;
     content_type := content_type c; view_count := view_count c;
     like_count := like_count c; share_count := share_count c;
     comment_count := comment_count c;
     device_preference := device_preference c;
     fusion_score := fusion_score c;
     algorithm_coverage := algorithm_coverage c;
     algorithm_details := algorithm_details c;
     final_score := final_score c;
     score_breakdown := score_breakdown c |}.

(** Two items may both stay in a deduplicated list: their ids differ and
    their overall similarity does not exceed the threshold. *)
Definition distinct_items (cfg : DedupConfig) (a b : Content) : Prop :=
  content_id a <> content_id b
  /\ overall_similarity cfg a b <= default 0.8 (similarity_threshold cfg).

(** [R] holds between every item of a list and every later item. *)
Fixpoint pairwise {A} (R : A -> A -> Prop) (l : list A) : Prop :=
  match l with
  | [] => True
  | x :: l' => Forall (R x) l' /\ pairwise R l'
  end.

(** [c'] is a copy of [c] with the keys of stage 5 written. *)
Definition finalized (c c' : Content) : Prop :=
  exists final breakdown, c' = with_final c final breakdown.

(** *** Sample requests *)

(** A stand-in for the float library: every item is as fresh as can be
    and no count adds popularity. *)
Definition sample_math : MathLib :=
  {| exp := fun _ => Ok 1; log := fun _ => 0 |}.

(** An approved item with a raw score and its texts. *)
Definition sample_item (cid text : string) (raw : Q) : Content :=
  {| content_id := Some cid; score := Some raw; ranking_score := None;
     title := Some text; summary := None; description := Some text;
     quality_score := None; publish_time := None;
     category := Some "tech"%string; author_id := None; user_rating := None;
     review_status := Some "approved"%string;
     content_type := Some "article"%string; view_count := None;
     like_count := None; share_count := None; comment_count := None;
     device_preference := None; fusion_score := None;
     algorithm_coverage := None; algorithm_details := None;
     final_score := None; score_breakdown := None |}.

(** A service with two configured algorithms of weight [0.5] each. *)
Definition two_algorithm_service : Service :=
  {| algorithm_weights := [("cf", 0.5); ("dl", 0.5)]%string;
     diversity_config := default_diversity_config;
     business_rules := default_business_rules;
     dedup_config := default_dedup_config;
     final_ranking_config := default_final_ranking_config;
     math := sample_math |}.

(** Two algorithms; ["b"] repeats the texts of ["a"]. *)
Definition sample_results : dict (list Content) :=
  [("cf", [sample_item "a" "Hello world" 0.9; sample_item "b" "hello World" 0.8]);
   ("dl", [sample_item "a" "Hello world" 0.7; sample_item "c" "foo bar" 0.6])]%string.

Definition sample_fused_items : list Content :=
  match fuse_and_rerank two_algorithm_service 0 sample_results 10 None with
  | Fused items => items
  | _ => []
  end.

(** An item without any key but a score. *)
Definition anonymous_item : Content :=
  {| content_id := None; score := Some 0.5; ranking_score := None;
     title := None; summary := None; description := None;
     quality_score := None; publish_time := None; category := None;
     author_id := None; user_rating := None; review_status := None;
     content_type := None; view_count := None; like_count := None;
     share_count := None; comment_count := None; device_preference := None;
     fusion_score := None; algorithm_coverage := None;
     algorithm_details := None; final_score := None;
     score_breakdown := None |}.

(** An approved item as stage 1 leaves it, with a fusion score. *)
Definition fused_item (cid : string) (fs : Q) : Content :=
  with_fusion (sample_item cid cid 0.5) fs 1 [].

End FusionRerankingService.

(** ** fusion_reranking_service.py, stage 1 over binary64 *)

(** [_fuse_algorithm_results] once more, with the scores as the
    interpreter has them: binary64 floats with round-to-nearest
    arithmetic.  A decimal literal denotes the nearest binary64 number, as
    it does in Python.  The keys the stage neither reads nor writes are
    carried along in [other_keys]. *)
Module FusionFloat.
Import PrimFloat.
#[local] Set Warnings "-inexact-float".
#[local] Open Scope float_scope.

(** [float(n)] for an [int] [n]; exact for [0 <= n < 2^53], and the
    integers converted here are list lengths and list positions. *)
Definition float_of_int (n : Z) : float := of_uint63 (Uint63.of_Z n).

(** [a > b] on floats. *)
Definition gt (a b : float) : bool := b <? a.

(** [l.sort(key=key, reverse=True)] on float keys; stable.  For keys
    that are numbers the result of any stable sort is this one. *)
Fixpoint insert_desc {A} (key : A -> float) (x : A) (l : list A) : list A :=
  match l with
  | [] => [x]
  | y :: l' =>
      if key x <? key y then y :: insert_desc key x l' else x :: y :: l'
  end.

Definition sort_reverse {A} (key : A -> float) (l : list A) : list A :=
  foldr (insert_desc key) [] l.

(** An entry of [algorithm_details]. *)
Record ScoreInfo : Type := {
  info_score : float;
  info_weight : float;
  info_position : nat;
}.

(** A value the stage copies without reading it. *)
Inductive Value : Type :=
  | VNum (f : float)
  | VStr (s : string).

(** A content dict; [None] is an absent key. *)
Record Content : Type := {
  content_id : option string;
  score : option float;
  ranking_score : option float;
  other_keys : dict Value;
  fusion_score : option float;
  algorithm_coverage : option nat;
  algorithm_details : option (dict ScoreInfo);
}.

(** The keys [_fuse_algorithm_results] writes into a copy. *)
Definition with_fusion (c : Content) (fs : float) (coverage : nat)
    (details : dict ScoreInfo) : Content :=
  {| content_id := content_id c; score := score c;
     ranking_score := ranking_score c; other_keys := other_keys c;
     fusion_score := Some fs; algorithm_coverage := Some coverage;
     algorithm_details := Some details |}.

(** [content['content_id']]. *)
Definition subscript_content_id (c : Content) : Exec string :=
  from_option Ok Raise (content_id c).

(** [content.get('score', content.get('ranking_score', 0.5))]. *)
Definition original_score (c : Content) : float :=
  default (default 0.5 (ranking_score c)) (score c).

(** The body of the inner loop of the first pass, on
    [(content_scores, all_contents)]. *)
Definition collect_content (algorithm_name : string) (algorithm_weight : float)
    (idx : nat) (content : Content)
    (st : dict (dict ScoreInfo) * dict Content)
  : Exec (dict (dict ScoreInfo) * dict Content) :=
  let '(content_scores, all_contents) := st in
  cid ← subscript_content_id content;
  let all_contents :=
    match dict_get all_contents cid with
    | Some _ => all_contents
    | None => dict_set all_contents cid content
    end in
  let position_score := 1.0 / float_of_int (Z.of_nat idx + 1) in
  let combined_score := original_score content * position_score in
  let per_content := default [] (dict_get content_scores cid) in
  Ok (dict_set content_scores cid
        (dict_set per_content algorithm_name
           {| info_score := combined_score; info_weight := algorithm_weight;
              info_position := idx |}),
      all_contents).

Fixpoint collect_results (algorithm_name : string) (algorithm_weight : float)
    (idx : nat) (results : list Content)
    (st : dict (dict ScoreInfo) * dict Content)
  : Exec (dict (dict ScoreInfo) * dict Content) :=
  match results with
  | [] => Ok st
  | content :: rest =>
      st' ← collect_content algorithm_name algorithm_weight idx content st;
      collect_results algorithm_name algorithm_weight (S idx) rest st'
  end.

Fixpoint collect_algorithms (algorithm_weights : dict float)
    (algorithm_results : dict (list Content))
    (st : dict (dict ScoreInfo) * dict Content)
  : Exec (dict (dict ScoreInfo) * dict Content) :=
  match algorithm_results with
  | [] => Ok st
  | (algorithm_name, results) :: rest =>
      let algorithm_weight :=
        default 0.1 (dict_get algorithm_weights algorithm_name) in
      st' ← collect_results algorithm_name algorithm_weight 0 results st;
      collect_algorithms algorithm_weights rest st'
  end.

(** The two accumulators of the second pass. *)
Definition weighted_and_total (algorithm_scores : dict ScoreInfo)
  : float * float :=
  fold_left
    (fun acc kv =>
       (fst acc + info_score (snd kv) * info_weight (snd kv),
        snd acc + info_weight (snd kv)))
    algorithm_scores (0.0, 0.0).

(** [final_score] before the bonus. *)
Definition normalized_score (algorithm_scores : dict ScoreInfo) : float :=
  let '(weighted_score, total_weight) := weighted_and_total algorithm_scores in
  if gt total_weight 0 then weighted_score / total_weight else 0.0.

(** [coverage_bonus], for a non-empty [self.algorithm_weights]: the
    quotient of the two lengths, rounded, times [0.1]. *)
Definition coverage_bonus (algorithm_weights : dict float)
    (algorithm_scores : dict ScoreInfo) : float :=
  float_of_int (Z.of_nat (length algorithm_scores))
  / float_of_int (Z.of_nat (length algorithm_weights)) * 0.1.

(** The body of the second pass for one entry of [all_contents]; the
    division by [len(self.algorithm_weights)] raises when no algorithm is
    configured. *)
Definition fuse_content (algorithm_weights : dict float)
    (content_scores : dict (dict ScoreInfo)) (entry : string * Content)
  : Exec Content :=
  let algorithm_scores := default [] (dict_get content_scores (fst entry)) in
  let final_score := normalized_score algorithm_scores in
  match algorithm_weights with
  | [] => Raise
  | _ :: _ =>
      Ok (with_fusion (snd entry)
            (final_score + coverage_bonus algorithm_weights algorithm_scores)
            (length algorithm_scores) algorithm_scores)
  end.

Fixpoint fuse_contents (algorithm_weights : dict float)
    (content_scores : dict (dict ScoreInfo)) (all_contents : dict Content)
  : Exec (list Content) :=
  match all_contents with
  | [] => Ok []
  | entry :: rest =>
      c ← fuse_content algorithm_weights content_scores entry;
      cs ← fuse_contents algorithm_weights content_scores rest;
      Ok (c :: cs)
  end.

(** The sort key [x['fusion_score']]; every fused item has one. *)
Definition fusion_score_key (c : Content) : float :=
  default 0.0 (fusion_score c).

(** [_fuse_algorithm_results], with [self.algorithm_weights] passed in. *)
Definition _fuse_algorithm_results (algorithm_weights : dict float)
    (algorithm_results : dict (list Content)) : Exec (list Content) :=
  '(content_scores, all_contents) ←
     collect_algorithms algorithm_weights algorithm_results ([], []);
  fused_results ←
     fuse_contents algorithm_weights content_scores all_contents;
  Ok (sort_reverse fusion_score_key fused_results).

(** An item that has an id, and not the id [k]. *)
Definition other_id (k : string) (c : Content) : Prop :=
  exists cid, content_id c = Some cid /\ cid <> k.

(** *** Sample requests *)

(** Two configured algorithms of weight [0.5] each. *)
Definition two_algorithm_weights : dict float :=
  [("cf", 0.5); ("dl", 0.5)]%string.

Definition sample_item (cid : string) (raw : float) : Content :=
  {| content_id := Some cid; score := Some raw; ranking_score := None;
     other_keys := [("title", VStr cid)]%string;
     fusion_score := None; algorithm_coverage := None;
     algorithm_details := None |}.

(** X is produced by the first algorithm only. *)
Definition sample_results_x : dict (list Content) :=
  [("cf", [sample_item "x" 0.8; sample_item "z" 0.3]);
   ("dl", [sample_item "z" 0.9])]%string.

(** Y is produced by both algorithms. *)
Definition sample_results_y : dict (list Content) :=
  [("cf", [sample_item "y" 0.8]);
   ("dl", [sample_item "y" 0.8; sample_item "z" 0.9])]%string.

(** [fusion_score] of the item [k] in what the stage returns. *)
Definition fusion_score_of (k : string) (fused : Exec (list Content))
  : option float :=
  match fused with
  | Ok items =>
      c ← head (filter (fun c => content_id c = Some k) items);
      fusion_score c
  | Raise => None
  end.

End FusionFloat.

(** ** ranking-service/app/api/ranking_api.py *)

Module RankingApi.

(** How a request handler ends: with a response body, or with
    [HTTPException(status_code)]. *)
Inductive Http (A : Type) : Type :=
  | Answer (body : A)
  | HTTPException (status_code : Z).
Arguments Answer {A} body.
Arguments HTTPException {A} status_code.

(** [class CandidateItem]. *)
Record CandidateItem : Type := {
  candidate_content_id : string;
  candidate_content_type : string;
  candidate_title : string;
  candidate_category : string;
  candidate_metadata : dict FeatureValue;
}.

(** [class RankingRequest]. *)
Record RankingRequest : Type := {
  user_id : string;
  candidates : list CandidateItem;
  context : option RankingService.Features;
  max_results : Z;
}.

(** The bounds [Field(ge=1, le=100)] of [max_results]; a request outside
    them does not reach the handler. *)
Definition admitted (request : RankingRequest) : Prop :=
  (1 <= max_results request <= 100)%Z.

(** [class RankedItem]. *)
Record RankedItem : Type := {
  content_id : string;
  content_type : string;
  title : string;
  category : string;
  ranking_score : Q;
  metadata : dict FeatureValue;
}.

(** [class RankingResponse], without the two clock readings
    [processing_time_ms] and [timestamp]. *)
Record RankingResponse : Type := {
  response_user_id : string;
  ranked_items : list RankedItem;
  total_candidates : nat;
}.

(** The dict the handler builds from a [CandidateItem]. *)
Definition candidate_dict (item : CandidateItem) : RankingService.Candidate :=
  {| RankingService.content_id := Some (candidate_content_id item);
     RankingService.content_type := Some (candidate_content_type item);
     RankingService.title := Some (candidate_title item);
     RankingService.category := Some (candidate_category item);
     RankingService.popularity_score := None;
     RankingService.metadata := candidate_metadata item;
     RankingService.ranking_score := None |}.

(** [RankedItem(content_id=item['content_id'], ...)]. *)
Definition ranked_item (item : RankingService.Candidate) : Exec RankedItem :=
  cid ← from_option Ok Raise (RankingService.content_id item);
  ctype ← from_option Ok Raise (RankingService.content_type item);
  rscore ← from_option Ok Raise (RankingService.ranking_score item);
  Ok {| content_id := cid; content_type := ctype;
        title := default ""%string (RankingService.title item);
        category := default ""%string (RankingService.category item);
        ranking_score := rscore;
        metadata := RankingService.metadata item |}.

Fixpoint ranked_items_of (items : list RankingService.Candidate)
  : Exec (list RankedItem) :=
  match items with
  | [] => Ok []
  | item :: rest =>
      x ← ranked_item item;
      xs ← ranked_items_of rest;
      Ok (x :: xs)
  end.

(** The handler of [POST /api/v1/ranking/rank]; [ranking_service] is the
    global of the module, [None] before startup. *)
Definition rank_candidates {Redis}
    (ranking_service : option (RankingService.Collaborators Redis))
    (r : Redis) (request : RankingRequest) : Http RankingResponse * Redis :=
  match ranking_service with
  | None => (HTTPException 503, r)
  | Some env =>
      let total_candidates := length (candidates request) in
      let candidates := candidate_dict <$> candidates request in
      let '(ranked_candidates, r') :=
        RankingService.rank_candidates env r (user_id request) candidates
          (context request) in
      let ranked_candidates :=
        slice_to ranked_candidates (max_results request) in
      match ranked_items_of ranked_candidates with
      | Ok ranked_items =>
          (Answer {| response_user_id := user_id request;
                     ranked_items := ranked_items;
                     total_candidates := total_candidates |},
           r')
      | Raise => (HTTPException 500, r')
      end
  end.

(** The ranked item of a candidate that was given the score [q]. *)
Definition ranked (item : CandidateItem) (q : Q) : RankedItem :=
  {| content_id := candidate_content_id item;
     content_type := candidate_content_type item;
     title := candidate_title item;
     category := candidate_category item;
     ranking_score := q;
     metadata := candidate_metadata item |}.


(** [class AlgorithmResult]. *)
Record AlgorithmResult : Type := {
  result_content_id : string;
  result_content_type : string;
  result_title : string;
  result_category : string;
  result_score : Q;
  result_metadata : dict FeatureValue;
}.

(** [class FusionRerankingRequest]. *)
Record FusionRerankingRequest : Type := {
  fusion_user_id : string;
  algorithm_results : dict (list AlgorithmResult);
  target_size : Z;
  fusion_context : option FusionRerankingService.Context;
}.

(** [class FusedRankedItem]; [fused_score_breakdown] is [None] for the
    empty dict.  The [metadata] of an item passes through every stage
    unread and is left out. *)
Record FusedRankedItem : Type := {
  fused_content_id : string;
  fused_content_type : string;
  fused_title : string;
  fused_category : string;
  final_score : Q;
  fusion_score : Q;
  algorithm_coverage : nat;
  fused_score_breakdown : option FusionRerankingService.ScoreBreakdown;
}.

(** [class FusionRerankingResponse], without the clock readings. *)
Record FusionRerankingResponse : Type := {
  fusion_response_user_id : string;
  fused_items : list FusedRankedItem;
  fusion_total_candidates : nat;
}.

(** The dict the handler builds from an [AlgorithmResult]: the keys
    [content_id], [content_type], [title], [category], [score] (and
    [metadata]), and no other. *)
Definition algorithm_result_dict (item : AlgorithmResult)
  : FusionRerankingService.Content :=
  {| FusionRerankingService.content_id := Some (result_content_id item);
     FusionRerankingService.score := Some (result_score item);
     FusionRerankingService.ranking_score := None;
     FusionRerankingService.title := Some (result_title item);
     FusionRerankingService.summary := None;
     FusionRerankingService.description := None;
     FusionRerankingService.quality_score := None;
     FusionRerankingService.publish_time := None;
     FusionRerankingService.category := Some (result_category item);
     FusionRerankingService.author_id := None;
     FusionRerankingService.user_rating := None;
     FusionRerankingService.review_status := None;
     FusionRerankingService.content_type := Some (result_content_type item);
     FusionRerankingService.view_count := None;
     FusionRerankingService.like_count := None;
     FusionRerankingService.share_count := None;
     FusionRerankingService.comment_count := None;
     FusionRerankingService.device_preference := None;
     FusionRerankingService.fusion_score := None;
     FusionRerankingService.algorithm_coverage := None;
     FusionRerankingService.algorithm_details := None;
     FusionRerankingService.final_score := None;
     FusionRerankingService.score_breakdown := None |}.

(** [FusedRankedItem(content_id=item['content_id'], ...)]. *)
Definition fused_ranked_item (item : FusionRerankingService.Content)
  : Exec FusedRankedItem :=
  cid ← from_option Ok Raise (FusionRerankingService.content_id item);
  ctype ← from_option Ok Raise (FusionRerankingService.content_type item);
  Ok {| fused_content_id := cid; fused_content_type := ctype;
        fused_title := default ""%string (FusionRerankingService.title item);
        fused_category :=
          default ""%string (FusionRerankingService.category item);
        final_score := default 0.0 (FusionRerankingService.final_score item);
        fusion_score := default 0.0 (FusionRerankingService.fusion_score item);
        algorithm_coverage :=
          default 0%nat (FusionRerankingService.algorithm_coverage item);
        fused_score_breakdown := FusionRerankingService.score_breakdown item |}.

Fixpoint fused_items_of (items : list FusionRerankingService.Content)
  : Exec (list FusedRankedItem) :=
  match items with
  | [] => Ok []
  | item :: rest =>
      x ← fused_ranked_item item;
      xs ← fused_items_of rest;
      Ok (x :: xs)
  end.

(** The handler of [POST /api/v1/ranking/fusion_rerank]; [None]: the
    call of [fuse_and_rerank] does not return. *)
Definition fusion_rerank
    (fusion_reranking_service : option FusionRerankingService.Service)
    (current_time : Z) (request : FusionRerankingRequest)
  : option (Http FusionRerankingResponse) :=
  match fusion_reranking_service with
  | None => Some (HTTPException 503)
  | Some svc =>
      let items : list (string * list AlgorithmResult) :=
        algorithm_results request in
      let total_candidates :=
        sum_list ((fun kv => length (snd kv)) <$> items) in
      let algorithm_results :=
        (fun kv : string * list AlgorithmResult =>
           (fst kv, algorithm_result_dict <$> snd kv)) <$> items in
      let respond (fused_results : list FusionRerankingService.Content) :=
        match fused_items_of fused_results with
        | Ok fused_items =>
            Answer {| fusion_response_user_id := fusion_user_id request;
                      fused_items := fused_items;
                      fusion_total_candidates := total_candidates |}
        | Raise => HTTPException 500
        end in
      match FusionRerankingService.fuse_and_rerank svc current_time
              algorithm_results (target_size request)
              (fusion_context request) with
      | FusionRerankingService.Fused fused_results => Some (respond fused_results)
      | FusionRerankingService.Degraded fused_results =>
          Some (respond fused_results)
      | FusionRerankingService.NoReturn => None
      end
  end.

(** *** Sample requests *)

Definition sample_candidate_item (cid : string) : CandidateItem :=
  {| candidate_content_id := cid; candidate_content_type := "article";
     candidate_title := ""; candidate_category := "";
     candidate_metadata := [] |}.

Definition sample_request : RankingRequest :=
  {| user_id := "u";
     candidates := sample_candidate_item <$> ["a"; "b"; "c"]%string;
     context := None; max_results := 2 |}.

(** A store that knows no key and a model that cannot predict. *)
Definition model_down_env : RankingService.Collaborators unit :=
  {| RankingService.redis_get := fun _ _ => Ok None;
     RankingService.redis_setex := fun _ _ _ => (Ok (), ());
     RankingService.process_context_features := fun _ => Ok [];
     RankingService.predict_try := fun _ => Raise |}.

Definition sample_algorithm_result (cid : string) (raw : Q) : AlgorithmResult :=
  {| result_content_id := cid; result_content_type := "article";
     result_title := cid; result_category := "tech"; result_score := raw;
     result_metadata := [] |}.

Definition sample_fusion_request : FusionRerankingRequest :=
  {| fusion_user_id := "u";
     algorithm_results :=
       [("collaborative_filtering",
         [sample_algorithm_result "a" 0.9; sample_algorithm_result "b" 0.8]);
        ("deep_learning", [sample_algorithm_result "a" 0.7])]%string;
     target_size := 20; fusion_context := None |}.

End RankingApi.

(** * Properties *)

(** ** Scores, slices and the stable sort *)

Module PyFacts.

Lemma Qlt_bool_iff (a b : Q) : Qlt_bool a b = true <-> a < b.
Proof.
  unfold Qlt_bool. rewrite negb_true_iff.
  destruct (Qle_bool b a) eqn:E.
  - apply Qle_bool_iff in E. split; [discriminate|].
    intros H. exfalso. apply (Qlt_not_le _ _ H E).
  - split; [intros _|reflexivity].
    apply Qnot_le_lt. intros H. apply Qle_bool_iff in H. congruence.
Qed.

Lemma Qlt_bool_false_iff (a b : Q) : Qlt_bool a b = false <-> b <= a.
Proof.
  unfold Qlt_bool. rewrite negb_false_iff. apply Qle_bool_iff.
Qed.


Lemma slice_from_all {A} (l : list A) (k : Z) :
  (Z.of_nat (length l) <= k)%Z -> slice_from l k = [].
Proof.
  intros Hk. unfold slice_from.
  destruct (0 <=? k)%Z eqn:E; [|lia].
  apply drop_ge. lia.
Qed.

Lemma slice_to_sublist {A} (l : list A) (k : Z) : slice_to l k `sublist_of` l.
Proof. unfold slice_to. destruct (0 <=? k)%Z; apply sublist_take. Qed.

Section Sorting.
Context {A : Type} (key : A -> Q).

Lemma insert_desc_perm (x : A) (l : list A) : insert_desc key x l ≡ₚ x :: l.
Proof.
  induction l as [|y l IH]; simpl; [done|].
  destruct (Qlt_bool (key x) (key y)); [|done].
  rewrite IH. apply Permutation_swap.
Qed.

Lemma sorted_reverse_perm (l : list A) : sorted_reverse key l ≡ₚ l.
Proof.
  induction l as [|x l IH]; simpl; [done|].
  rewrite insert_desc_perm. by rewrite IH.
Qed.


Lemma insert_desc_sorted (x : A) (l : list A) :
  StronglySorted (desc key) l -> StronglySorted (desc key) (insert_desc key x l).
Proof.
  induction l as [|y l IH]; intros Hs; simpl.
  - repeat constructor.
  - inversion Hs as [|? ? Hl Hy]; subst.
    destruct (Qlt_bool (key x) (key y)) eqn:E.
    + constructor; [by apply IH|].
      rewrite insert_desc_perm. constructor; [|done].
      apply Qlt_bool_iff in E. by apply Qlt_le_weak.
    + apply Qlt_bool_false_iff in E.
      constructor; [done|]. constructor; [done|].
      eapply Forall_impl; [exact Hy|].
      intros z Hz. unfold desc in *. by apply Qle_trans with (key y).
Qed.

Lemma sorted_reverse_sorted (l : list A) :
  StronglySorted (desc key) (sorted_reverse key l).
Proof.
  induction l as [|x l IH]; simpl; [constructor|].
  by apply insert_desc_sorted.
Qed.

(** Stability: the elements of one key keep their order. *)
Lemma insert_desc_stable (q : Q) (x : A) (l : list A) :
filter (fun y => Qeq_bool (key y) q = true) (insert_desc key x l)
= filter (fun y => Qeq_bool (key y) q = true) (x :: l).
Proof.
induction l as [|y l IH]; simpl; [done|].
destruct (Qlt_bool (key x) (key y)) eqn:E; [|done].
apply Qlt_bool_iff in E.
rewrite !filter_cons. rewrite filter_cons in IH.
destruct (decide (Qeq_bool (key y) q = true)) as [Hyq|Hyq];
  destruct (decide (Qeq_bool (key x) q = true)) as [Hxq|Hxq];
  try (by rewrite IH).
apply Qeq_bool_iff in Hyq, Hxq. rewrite Hyq, Hxq in E.
by apply Qlt_irrefl in E.
Qed.

Lemma sorted_reverse_const (k : Q) (l : list A) :
  Forall (fun x => key x == k) l -> sorted_reverse key l = l.
Proof.
  induction 1 as [|x l Hx Hl IH]; simpl; [done|].
  rewrite IH. destruct Hl as [|y l Hy Hl]; simpl; [done|].
  replace (Qlt_bool (key x) (key y)) with false; [done|].
  symmetry. apply Qlt_bool_false_iff. rewrite Hx, Hy. apply Qle_refl.
Qed.

Lemma sorted_reverse_stable (q : Q) (l : list A) :
filter (fun y => Qeq_bool (key y) q = true) (sorted_reverse key l)
= filter (fun y => Qeq_bool (key y) q = true) l.
Proof.
induction l as [|x l IH]; simpl; [done|].
by rewrite insert_desc_stable, !filter_cons, IH.
Qed.

End Sorting.

End PyFacts.

(** ** The inference batcher *)

Module ModelServerFacts.
Import ModelServer PyFacts.

Lemma objects_set_result (s : ModelServer) (req : nat) (score : Q) :
  objects (set_result s req score)
  = alter (fun r => completed r score) req (objects s).
Proof. done. Qed.

Lemma set_results_other (l : list (nat * Q)) (s : ModelServer) (req : nat) :
  req ∉ l.*1 ->
  objects (fold_left (fun st rs => set_result st (fst rs) (snd rs)) l s) !! req
  = objects s !! req.
Proof.
  revert s. induction l as [|[r0 q0] l IH]; intros s Hnot; simpl; [done|].
  simpl in Hnot. apply not_elem_of_cons in Hnot as [Hne Hnot].
  rewrite IH by done. rewrite objects_set_result.
  by rewrite lookup_alter_ne.
Qed.


Lemma set_default_lookup (batch : list nat) (s : ModelServer) (req : nat)
    (r : PredictionRequest) :
  NoDup batch -> req ∈ batch -> objects s !! req = Some r ->
  objects (fold_left (fun st rq => set_result st rq 0) batch s) !! req
  = Some (completed r 0).
Proof.
  revert s. induction batch as [|r0 batch IH]; intros s Hnd Hin Hr.
  - by apply elem_of_nil in Hin.
  - apply NoDup_cons in Hnd as [Hr0 Hnd]. simpl.
    destruct (decide (req = r0)) as [->|Hne].
    + clear IH Hin. 
      assert (Hstep : objects (set_result s r0 0) !! r0 = Some (completed r 0))
        by (by rewrite objects_set_result, lookup_alter_eq, Hr).
      revert Hstep. generalize (set_result s r0 0).
      induction batch as [|r1 batch IHb]; intros s' Hs'; simpl; [done|].
      apply not_elem_of_cons in Hr0 as [Hne Hr0].
      apply NoDup_cons in Hnd as [_ Hnd].
      apply IHb; try done.
      by rewrite objects_set_result, lookup_alter_ne.
    + apply elem_of_cons in Hin as [?|Hin]; [done|].
      apply IH; try done.
      by rewrite objects_set_result, lookup_alter_ne.
Qed.

Lemma sealed_batch_sublist (s : ModelServer) :
  sealed_batch s `sublist_of` pending_requests s.
Proof.
  unfold sealed_batch. destruct (pending_requests s); [done|].
  apply slice_to_sublist.
Qed.

Lemma objects_after_seal (s : ModelServer) : objects (after_seal s) = objects s.
Proof. unfold after_seal. by destruct (pending_requests s). Qed.

Lemma model_after_seal (s : ModelServer) : model (after_seal s) = model s.
Proof. unfold after_seal. by destruct (pending_requests s). Qed.

Lemma request_features_after_seal (s : ModelServer) (req : nat) :
  request_features (after_seal s) req = request_features s req.
Proof. unfold request_features. by rewrite objects_after_seal. Qed.

(** What one iteration does to the object store, by the three ways
    [predict_batch_sync] can end. *)
Lemma step_objects_scored (s : ModelServer) (m : Model) (scores : list Q) :
  model s = Some m ->
  m (request_features s <$> sealed_batch s) = Some scores ->
  exists s', objects s' = objects s /\
    objects (batch_processor_step s)
    = objects (fold_left (fun st rs => set_result st (fst rs) (snd rs))
                 (zip (sealed_batch s) scores) s').
Proof.
  intros Hm Hs. unfold batch_processor_step.
  destruct (sealed_batch s) as [|r0 batch] eqn:Hb.
  - exists s. split; [done|]. by rewrite objects_after_seal.
  - unfold _process_batch, predict_batch_sync.
    rewrite model_after_seal, Hm.
    rewrite (list_fmap_ext _ (request_features s))
      by (intros; apply request_features_after_seal).
    rewrite Hs. eexists. split; [|reflexivity]. simpl.
    by rewrite objects_after_seal.
Qed.

Lemma step_objects_failed (s : ModelServer) :
  (model s = None \/
   exists m, model s = Some m /\
             m (request_features s <$> sealed_batch s) = None) ->
  exists s', objects s' = objects s /\
    objects (batch_processor_step s)
    = objects (fold_left (fun st rq => set_result st rq 0) (sealed_batch s) s').
Proof.
  intros Hfail. unfold batch_processor_step.
  destruct (sealed_batch s) as [|r0 batch] eqn:Hb.
  - exists s. split; [done|]. by rewrite objects_after_seal.
  - unfold _process_batch, predict_batch_sync.
    rewrite model_after_seal.
    rewrite (list_fmap_ext _ (request_features s))
      by (intros; apply request_features_after_seal).
    destruct Hfail as [Hm|(m & Hm & Hs)]; rewrite Hm.
    + eexists. split; [|reflexivity]. by rewrite objects_after_seal.
    + rewrite Hs. exists (after_seal s). split; [apply objects_after_seal|].
      generalize (after_seal s). intros s'.
      change (length (request_features s <$> r0 :: batch))
        with (length (request_features s <$> (r0 :: batch))).
      rewrite length_fmap.
      generalize (r0 :: batch). clear. intros l. revert s'.
      induction l as [|x l IH]; intros s'; simpl; [done|].
      apply IH.
Qed.

(** The invariant holds initially and along every transition. *)
Lemma wf_init (m : option Model) (max_batch : Z) : wf (init m max_batch).
Proof.
  split; simpl.
  - constructor.
  - intros req Hin. by apply elem_of_nil in Hin.
  - intros req [r Hr]. by rewrite lookup_empty in Hr.
Qed.

Lemma wf_enqueue (s : ModelServer) (x : Features) :
  wf s -> wf (snd (predict_async_enqueue s x)).
Proof.
  intros [Hnd Hp Hf]. split; simpl.
  - apply NoDup_app. split; [done|]. split; [|apply NoDup_singleton].
    intros req Hin Hin'. apply list_elem_of_singleton in Hin' as ->.
    apply Hp, Hf in Hin. lia.
  - intros req Hin. apply elem_of_app in Hin as [Hin|Hin].
    + destruct (decide (req = next_object s)) as [->|Hne].
      * rewrite lookup_insert_eq. by eexists.
      * rewrite lookup_insert_ne by done. by apply Hp.
    + apply list_elem_of_singleton in Hin as ->.
      rewrite lookup_insert_eq. by eexists.
  - intros req Hreq.
    destruct (decide (req = next_object s)) as [->|Hne]; [lia|].
    rewrite lookup_insert_ne in Hreq by done. apply Hf in Hreq. lia.
Qed.

Lemma set_results_frame (l : list (nat * Q)) (s : ModelServer) :
  let s' := fold_left (fun st rs => set_result st (fst rs) (snd rs)) l s in
  pending_requests s' = pending_requests s /\ next_object s' = next_object s
  /\ forall req, is_Some (objects s' !! req) <-> is_Some (objects s !! req).
Proof.
  revert s. induction l as [|[r0 q0] l IH]; intros s; simpl; [done|].
  destruct (IH (set_result s r0 q0)) as (-> & -> & Hobj).
  repeat split; try done.
  - intros H. apply Hobj in H. rewrite objects_set_result in H.
    destruct (decide (req = r0)) as [->|Hne].
    + rewrite lookup_alter_eq in H. by apply fmap_is_Some in H.
    + by rewrite lookup_alter_ne in H.
  - intros H. apply Hobj. rewrite objects_set_result.
    destruct (decide (req = r0)) as [->|Hne].
    + rewrite lookup_alter_eq. by apply fmap_is_Some.
    + by rewrite lookup_alter_ne.
Qed.

Lemma set_default_as_zip (batch : list nat) (s : ModelServer) :
  fold_left (fun st rq => set_result st rq 0) batch s
  = fold_left (fun st rs => set_result st (fst rs) (snd rs))
      (zip batch (replicate (length batch) 0)) s.
Proof.
  revert s. induction batch as [|r0 batch IH]; intros s; simpl; [done|].
  apply IH.
Qed.

Lemma process_batch_frame (s : ModelServer) (batch : list nat) :
  let s' := _process_batch s batch in
  pending_requests s' = pending_requests s /\ next_object s' = next_object s
  /\ forall req, is_Some (objects s' !! req) <-> is_Some (objects s !! req).
Proof.
  unfold _process_batch, predict_batch_sync.
  destruct (model s) as [m|].
  - destruct (m _) as [scores|];
      match goal with
      | |- context [fold_left ?f ?l ?s'] =>
          exact (set_results_frame l s')
      end.
  - rewrite set_default_as_zip. apply set_results_frame.
Qed.

Lemma wf_step (s : ModelServer) : wf s -> wf (batch_processor_step s).
Proof.
  intros [Hnd Hp Hf].
  assert (Hseal : wf (after_seal s)).
  { unfold after_seal. destruct (pending_requests s) as [|r0 l] eqn:E.
    - split; by rewrite ?E.
    - assert (Hsub : slice_from (r0 :: l)
                       (Z.of_nat (length (r0 :: l)) `min` max_batch_size s)
                     `sublist_of` r0 :: l).
      { unfold slice_from. destruct (0 <=? _)%Z; apply sublist_drop. }
      split; simpl.
      + eapply sublist_NoDup; [exact Hnd|exact Hsub].
      + intros req Hin. apply Hp.
        eapply elem_of_sublist; [exact Hin|exact Hsub].
      + done. }
  unfold batch_processor_step. destruct (sealed_batch s) as [|r0 b]; [done|].
  destruct Hseal as [Hnd' Hp' Hf'].
  destruct (process_batch_frame (after_seal s) (r0 :: b)) as (Hq & Hn & Ho).
  split.
  - by rewrite Hq.
  - intros req Hin. rewrite Hq in Hin. apply Ho. by apply Hp'.
  - intros req Hreq. rewrite Hn. apply Hf'. by apply Ho.
Qed.

(** Submission appends to the queue and leaves older requests alone. *)
Lemma submit_all_spec (xs : list Features) (s s1 : ModelServer)
    (reqs : list nat) :
  wf s -> submit_all s xs = (reqs, s1) ->
  wf s1 /\ model s1 = model s /\ max_batch_size s1 = max_batch_size s
  /\ pending_requests s1 = pending_requests s ++ reqs
  /\ request_features s1 <$> reqs = xs
  /\ forall req, is_Some (objects s !! req) ->
                 objects s1 !! req = objects s !! req.
Proof.
  revert s s1 reqs.
  induction xs as [|x xs IH]; intros s s1 reqs Hwf Hsub; simpl in Hsub.
  - inversion Hsub; subst. rewrite app_nil_r. split; [done|]. by repeat split.
  - destruct (submit_all _ xs) as [reqs' s2] eqn:E.
    inversion Hsub; subst. clear Hsub.
    pose proof (wf_enqueue s x Hwf) as Hwf1.
    destruct (IH _ _ _ Hwf1 E) as (Hwf2 & Hm & Hk & Hp & Hfe & Hold).
    simpl in *. split; [done|]. split; [done|]. split; [done|].
    split; [by rewrite Hp, <- app_assoc|].
    split.
    + f_equal; [|done]. unfold request_features.
      rewrite Hold by (rewrite lookup_insert_eq; by eexists).
      by rewrite lookup_insert_eq.
    + intros req Hreq.
      assert (req ≠ next_object s).
      { intros ->. apply (wf_fresh _ Hwf) in Hreq. lia. }
      rewrite Hold by (rewrite lookup_insert_ne by done; done).
      by rewrite lookup_insert_ne.
Qed.





(** The invariant at the sample states used below. *)
Lemma wf_submitted (m : option Model) (k : Z) (xs : list Features) :
  wf (snd (submit_all (init m k) xs)).
Proof.
  destruct (submit_all (init m k) xs) as [reqs s1] eqn:E.
  by destruct (submit_all_spec xs _ _ _ (wf_init m k) E) as (Hwf & _).
Qed.

(** C3, as the code has it.  When the scoring of a sealed batch fails,
    because [model.predict] raises inside [predict_batch_sync] or because no
    model is loaded, every caller whose request is in that batch gets the
    number [0.0] back; no failure reaches the caller. *)
Theorem failed_batch_returns_zero (s : ModelServer) (req : nat) :
  wf s ->
  (model s = None \/
   exists m, model s = Some m /\
             m (request_features s <$> sealed_batch s) = None) ->
  req ∈ sealed_batch s ->
  predict_async_result (batch_processor_step s) req = Some (Returned (Some 0)).
Proof.
  intros Hwf Hfail Hb. unfold predict_async_result.
  destruct (step_objects_failed s Hfail) as (s' & Hobj & ->).
  assert (Hin : req ∈ pending_requests s).
  { eapply elem_of_sublist; [done|apply sealed_batch_sublist]. }
  destruct (wf_pending _ Hwf _ Hin) as [r Hr].
  erewrite set_default_lookup; try done.
  - eapply sublist_NoDup; [apply (wf_nodup _ Hwf)|apply sealed_batch_sublist].
  - by rewrite Hobj.
Qed.

Lemma failed_batch_returns_zero_witness :
  predict_async_result
    (batch_processor_step (snd (submit_all (init (Some failing_model) 64)
                                  sample_inputs))) 2
  = Some (Returned (Some 0)).
Proof.
  apply failed_batch_returns_zero.
  - apply wf_submitted.
  - right. exists failing_model. split; reflexivity.
  - vm_compute. do 2 right. left.
Defined.

(** C3, as the specification states it, fails: with a scorer that raises,
    the caller of a sealed request observes the score [0.0], not a failure
    of kind INFERENCE_ERROR. *)
Lemma failed_batch_is_not_an_error :
  let s := snd (submit_all (init (Some failing_model) 64) sample_inputs) in
  failing_model (request_features s <$> sealed_batch s) = None
  /\ 0%nat ∈ sealed_batch s
  /\ predict_async_result (batch_processor_step s) 0
     = Some (Returned (Some 0))
  /\ predict_async_result (batch_processor_step s) 0
     <> Some (Failed "INFERENCE_ERROR").
Proof.
  split; [reflexivity|]. split; [by left|].
  split; [by vm_compute|]. by vm_compute.
Qed.

End ModelServerFacts.

(** ** The ranking pipeline *)

Module RankingServiceFacts.
Import RankingService PyFacts.

Lemma strip_with_ranking_score (c : Candidate) (q : Q) :
  strip_score (with_ranking_score c q) = strip_score c.
Proof. done. Qed.

(** The loop body attaches a score to the candidate and changes nothing
    else. *)
Lemma score_candidate_shape {Redis} (env : Collaborators Redis)
    (uf ctxf : Features) (r : Redis) (c : Candidate) :
  scored_from c (fst (score_candidate env uf ctxf r c)).
Proof.
  unfold scored_from, score_candidate, score_candidate_try.
  destruct (content_id c) as [cid|]; simpl.
  - destruct (_get_content_features env r cid) as [cf r']. by eexists.
  - by exists 0.
Qed.

Lemma score_candidates_shape {Redis} (env : Collaborators Redis)
    (uf ctxf : Features) (r : Redis) (candidates : list Candidate) :
  Forall2 scored_from candidates
    (fst (score_candidates env uf ctxf r candidates)).
Proof.
  revert r. induction candidates as [|c rest IH]; intros r; simpl.
  - constructor.
  - pose proof (score_candidate_shape env uf ctxf r c) as Hc.
    destruct (score_candidate env uf ctxf r c) as [c' r1]. simpl in Hc.
    specialize (IH r1).
    destruct (score_candidates env uf ctxf r1 rest) as [rest' r2].
    by constructor.
Qed.

Lemma scored_strip (candidates scored : list Candidate) :
  Forall2 scored_from candidates scored ->
  strip_score <$> scored = strip_score <$> candidates.
Proof.
  induction 1 as [|c c' l l' (q & -> & _) _ IH]; [done|].
  by rewrite !fmap_cons, IH.
Qed.

(** Before sorting, the scored list is the input list position by
    position, on both ways out of [rank_candidates]. *)
Lemma rank_candidates_scored {Redis} (env : Collaborators Redis) (r : Redis)
    (uid : string) (candidates : list Candidate) (context : option Features) :
  exists scored,
    Forall2 scored_from candidates scored
    /\ fst (rank_candidates env r uid candidates context)
       = sorted_reverse ranking_score_key scored.
Proof.
  unfold rank_candidates. destruct candidates as [|c0 rest].
  - exists []. by split; [constructor|].
  - destruct (_get_user_features env r uid) as [uf r1].
    set (ctx := match context with
                | Some (kv :: ctx) => process_context_features env (kv :: ctx)
                | _ => Ok []
                end).
    destruct ctx as [ctxf|].
    + pose proof (score_candidates_shape env uf ctxf r1 (c0 :: rest)) as Hs.
      destruct (score_candidates env uf ctxf r1 (c0 :: rest)) as [scored r2].
      by exists scored.
    + exists ((fun c => with_ranking_score c 0) <$> (c0 :: rest)). split.
      * apply Forall2_fmap_r, Forall_Forall2_diag, Forall_forall.
        intros c _. by exists 0.
      * unfold fst. symmetry. apply sorted_reverse_const with (k := 0).
        apply Forall_fmap, Forall_forall. by intros c _.
Qed.

(** C1, as the code has it.  The response of [rank_candidates] is
    non-increasing in [ranking_score], and candidates of equal score keep
    the order in which the request listed them: the sort key is the score
    alone and the sort is stable. *)
Theorem rank_order_is_score_then_input_order {Redis}
    (env : Collaborators Redis) (r : Redis) (uid : string)
    (candidates : list Candidate) (context : option Features) :
  let out := fst (rank_candidates env r uid candidates context) in
  StronglySorted (desc ranking_score_key) out
  /\ forall q : Q,
       strip_score <$>
         filter (fun c => Qeq_bool (ranking_score_key c) q = true) out
       `sublist_of` strip_score <$> candidates.
Proof.
  destruct (rank_candidates_scored env r uid candidates context)
    as (scored & Hshape & Hout).
  simpl. rewrite Hout. split.
  - apply sorted_reverse_sorted.
  - intros q. rewrite sorted_reverse_stable.
    rewrite <- (scored_strip candidates scored Hshape).
    apply fmap_sublist, sublist_filter.
Qed.

(** C1, as the specification states it, fails: two candidates of equal
    score stay in request order, the one of lower popularity first. *)
Lemma tie_not_broken_by_popularity :
  let out :=
    fst (rank_candidates tie_env () "u"
           [sample_candidate "A" 5; sample_candidate "B" 9] None) in
  out = [with_ranking_score (sample_candidate "A" 5) 0.42;
         with_ranking_score (sample_candidate "B" 9) 0.42]
  /\ content_id <$> out <> [Some "B"; Some "A"]%string
  /\ ~ StronglySorted claimed_before out.
Proof.
  split; [reflexivity|]. split; [discriminate|].
  intros Hs. simpl in Hs.
  inversion Hs as [|? ? _ Hfirst]; subst.
  inversion Hfirst as [|? ? Hab _]; subst.
  unfold claimed_before, ranking_score_key in Hab. simpl in Hab.
  destruct Hab as [Hlt|[_ [Hlt|[Heq _]]]].
  - by apply Qlt_irrefl in Hlt.
  - by vm_compute in Hlt.
  - by vm_compute in Heq.
Qed.

(** The score the loop body attaches: [0.0] for a candidate without
    [content_id], and otherwise what [_predict_score] makes of the
    features merged for the candidate. *)
Lemma score_candidate_exact {Redis} (env : Collaborators Redis)
    (uf ctxf : Features) (r : Redis) (c : Candidate) :
  exists q,
    fst (score_candidate env uf ctxf r c) = with_ranking_score c q
    /\ (content_id c = None -> q = 0)
    /\ (forall cid, content_id c = Some cid ->
          q = _predict_score env (combined_features env uf ctxf r cid)).
Proof.
  unfold score_candidate, score_candidate_try, combined_features.
  destruct (content_id c) as [cid|]; simpl.
  - exists (_predict_score env
              (dict_merge
                 (dict_merge uf (fst (_get_content_features env r cid))) ctxf)).
    split; [by destruct (_get_content_features env r cid)|].
    split; [done|]. by intros ? [= <-].
  - exists 0. by repeat split.
Qed.

Lemma score_candidates_exact {Redis} (env : Collaborators Redis)
    (uf ctxf : Features) (r : Redis) (candidates : list Candidate) :
  Forall2
    (fun c c' =>
       exists q,
         c' = with_ranking_score c q
         /\ (content_id c = None -> q = 0)
         /\ (forall cid, content_id c = Some cid ->
               exists r0,
                 q = _predict_score env (combined_features env uf ctxf r0 cid)))
    candidates (fst (score_candidates env uf ctxf r candidates)).
Proof.
  revert r. induction candidates as [|c rest IH]; intros r; simpl.
  - constructor.
  - destruct (score_candidate_exact env uf ctxf r c) as (q & Hc & Hnone & Hsome).
    destruct (score_candidate env uf ctxf r c) as [c' r1]. simpl in Hc.
    specialize (IH r1).
    destruct (score_candidates env uf ctxf r1 rest) as [rest' r2].
    constructor; [|done].
    exists q. split; [done|]. split; [done|].
    intros cid Hcid. exists r. by apply Hsome.
Qed.

Lemma rank_candidates_cons {Redis} (env : Collaborators Redis) (r : Redis)
    (uid : string) (c0 : Candidate) (rest : list Candidate)
    (context : option Features) :
  rank_candidates env r uid (c0 :: rest) context
  = let '(uf, r1) := _get_user_features env r uid in
    match processed_context env context with
    | Ok ctxf =>
        let '(scored, r2) := score_candidates env uf ctxf r1 (c0 :: rest) in
        (sorted_reverse ranking_score_key scored, r2)
    | Raise => ((fun c => with_ranking_score c 0) <$> c0 :: rest, r1)
    end.
Proof. reflexivity. Qed.

(** C6, as the code has it.  [rank_candidates] always returns, and what
    it returns is the request's candidates, each exactly once, each with
    a score attached.  The score of a returned candidate is [0.0] when it
    has no [content_id] (the loop body raises) and when the context of the
    request cannot be processed; otherwise it is what [_predict_score]
    makes of the candidate's merged features, which is [0.0] when the
    prediction raises.  A failure of the feature store while the
    candidate is hydrated is absorbed by [_get_content_features]: the
    returned score is then the model's score on the default content
    features, not [0.0]. *)
Theorem rank_keeps_every_candidate {Redis} (env : Collaborators Redis)
    (r : Redis) (uid : string) (candidates : list Candidate)
    (context : option Features) :
  let out := fst (rank_candidates env r uid candidates context) in
  let uf := fst (_get_user_features env r uid) in
  strip_score <$> out ≡ₚ strip_score <$> candidates
  /\ forall c', c' ∈ out ->
       exists q,
         ranking_score c' = Some q
         /\ (content_id c' = None -> q = 0)
         /\ (processed_context env context = Raise -> q = 0)
         /\ forall cid ctxf,
              content_id c' = Some cid ->
              processed_context env context = Ok ctxf ->
              (exists r0,
                 q = _predict_score env (combined_features env uf ctxf r0 cid))
              /\ ((forall r0,
                     predict_try env (combined_features env uf ctxf r0 cid)
                     = Raise) -> q = 0)
              /\ ((forall r0,
                     redis_get env r0 ("content_features:" ++ cid)%string
                     = Raise) ->
                  q = _predict_score env
                        (dict_merge (dict_merge uf default_content_features)
                           ctxf)).
Proof.
  cbn zeta. split.
  { destruct (rank_candidates_scored env r uid candidates context)
      as (scored & Hshape & ->).
    rewrite sorted_reverse_perm. by rewrite (scored_strip _ _ Hshape). }
  intros c' Hin.
  destruct candidates as [|c0 rest]; [by apply elem_of_nil in Hin|].
  rewrite rank_candidates_cons in Hin.
  destruct (_get_user_features env r uid) as [uf r1]. cbn [fst].
  destruct (processed_context env context) as [ctxf0|].
  - pose proof (score_candidates_exact env uf ctxf0 r1 (c0 :: rest)) as Hs.
    destruct (score_candidates env uf ctxf0 r1 (c0 :: rest)) as [scored r2].
    cbn [fst] in Hin, Hs. rewrite sorted_reverse_perm in Hin.
    apply list_elem_of_lookup in Hin as [i Hi].
    destruct (Forall2_lookup_r _ _ _ _ _ Hs Hi)
      as (c & _ & q & -> & Hnone & Hsome).
    exists q. split; [done|]. split; [exact Hnone|]. split; [done|].
    intros cid ctxf Hcid [= <-]. destruct (Hsome cid Hcid) as [r0 Hq].
    split; [by exists r0|]. split.
    + intros Hraise. rewrite Hq. unfold _predict_score. by rewrite Hraise.
    + intros Hstore. rewrite Hq. unfold combined_features.
      unfold _get_content_features, get_or_default. by rewrite Hstore.
  - cbn [fst] in Hin. apply list_elem_of_fmap in Hin as (c & -> & _).
    exists 0. by repeat split.
Qed.

(** C6, as the specification states it, fails: a candidate whose feature
    hydration raises in the store is scored by the model on the default
    features and keeps that score, here [0.7]. *)
Lemma store_failure_is_not_zero_score :
  redis_get store_down_env () "content_features:A" = Raise
  /\ ranking_score <$>
       fst (rank_candidates store_down_env () "u" [sample_candidate "A" 5] None)
     = [Some 0.7]
  /\ ~ 0.7 == 0.
Proof. split; [reflexivity|]. split; [reflexivity|]. by vm_compute. Qed.

End RankingServiceFacts.

(** ** Viewer features *)

Module UserFeatureServiceFacts.
Import Schemas UserFeatureService PyFacts.

Lemma behavior_weight_pos (a : ActionType) : 0 < behavior_weight a.
Proof. by destruct a. Qed.

Lemma accumulate_rows_nonneg (rows : list BehaviorRow) (total : Q)
    (counts : dict nat) (total' : Q) (counts' : dict nat) :
  0 <= total ->
  accumulate_rows rows total counts = Ok (total', counts') ->
  0 <= total'.
Proof.
  revert total counts.
  induction rows as [|row rows IH]; intros total counts Hpos Hacc; simpl in Hacc.
  - by inversion Hacc; subst.
  - destruct (ActionType_of (row_action_type row)) as [a|]; [|done].
    simpl in Hacc. eapply IH; [|exact Hacc].
    rewrite <- (Qplus_0_r 0). apply Qplus_le_compat; [done|].
    apply Qmult_le_0_compat.
    + apply Qlt_le_weak, behavior_weight_pos.
    + unfold Qle. simpl. lia.
Qed.

(** The recomputation path clamps: a score computed from the log is in
    [[0, 10]]. *)
Lemma compute_from_rows_clamped (uid : string) (now : Z)
    (rows : list BehaviorRow) (f : UserFeatures) :
  compute_from_rows uid now rows = Ok f ->
  0 <= behavior_score f /\ behavior_score f <= 10.
Proof.
  unfold compute_from_rows. destruct rows as [|row rows].
  - intros [= <-]. by vm_compute.
  - destruct (accumulate_rows (row :: rows) 0 []) as [[total counts]|] eqn:E;
      [|done].
    apply accumulate_rows_nonneg in E; [|apply Qle_refl].
    intros Hf. cbn [mbind exec_bind] in Hf.
    match type of Hf with
    | context [match counts with [] => ?x | _ :: _ => ?y end] =>
        destruct (match counts with [] => x | _ :: _ => y end)
          as [g|] eqn:Hg; [|done]
    end.
    inversion Hf; subst f. clear Hf.
    assert (Hscore : behavior_score g = Qmin (total / 100.0) 10.0).
    { destruct counts as [|kv counts].
      - by inversion Hg.
      - destruct (content_types_of _) as [cts|]; [|done].
        by inversion Hg. }
    cbn [behavior_score with_feature_vector with_activity_level].
    rewrite Hscore. split.
    + apply Q.min_glb; [|by vm_compute].
      apply Qle_shift_div_l; [by vm_compute|]. by rewrite Qmult_0_l.
    + apply Qle_trans with 10.0; [apply Q.le_min_r|by vm_compute].
Qed.

(** C4 fails on the ingestion path: twenty-one purchases patched into the
    default features of a viewer leave [behavior_score] at [10.5], above
    the bound the recomputation path enforces. *)
Theorem patched_behavior_score_exceeds_ten :
  let events := sample_purchase <$> [1; 2; 3; 4; 5; 6; 7; 8; 9; 10; 11; 12;
                                     13; 14; 15; 16; 17; 18; 19; 20; 21]%Z in
  let redis := process_user_behaviors empty_log ∅ events 100 in
  exists f, redis_get redis "user:features:1" 100 = Some f
            /\ behavior_score f == 10.5
            /\ ~ behavior_score f <= 10.
Proof.
  eexists. split; [vm_compute; reflexivity|].
  split; by vm_compute.
Qed.

(** One patch adds a tenth of the action's weight. *)
Lemma patch_features_score (f : UserFeatures) (b : UserBehavior) (now : Z) :
  behavior_score (patch_features f b now)
  = behavior_score f + behavior_weight (b_action_type b) * 0.1.
Proof.
  unfold patch_features, _update_activity_level, _update_interest_tags.
  destruct (b_content_type b); simpl;
    repeat (case_match; simpl); reflexivity.
Qed.

End UserFeatureServiceFacts.

(** ** Aggregation templates of the behavior log *)

Module ClickHouseServiceFacts.
Import Schemas ClickHouseService.

(** C5, as the code has it.  The viewer aggregates and the interaction
    matrix weigh an action by the table of [behavior_weights]
    (view 1, click 2, like 3, share 4, comment 3.5, purchase 5).  The item
    aggregates weigh view 1, click 2, like 3, share 5, comment 4 and
    purchase 10, and trending weighs view, click, like, share and
    comment as the item aggregates do. *)
Theorem template_weight_tables :
  (forall a, template_weight ViewerAggregates a
             == UserFeatureService.behavior_weight a)
  /\ (forall a, template_weight InteractionMatrix a
                == UserFeatureService.behavior_weight a)
  /\ (template_weight ItemAggregates <$> all_actions = [1; 2; 3; 5; 4; 10])
  /\ (template_weight Trending <$> [VIEW; CLICK; LIKE; SHARE; COMMENT]
      = [1; 2; 3; 5; 4])
  /\ (forall t row group,
        weighted_score t (row :: group)
        = template_term t (action_type row) + weighted_score t group).
Proof.
  split; [by intros []|]. split; [by intros []|].
  split; [reflexivity|]. split; reflexivity.
Qed.

(** C5, as the specification states it, fails: the item aggregates weigh
    a share 5 where the fixed table says 4, and trending does the same. *)
Lemma item_popularity_uses_other_weights :
  template_weight ItemAggregates SHARE = 5
  /\ template_weight Trending SHARE = 5
  /\ UserFeatureService.behavior_weight SHARE = 4.0
  /\ ~ template_weight ItemAggregates SHARE
       == UserFeatureService.behavior_weight SHARE.
Proof. repeat split; try reflexivity. by vm_compute. Qed.

End ClickHouseServiceFacts.

(** ** The fusion and rerank pipeline *)

Module FusionFacts.
Import FusionRerankingService PyFacts.

(** *** Dicts *)

Lemma dict_get_set_eq {V} (d : dict V) (k : string) (v : V) :
  dict_get (dict_set d k v) k = Some v.
Proof.
  induction d as [|[k' v'] d IH]; simpl.
  - by rewrite String.eqb_refl.
  - destruct (String.eqb k' k) eqn:E; simpl; by rewrite E.
Qed.

Lemma dict_get_set_ne {V} (d : dict V) (k k' : string) (v : V) :
  k <> k' -> dict_get (dict_set d k v) k' = dict_get d k'.
Proof.
  intros Hne. induction d as [|[k0 v0] d IH]; simpl.
  - by rewrite (proj2 (String.eqb_neq _ _) Hne).
  - destruct (String.eqb k0 k) eqn:E; simpl.
    + apply String.eqb_eq in E as ->.
      by rewrite (proj2 (String.eqb_neq _ _) Hne).
    + by rewrite IH.
Qed.

Lemma dict_get_elem {V} (d : dict V) (k : string) (v : V) :
  dict_get d k = Some v -> (k, v) ∈ d.
Proof.
  induction d as [|[k0 v0] d IH]; simpl; [done|].
  destruct (String.eqb k0 k) eqn:E.
  - apply String.eqb_eq in E as ->. intros [= ->]. by left.
  - intros H. right. by apply IH.
Qed.

(** *** Stage 1 *)

(** With a configured algorithm, the second pass succeeds and fuses
    every stored content. *)
Lemma fuse_contents_total (weights : dict Q)
    (scores : dict (dict ScoreInfo)) (all : dict Content) :
  weights <> [] ->
  exists out, fuse_contents weights scores all = Ok out
    /\ forall entry, entry ∈ all ->
         exists c', c' ∈ out /\ fuse_content weights scores entry = Ok c'.
Proof.
  intros Hw. induction all as [|entry all (out & IH & Hout)]; simpl.
  - exists []. split; [done|]. intros e He. by apply elem_of_nil in He.
  - assert (Hone : exists c', fuse_content weights scores entry = Ok c').
    { unfold fuse_content. destruct weights; [done|]. by eexists. }
    destruct Hone as [c' Hc']. rewrite Hc', IH. simpl.
    exists (c' :: out). split; [done|].
    intros e He. apply elem_of_cons in He as [->|He].
    + exists c'. split; [by left|done].
    + destruct (Hout e He) as (c'' & Hin & Hf). exists c''.
      split; [by right|done].
Qed.

(** *** Stage 4 *)

(** C9.  When at most [target_size] items reach the diversification
    stage, it returns them unchanged, in the same order, without running
    the greedy selection; so does the stage inside [fuse_and_rerank] when
    that many items survive deduplication and the policy filter. *)
Theorem diversity_keeps_short_lists (svc : Service) (results : list Content)
    (target_size : Z) :
  (Z.of_nat (length results) <= target_size)%Z ->
  _ensure_diversity svc results target_size = Some results
  /\ forall current_time algorithm_results context fused deduplicated,
       _fuse_algorithm_results svc algorithm_results = Ok fused ->
       _deduplicate_results svc fused = Ok deduplicated ->
       _apply_business_rules svc current_time deduplicated = results ->
       fuse_and_rerank_try svc current_time algorithm_results target_size
         context
       = (final_results ←
            _final_ranking_optimization svc current_time context results;
          Ok (Some final_results)).
Proof.
  intros Hlen.
  assert (Hsame : _ensure_diversity svc results target_size = Some results).
  { unfold _ensure_diversity. by rewrite (proj2 (Z.leb_le _ _) Hlen). }
  split; [done|].
  intros current_time algorithm_results context fused deduplicated Hf Hd Hr.
  unfold fuse_and_rerank_try. rewrite Hf. simpl. rewrite Hd. simpl.
  by rewrite Hr, Hsame.
Qed.

Lemma diversity_keeps_short_lists_witness :
  _ensure_diversity two_algorithm_service
    [sample_item "a" "alpha" 0.9; sample_item "b" "beta" 0.8] 2
  = Some [sample_item "a" "alpha" 0.9; sample_item "b" "beta" 0.8].
Proof.
  apply (diversity_keeps_short_lists two_algorithm_service
           [sample_item "a" "alpha" 0.9; sample_item "b" "beta" 0.8] 2).
  simpl. lia.
Defined.

(** *** The text similarity on the inputs of the repository's tests *)

Example similarity_of_equal_texts :
  _calculate_text_similarity "hello world" "hello world" == 1.
Proof. by vm_compute. Qed.

Example similarity_of_disjoint_texts :
  _calculate_text_similarity "hello world" "foo bar" == 0.
Proof. by vm_compute. Qed.

Example similarity_of_overlapping_texts :
  _calculate_text_similarity "hello world test" "hello world example" == 1 # 2.
Proof. by vm_compute. Qed.

Example similarity_of_empty_text :
  _calculate_text_similarity "" "hello" == 0.
Proof. by vm_compute. Qed.

Example similarity_ignores_case_and_spacing :
  _calculate_text_similarity (lower "Hello   World") (lower "world hello") == 1.
Proof. by vm_compute. Qed.

(** *** Lists whose items are pairwise related *)

Section Pairwise.
Context {A : Type} (R : A -> A -> Prop).

Lemma pairwise_snoc (l : list A) (x : A) :
  pairwise R l -> Forall (fun y => R y x) l -> pairwise R (l ++ [x]).
Proof.
  induction l as [|y l IH]; simpl; intros Hl Hx.
  - by split.
  - destruct Hl as [Hy Hl]. apply Forall_cons in Hx as [Hyx Hx]. split.
    + apply Forall_app. split; [done|]. by constructor.
    + by apply IH.
Qed.

Lemma pairwise_submseteq `{!Symmetric R} (l' l : list A) :
  l' ⊆+ l -> pairwise R l -> pairwise R l'.
Proof.
  induction 1 as [|x l1 l2 Hsub IH|x y l|x l1 l2 Hsub IH|l1 l2 l3 _ IH1 _ IH2];
    simpl; intros Hl.
  - done.
  - destruct Hl as [Hx Hl]. split; [|by apply IH].
    apply Forall_forall. intros z Hz.
    apply (proj1 (Forall_forall _ _) Hx). by eapply elem_of_submseteq.
  - destruct Hl as [Hx [Hy Hl]]. apply Forall_cons in Hx as [Hxy Hx].
    split; [|by split]. constructor; [by symmetry|done].
  - destruct Hl as [_ Hl]. by apply IH.
  - by apply IH1, IH2.
Qed.

Lemma pairwise_lookup `{!Symmetric R} (l : list A) (i j : nat) (a b : A) :
  pairwise R l -> i <> j -> l !! i = Some a -> l !! j = Some b -> R a b.
Proof.
  assert (Hlt : forall l i j a b,
             pairwise R l -> (i < j)%nat ->
             l !! i = Some a -> l !! j = Some b -> R a b).
  { clear. intros l. induction l as [|x l IH]; intros i j a b Hl Hij Ha Hb.
    - done.
    - destruct Hl as [Hx Hl]. destruct j as [|j]; [lia|]. simpl in Hb.
      destruct i as [|i]; simpl in Ha.
      + inversion Ha; subst.
        apply (proj1 (Forall_forall _ _) Hx). by eapply list_elem_of_lookup_2.
      + apply (IH i j); [done|lia|done|done]. }
  intros Hl Hij Ha Hb.
  destruct (decide (i < j)%nat) as [Hlt'|Hge].
  - by apply (Hlt l i j).
  - symmetry. apply (Hlt l j i); [done|lia|done|done].
Qed.
End Pairwise.

Lemma pairwise_Forall2 {A} (R : A -> A -> Prop) (Q : A -> A -> Prop)
    (l l' : list A) :
  (forall a b a' b', Q a a' -> Q b b' -> R a b -> R a' b') ->
  Forall2 Q l l' -> pairwise R l -> pairwise R l'.
Proof.
  intros Hpres. induction 1 as [|x x' l l' Hx Hl IH]; simpl; [done|].
  intros [Hfx Hp]. split; [|by apply IH].
  clear IH Hp. induction Hl as [|y y' l l' Hy Hl IH]; [constructor|].
  apply Forall_cons in Hfx as [Hxy Hfx].
  constructor; [by eapply Hpres|by apply IH].
Qed.

(** *** Stage 2 *)

Lemma text_similarity_sym (text1 text2 : string) :
  _calculate_text_similarity text1 text2
  = _calculate_text_similarity text2 text1.
Proof.
  unfold _calculate_text_similarity.
  set (words1 := list_to_set (C:=gset string) (split text1)).
  set (words2 := list_to_set (C:=gset string) (split text2)).
  rewrite (orb_comm (String.eqb text1 "")).
  destruct (_ || _); [done|].
  rewrite (andb_comm (bool_decide (words1 = ∅))).
  destruct (_ && _); [done|].
  clearbody words1 words2.
  assert (Hi : words1 ∩ words2 = words2 ∩ words1) by apply (comm_L (∩)).
  assert (Hu : words1 ∪ words2 = words2 ∪ words1) by apply (comm_L (∪)).
  by rewrite Hi, Hu.
Qed.

Lemma overall_similarity_sym (cfg : DedupConfig) (a b : Content) :
  overall_similarity cfg a b = overall_similarity cfg b a.
Proof.
  unfold overall_similarity.
  by rewrite (text_similarity_sym (title_text a)),
             (text_similarity_sym (summary_text a)).
Qed.

#[local] Instance distinct_items_sym (cfg : DedupConfig) :
  Symmetric (distinct_items cfg).
Proof.
  intros a b [Hid Hsim]. split; [done|].
  by rewrite overall_similarity_sym.
Qed.

(** The loop keeps [deduplicated] pairwise distinct, with the ids of its
    items in [seen_content_ids]. *)
Lemma dedup_loop_pairwise (cfg : DedupConfig) (results : list Content)
    (deduplicated : list Content) (seen : gset string) (out : list Content) :
  pairwise (distinct_items cfg) deduplicated ->
  Forall (fun c => exists cid, content_id c = Some cid /\ cid ∈ seen)
    deduplicated ->
  dedup_loop cfg results deduplicated seen = Ok out ->
  pairwise (distinct_items cfg) out.
Proof.
  revert deduplicated seen.
  induction results as [|content rest IH]; intros dd seen Hp Hseen Hloop;
    simpl in Hloop.
  - by inversion Hloop; subst.
  - unfold subscript_content_id in Hloop.
    destruct (content_id content) as [cid|] eqn:Hid; [|done].
    simpl in Hloop.
    destruct (bool_decide (cid ∈ seen)) eqn:Hin; [by eapply IH|].
    destruct (_is_similar_to_existing cfg content dd) eqn:Hsim;
      [by eapply IH|].
    apply bool_decide_eq_false in Hin.
    eapply IH; [| |exact Hloop].
    + apply pairwise_snoc; [done|].
      apply Forall_forall. intros e He.
      destruct (proj1 (Forall_forall _ _) Hseen e He) as (eid & Heid & Hes).
      split; [rewrite Heid, Hid; intros [= ->]; done|].
      rewrite overall_similarity_sym.
      unfold _is_similar_to_existing in Hsim.
      destruct (Qgt_bool (overall_similarity cfg content e)
                  (default 0.8 (similarity_threshold cfg))) eqn:Hgt.
      * exfalso. assert (Hex : existsb
                   (fun existing =>
                      Qgt_bool (overall_similarity cfg content existing)
                        (default 0.8 (similarity_threshold cfg))) dd = true).
        { apply existsb_exists. exists e. split; [|done].
          by apply list_elem_of_In. }
        congruence.
      * by apply Qlt_bool_false_iff in Hgt.
    + apply Forall_app. split.
      * eapply Forall_impl; [exact Hseen|].
        intros e (eid & Heid & Hes). exists eid. split; [done|set_solver].
      * constructor; [|constructor]. exists cid. split; [done|set_solver].
Qed.

Lemma deduplicate_results_pairwise (svc : Service) (results out : list Content) :
  _deduplicate_results svc results = Ok out ->
  pairwise (distinct_items (dedup_config svc)) out.
Proof.
  apply dedup_loop_pairwise; [done|constructor].
Qed.

(** *** Stage 3 *)

(** An item is kept exactly when it passes every check, a missing field
    standing for its default. *)
Lemma rejection_None_iff (rules : BusinessRules) (now : Z) (c : Content) :
  rejection rules now c = None <-> passes_rules rules now c.
Proof.
  unfold rejection, passes_rules, _check_user_preferences.
  destruct (Qlt_bool (default 0.8 (quality_score c)) _) eqn:E1.
  { apply Qlt_bool_iff in E1. split; [done|].
    intros [H _]. by apply Qlt_not_le in E1. }
  apply Qlt_bool_false_iff in E1.
  set (old := match publish_time c with
              | Some (Naive t) => _
              | _ => false
              end).
  assert (Hold : old = false
                 <-> match publish_time c with
                     | Some (Naive t) =>
                         ((now - t) `div` 86400
                          <= default 30 (max_content_age_days rules))%Z
                     | _ => True
                     end).
  { subst old. destruct (publish_time c) as [[t|t|]|]; try done.
    rewrite Z.ltb_ge. done. }
  destruct old.
  { split; [done|]. intros (_ & H & _). by apply Hold in H. }
  destruct (in_list (default ""%string (category c)) _) eqn:E3.
  { split; [done|]. by intros (_ & _ & H & _). }
  destruct (in_list (default ""%string (author_id c)) _) eqn:E4.
  { split; [done|]. by intros (_ & _ & _ & H & _). }
  destruct (Qlt_bool (default 5.0 (user_rating c)) _) eqn:E5.
  { apply Qlt_bool_iff in E5. split; [done|].
    intros (_ & _ & _ & _ & H & _). by apply Qlt_not_le in E5. }
  apply Qlt_bool_false_iff in E5.
  destruct (default true (require_content_review rules)) eqn:E6; cbn [andb].
  - destruct (String.eqb (default "pending"%string (review_status c))
                "approved") eqn:E7; cbn [negb].
    + apply String.eqb_eq in E7. split; [|done]. intros _.
      repeat split; try done. by apply Hold.
    + apply String.eqb_neq in E7. split; [done|].
      intros (_ & _ & _ & _ & _ & H). destruct (E7 (H eq_refl)).
  - split; [|done]. intros _. repeat split; try done. by apply Hold.
Qed.

Lemma rejection_low_quality_iff (rules : BusinessRules) (now : Z) (c : Content) :
  rejection rules now c = Some "low_quality"%string
  <-> default 0.8 (quality_score c)
      < default 0.6 (min_content_quality_score rules).
Proof.
  unfold rejection. rewrite <- Qlt_bool_iff.
  destruct (Qlt_bool (default 0.8 (quality_score c)) _); [done|].
  split; [|done]. repeat case_match; discriminate.
Qed.

Lemma rejection_low_rating (rules : BusinessRules) (now : Z) (c : Content) :
  rejection rules now c = Some "low_rating"%string ->
  default 5.0 (user_rating c) < default 3.0 (min_user_rating rules).
Proof.
  unfold rejection. rewrite <- Qlt_bool_iff.
  destruct (Qlt_bool (default 5.0 (user_rating c)) _); [done|].
  repeat case_match; discriminate.
Qed.

(** C10.  The policy filter judges an item that lacks a field as if the
    field held its default: [quality_score] 0.8, [user_rating] 5.0,
    [review_status] ['pending'].  It keeps exactly the items of its input
    that pass every check with these defaults in place; it rejects an item
    for low quality exactly when the quality, or 0.8 for an item without
    one, is below the threshold, and an item whose rating, or 5.0 for an
    item without one, is below the threshold is rejected.  So under the
    default rules an item without [quality_score] and [user_rating] is
    rejected for neither of the two and, approved and without publish
    time, is kept; and an item without [review_status] is filtered out
    whenever review is required. *)
Theorem missing_fields_use_defaults :
  (forall svc now results c,
     c ∈ _apply_business_rules svc now results
     <-> c ∈ results /\ passes_rules (business_rules svc) now c)
  /\ (forall rules now c,
        rejection rules now c = Some "low_quality"%string
        <-> default 0.8 (quality_score c)
            < default 0.6 (min_content_quality_score rules))
  /\ (forall rules now c,
        (rejection rules now c = Some "low_rating"%string ->
         default 5.0 (user_rating c) < default 3.0 (min_user_rating rules))
        /\ (default 5.0 (user_rating c) < default 3.0 (min_user_rating rules)
            -> rejection rules now c <> None))
  /\ (forall rules now c,
        quality_score c = None ->
        rejection rules now c
        = rejection rules now (with_quality_score c (Some 0.8)))
  /\ (forall rules now c,
        user_rating c = None ->
        rejection rules now c
        = rejection rules now (with_user_rating c (Some 5.0)))
  /\ (forall rules now c,
        review_status c = None ->
        rejection rules now c
        = rejection rules now (with_review_status c (Some "pending"%string)))
  /\ (forall now c,
        quality_score c = None -> user_rating c = None ->
        rejection default_business_rules now c <> Some "low_quality"%string
        /\ rejection default_business_rules now c <> Some "low_rating"%string)
  /\ (forall svc now results c,
        business_rules svc = default_business_rules ->
        c ∈ results ->
        quality_score c = None -> user_rating c = None ->
        review_status c = Some "approved"%string -> publish_time c = None ->
        c ∈ _apply_business_rules svc now results)
  /\ (forall svc now results c,
        default true (require_content_review (business_rules svc)) = true ->
        review_status c = None ->
        c ∉ _apply_business_rules svc now results).
Proof.
  assert (Hkept : forall svc now results c,
            c ∈ _apply_business_rules svc now results
            <-> c ∈ results /\ passes_rules (business_rules svc) now c).
  { intros svc now results c. unfold _apply_business_rules.
    rewrite list_elem_of_filter, rejection_None_iff. tauto. }
  split; [exact Hkept|].
  split; [exact rejection_low_quality_iff|].
  split.
  { intros rules now c. split; [apply rejection_low_rating|].
    intros Hlow Hnone. apply rejection_None_iff in Hnone.
    destruct Hnone as (_ & _ & _ & _ & Hr & _). by apply Qlt_not_le in Hlow. }
  split; [|split; [|split; [|split; [|split]]]].
  - intros rules now c Hq. unfold rejection. by rewrite Hq.
  - intros rules now c Hr. unfold rejection. by rewrite Hr.
  - intros rules now c Hs. unfold rejection. by rewrite Hs.
  - intros now c Hq Hr. split.
    + rewrite rejection_low_quality_iff, Hq. by vm_compute.
    + intros Hlow. apply rejection_low_rating in Hlow.
      rewrite Hr in Hlow. by vm_compute in Hlow.
  - intros svc now results c Hrules Hin Hq Hr Hs Hp.
    apply Hkept. split; [done|].
    unfold passes_rules. rewrite Hrules, Hq, Hr, Hs, Hp.
    repeat split; by vm_compute.
  - intros svc now results c Hreq Hs Hin.
    apply Hkept in Hin as [_ (_ & _ & _ & _ & _ & Hrev)].
    specialize (Hrev Hreq). by rewrite Hs in Hrev.
Qed.

(** The candidate the inner loop settles on is an item of [remaining],
    at the index the loop reports. *)
Lemma best_of_lookup (combined : Content -> Q) (remaining : list Content)
    (idx : nat) (best : option (nat * Content)) (best_score : Q)
    (i : nat) (c : Content) :
  best_of combined idx remaining best best_score = Some (i, c) ->
  best = Some (i, c)
  \/ ((idx <= i)%nat /\ remaining !! (i - idx)%nat = Some c).
Proof.
  revert idx best best_score.
  induction remaining as [|x rest IH]; intros idx best best_score Hbest;
    simpl in Hbest; [by left|].
  destruct (Qgt_bool (combined x) best_score).
  - destruct (IH _ _ _ Hbest) as [[= -> ->]|[Hle Hl]].
    + right. split; [lia|]. by rewrite Nat.sub_diag.
    + right. split; [lia|].
      replace (i - idx)%nat with (S (i - S idx)) by lia. done.
  - destruct (IH _ _ _ Hbest) as [->|[Hle Hl]]; [by left|].
    right. split; [lia|].
    replace (i - idx)%nat with (S (i - S idx)) by lia. done.
Qed.

(** The selection only moves items from [remaining] to [diversified]. *)
Lemma mmr_loop_submseteq (cfg : DiversityConfig) (fuel : nat) (target_size : Z)
    (diversified remaining : list Content) (n : Counters) (out : list Content) :
  mmr_loop cfg fuel target_size diversified remaining n = Some out ->
  out ⊆+ diversified ++ remaining.
Proof.
  revert diversified remaining n.
  induction fuel as [|fuel IH]; intros dv rem n Hloop; simpl in Hloop.
  - destruct (_ && _).
    + destruct (best_of _ _ _ _ _) as [[i c]|]; [|done].
      by destruct (dict_truthy c).
    + inversion Hloop; subst. by apply submseteq_inserts_r.
  - destruct (_ && _).
    + destruct (best_of _ _ _ _ _) as [[i c]|] eqn:Hbest; [|done].
      destruct (dict_truthy c); [|done].
      apply best_of_lookup in Hbest as [?|[_ Hl]]; [done|].
      rewrite Nat.sub_0_r in Hl.
      apply IH in Hloop. etrans; [exact Hloop|].
      rewrite <- app_assoc. simpl.
      by rewrite <- (delete_Permutation rem i c Hl).
    + inversion Hloop; subst. by apply submseteq_inserts_r.
Qed.

(** Selecting an item shortens [remaining], so a budget of
    [length remaining] iterations is never used up: a larger budget gives
    the same result. *)
Lemma mmr_loop_fuel (cfg : DiversityConfig) (fuel : nat) (target_size : Z)
    (diversified remaining : list Content) (n : Counters) :
  (length remaining <= fuel)%nat ->
  mmr_loop cfg fuel target_size diversified remaining n
  = mmr_loop cfg (length remaining) target_size diversified remaining n.
Proof.
  revert diversified remaining n.
  induction fuel as [|fuel IH]; intros dv rem n Hlen.
  - by replace (length rem) with 0%nat by lia.
  - destruct rem as [|x rem]; [done|].
    cbn [mmr_loop length].
    destruct (_ && _); [|done].
    destruct (best_of _ _ _ _ _) as [[i c]|] eqn:Hbest; [|done].
    destruct (dict_truthy c); [|done].
    apply best_of_lookup in Hbest as [?|[_ Hl]]; [done|].
    rewrite Nat.sub_0_r in Hl.
    assert (Hdel : S (length (delete i (x :: rem))) = length (x :: rem)).
    { rewrite length_delete by (by eexists).
      apply lookup_lt_Some in Hl. simpl in *. lia. }
    cbn [length] in Hdel, Hlen.
    rewrite (IH _ (delete i (x :: rem))) by lia.
    by replace (length rem) with (length (delete i (x :: rem))) by lia.
Qed.

Lemma ensure_diversity_submseteq (svc : Service) (results : list Content)
    (target_size : Z) (out : list Content) :
  _ensure_diversity svc results target_size = Some out -> out ⊆+ results.
Proof.
  unfold _ensure_diversity. destruct (_ <=? _)%Z.
  - by intros [= ->].
  - destruct results as [|best_item remaining]; intros Hloop;
      by apply mmr_loop_submseteq in Hloop.
Qed.

(** *** Stage 5 *)

Lemma optimize_contents_finalized (svc : Service) (now : Z)
    (context : option Context) (results out : list Content) :
  optimize_contents svc now context results = Ok out ->
  Forall2 finalized results out.
Proof.
  revert out. induction results as [|c rest IH]; intros out Hopt;
    simpl in Hopt.
  - inversion Hopt. constructor.
  - unfold optimize_content in Hopt.
    destruct (_calculate_popularity_boost svc c) as [p|]; [|done].
    simpl in Hopt.
    destruct (optimize_contents svc now context rest) as [rest'|]; [|done].
    simpl in Hopt. inversion Hopt; subst.
    constructor; [by eexists _, _|by apply IH].
Qed.

Lemma finalized_distinct (cfg : DedupConfig) (a b a' b' : Content) :
  finalized a a' -> finalized b b' ->
  distinct_items cfg a b -> distinct_items cfg a' b'.
Proof. by intros (fa & ba & ->) (fb & bb & ->). Qed.

(** *** The whole pipeline *)

Lemma fuse_output_pairwise (svc : Service) (now : Z)
    (algorithm_results : dict (list Content)) (target_size : Z)
    (context : option Context) (items : list Content) :
  fuse_and_rerank svc now algorithm_results target_size context = Fused items ->
  pairwise (distinct_items (dedup_config svc)) items.
Proof.
  unfold fuse_and_rerank, fuse_and_rerank_try.
  destruct (_fuse_algorithm_results svc algorithm_results) as [fused|];
    [|done].
  simpl.
  destruct (_deduplicate_results svc fused) as [dd|] eqn:Hdd; [|done].
  simpl. apply deduplicate_results_pairwise in Hdd.
  destruct (_ensure_diversity svc _ target_size) as [dv|] eqn:Hdv; [|done].
  apply ensure_diversity_submseteq in Hdv.
  unfold _final_ranking_optimization.
  destruct (optimize_contents svc now context dv) as [opt|] eqn:Hopt; [|done].
  simpl. intros [= <-].
  apply optimize_contents_finalized in Hopt.
  apply (pairwise_submseteq _ _ (sorted_reverse final_score_key opt)).
  { apply sublist_submseteq, slice_to_sublist. }
  apply (pairwise_submseteq _ _ opt).
  { apply Permutation_submseteq, sorted_reverse_perm. }
  apply (pairwise_Forall2 _ finalized dv); [apply finalized_distinct|done|].
  apply (pairwise_submseteq _ _ dd); [|done].
  etrans; [exact Hdv|]. apply sublist_submseteq, sublist_filter.
Qed.

(** C7.  Whatever [fuse_and_rerank] returns on its regular path holds
    no two items of one id and no two items whose overall similarity
    exceeds the configured threshold (0.8 when none is configured); the
    overall similarity is the weighted sum of the Jaccard similarity of
    the titles and of that of the summaries, where the
    description stands in for the summary of an item that has none. *)
Theorem fuse_output_is_deduplicated (svc : Service) (now : Z)
    (algorithm_results : dict (list Content)) (target_size : Z)
    (context : option Context) (items : list Content) :
  fuse_and_rerank svc now algorithm_results target_size context = Fused items ->
  forall (i j : nat) (a b : Content),
    i <> j -> items !! i = Some a -> items !! j = Some b ->
    content_id a <> content_id b
    /\ overall_similarity (dedup_config svc) a b
       <= default 0.8 (similarity_threshold (dedup_config svc)).
Proof.
  intros Hfused i j a b Hij Ha Hb.
  apply fuse_output_pairwise in Hfused.
  exact (pairwise_lookup (distinct_items (dedup_config svc)) items i j a b
           Hfused Hij Ha Hb).
Qed.

Lemma fuse_output_is_deduplicated_witness :
  (content_id <$> sample_fused_items = [Some "a"; Some "c"]%string)
  /\ forall (i j : nat) (a b : Content),
       i <> j -> sample_fused_items !! i = Some a ->
       sample_fused_items !! j = Some b ->
       content_id a <> content_id b
       /\ overall_similarity (dedup_config two_algorithm_service) a b
          <= default 0.8 (similarity_threshold (dedup_config two_algorithm_service)).
Proof.
  split; [by vm_compute|].
  apply (fuse_output_is_deduplicated two_algorithm_service 0 sample_results 10
           None).
  by vm_compute.
Defined.

End FusionFacts.

(** ** Stage 1 of the fusion over binary64 *)

Module FusionFloatFacts.
Import PrimFloat FusionFloat PyFacts.
#[local] Set Warnings "-inexact-float".
#[local] Open Scope float_scope.

Lemma sort_reverse_perm {A} (key : A -> float) (l : list A) :
  sort_reverse key l ≡ₚ l.
Proof.
  induction l as [|x l IH]; simpl; [done|].
  rewrite <- IH at 2. generalize (sort_reverse key l). clear.
  intros l. induction l as [|y l IH]; simpl; [done|].
  destruct (key x <? key y); [|done].
  rewrite IH. apply Permutation_swap.
Qed.

(** An item of another id leaves the records of [k] alone. *)
Lemma collect_content_frame (name : string) (w : float) (idx : nat)
    (c : Content) (st : dict (dict ScoreInfo) * dict Content)
    (k cid : string) :
  content_id c = Some cid -> cid <> k ->
  exists st', collect_content name w idx c st = Ok st'
    /\ dict_get (fst st') k = dict_get (fst st) k
    /\ dict_get (snd st') k = dict_get (snd st) k.
Proof.
  intros Hid Hne. destruct st as [scores all].
  unfold collect_content, subscript_content_id. rewrite Hid. simpl.
  eexists. split; [reflexivity|]. simpl. split.
  - by apply FusionFacts.dict_get_set_ne.
  - destruct (dict_get all cid); [done|].
    by apply FusionFacts.dict_get_set_ne.
Qed.

Lemma collect_results_frame (name : string) (w : float) (k : string)
    (results : list Content) (idx : nat)
    (st : dict (dict ScoreInfo) * dict Content) :
  Forall (other_id k) results ->
  exists st', collect_results name w idx results st = Ok st'
    /\ dict_get (fst st') k = dict_get (fst st) k
    /\ dict_get (snd st') k = dict_get (snd st) k.
Proof.
  intros Hall. revert idx st.
  induction Hall as [|c rest (cid & Hid & Hne) _ IH]; intros idx st; simpl.
  - by exists st.
  - destruct (collect_content_frame name w idx c st k cid Hid Hne)
      as (st1 & -> & Hs1 & Ha1).
    simpl. destruct (IH (S idx) st1) as (st2 & -> & Hs2 & Ha2).
    exists st2. split; [done|]. split; congruence.
Qed.

(** The item at rank 1 of a list, with no other item of its id behind
    it: one entry is written under the algorithm's name, and the content
    is stored unless one of that id is stored already. *)
Lemma collect_results_rank_one (name : string) (w : float) (k : string)
    (x : Content) (rest : list Content)
    (st : dict (dict ScoreInfo) * dict Content) :
  content_id x = Some k ->
  Forall (other_id k) rest ->
  exists st', collect_results name w 0 (x :: rest) st = Ok st'
    /\ dict_get (fst st') k
       = Some (dict_set (default [] (dict_get (fst st) k)) name
                 {| info_score := original_score x * (1.0 / float_of_int 1);
                    info_weight := w; info_position := 0 |})
    /\ dict_get (snd st') k = Some (default x (dict_get (snd st) k)).
Proof.
  intros Hid Hrest. destruct st as [scores all].
  cbn [collect_results]. unfold collect_content, subscript_content_id.
  rewrite Hid. cbn [from_option mbind exec_bind].
  match goal with
  | |- context [collect_results name w 1 rest ?st1] =>
      destruct (collect_results_frame name w k rest 1 st1 Hrest)
        as (st2 & -> & Hs2 & Ha2)
  end.
  exists st2. split; [done|]. cbn [fst snd] in *. split.
  - by rewrite Hs2, FusionFacts.dict_get_set_eq.
  - rewrite Ha2. destruct (dict_get all k) as [c0|] eqn:E; cbn [default].
    + done.
    + by rewrite FusionFacts.dict_get_set_eq.
Qed.

(** With a configured algorithm, the second pass succeeds and fuses
    every stored content. *)
Lemma fuse_contents_every (weights : dict float)
    (scores : dict (dict ScoreInfo)) (all : dict Content) :
  weights <> [] ->
  exists out, fuse_contents weights scores all = Ok out
    /\ forall entry, entry ∈ all ->
         exists c', c' ∈ out /\ fuse_content weights scores entry = Ok c'.
Proof.
  intros Hw. induction all as [|entry all (out & IH & Hout)]; simpl.
  - exists []. split; [done|]. intros e He. by apply elem_of_nil in He.
  - assert (Hone : exists c', fuse_content weights scores entry = Ok c').
    { unfold fuse_content. destruct weights; [done|]. by eexists. }
    destruct Hone as [c' Hc']. rewrite Hc', IH. simpl.
    exists (c' :: out). split; [done|].
    intros e He. apply elem_of_cons in He as [->|He].
    + exists c'. split; [by left|done].
    + destruct (Hout e He) as (c'' & Hin & Hf). exists c''.
      split; [by right|done].
Qed.

(** A stored content comes out of the stage with the score computed from
    its collected entries. *)
Lemma fuse_stored (weights : dict float)
    (algorithm_results : dict (list Content))
    (scores : dict (dict ScoreInfo)) (all : dict Content) (k : string)
    (c : Content) (infos : dict ScoreInfo) :
  weights <> [] ->
  collect_algorithms weights algorithm_results ([], []) = Ok (scores, all) ->
  dict_get all k = Some c -> dict_get scores k = Some infos ->
  exists fused,
    _fuse_algorithm_results weights algorithm_results = Ok fused
    /\ with_fusion c (normalized_score infos + coverage_bonus weights infos)
         (length infos) infos ∈ fused.
Proof.
  intros Hw Hcollect Hall Hscores.
  destruct (fuse_contents_every weights scores all Hw) as (out & Hout & Hin).
  unfold _fuse_algorithm_results. rewrite Hcollect. simpl. rewrite Hout. simpl.
  eexists. split; [reflexivity|].
  destruct (Hin (k, c) (FusionFacts.dict_get_elem _ _ _ Hall))
    as (c' & Hc' & Hf).
  rewrite sort_reverse_perm.
  unfold fuse_content in Hf. simpl in Hf. rewrite Hscores in Hf. simpl in Hf.
  destruct weights; [done|]. by inversion Hf; subst.
Qed.

(** C8, as the code has it.  Two configured algorithms of weight 0.5.
    An item X that only the first algorithm produces, at rank 1 with raw
    score 0.8, comes out of the stage with [fusion_score]
    0.8500000000000001; an item Y that both produce at rank 1 with raw
    score 0.8 comes out with 0.9.  Both weighted means are 0.8 and the
    coverage bonuses are [1/2 * 0.1 = 0.05] and [2/2 * 0.1 = 0.1], whose
    difference is 0.05; the difference of the two fusion scores is
    0.04999999999999993, which is 0.05 up to the rounding of the two
    additions (it is less than 1e-16 away) and not equal to it. *)
Theorem coverage_bonus_scenario (a1 a2 kx ky : string)
    (x y1 y2 : Content) (t1 l2 u1 u2 : list Content) :
  a1 <> a2 ->
  content_id x = Some kx -> score x = Some 0.8 ->
  Forall (other_id kx) t1 -> Forall (other_id kx) l2 ->
  content_id y1 = Some ky -> score y1 = Some 0.8 ->
  content_id y2 = Some ky -> score y2 = Some 0.8 ->
  Forall (other_id ky) u1 -> Forall (other_id ky) u2 ->
  let weights := [(a1, 0.5); (a2, 0.5)] in
  let ix := [(a1, {| info_score := 0.8; info_weight := 0.5;
                     info_position := 0 |})] in
  let iy := [(a1, {| info_score := 0.8; info_weight := 0.5;
                     info_position := 0 |});
             (a2, {| info_score := 0.8; info_weight := 0.5;
                     info_position := 0 |})] in
  let cx := with_fusion x 0.8500000000000001 1 ix in
  let cy := with_fusion y1 0.9 2 iy in
  (exists fused_x,
     _fuse_algorithm_results weights [(a1, x :: t1); (a2, l2)] = Ok fused_x
     /\ cx ∈ fused_x)
  /\ (exists fused_y,
        _fuse_algorithm_results weights [(a1, y1 :: u1); (a2, y2 :: u2)]
        = Ok fused_y
        /\ cy ∈ fused_y)
  /\ normalized_score ix = 0.8 /\ normalized_score iy = 0.8
  /\ coverage_bonus weights ix = 0.05 /\ coverage_bonus weights iy = 0.1
  /\ coverage_bonus weights iy - coverage_bonus weights ix = 0.05
  /\ fusion_score_key cx = normalized_score ix + coverage_bonus weights ix
  /\ fusion_score_key cy = normalized_score iy + coverage_bonus weights iy
  /\ fusion_score_key cy - fusion_score_key cx = 0.04999999999999993
  /\ (fusion_score_key cy - fusion_score_key cx =? 0.05) = false
  /\ (abs (fusion_score_key cy - fusion_score_key cx - 0.05) <? 1e-16) = true.
Proof.
  intros Hne Hx Hsx Ht1 Hl2 Hy1 Hsy1 Hy2 Hsy2 Hu1 Hu2 weights ix iy cx cy.
  assert (Hw1 : default 0.1 (dict_get weights a1) = 0.5)
    by (unfold weights; simpl; by rewrite String.eqb_refl).
  assert (Hw2 : default 0.1 (dict_get weights a2) = 0.5).
  { unfold weights. simpl.
    by rewrite (proj2 (String.eqb_neq _ _) Hne), String.eqb_refl. }
  assert (Hnonempty : weights <> []) by done.
  assert (Hox : original_score x * (1.0 / float_of_int 1) = 0.8)
    by (unfold original_score; by rewrite Hsx).
  assert (Hoy1 : original_score y1 * (1.0 / float_of_int 1) = 0.8)
    by (unfold original_score; by rewrite Hsy1).
  assert (Hoy2 : original_score y2 * (1.0 / float_of_int 1) = 0.8)
    by (unfold original_score; by rewrite Hsy2).
  split; [|split].
  - (* X: one entry, written by the first algorithm *)
    destruct (collect_results_rank_one a1 0.5 kx x t1 ([], []) Hx Ht1)
      as (sx1 & Hcx1 & Hsx1 & Hax1).
    destruct (collect_results_frame a2 0.5 kx l2 0 sx1 Hl2)
      as ([sx2 ax2] & Hcx2 & Hsx2 & Hax2).
    assert (Hcollect :
      collect_algorithms weights [(a1, x :: t1); (a2, l2)] ([], [])
      = Ok (sx2, ax2)).
    { cbn [collect_algorithms]. rewrite Hw1, Hcx1.
      cbn [mbind exec_bind]. by rewrite Hw2, Hcx2. }
    cbn [fst snd dict_get default dict_set] in Hsx1, Hax1, Hsx2, Hax2.
    rewrite Hsx1 in Hsx2. rewrite Hax1 in Hax2. rewrite Hox in Hsx2.
    destruct (fuse_stored weights _ _ _ kx x _ Hnonempty Hcollect Hax2 Hsx2)
      as (fused_x & Hfx & Hinx).
    exists fused_x. split; [exact Hfx|]. exact Hinx.
  - (* Y: two entries, one by each algorithm *)
    destruct (collect_results_rank_one a1 0.5 ky y1 u1 ([], []) Hy1 Hu1)
      as (sy1 & Hcy1 & Hsy1' & Hay1).
    destruct (collect_results_rank_one a2 0.5 ky y2 u2 sy1 Hy2 Hu2)
      as ([sy2 ay2] & Hcy2 & Hsy2' & Hay2).
    assert (Hcollect :
      collect_algorithms weights [(a1, y1 :: u1); (a2, y2 :: u2)] ([], [])
      = Ok (sy2, ay2)).
    { cbn [collect_algorithms]. rewrite Hw1, Hcy1.
      cbn [mbind exec_bind]. by rewrite Hw2, Hcy2. }
    cbn [fst snd dict_get default dict_set] in Hsy1', Hay1, Hsy2', Hay2.
    rewrite Hsy1' in Hsy2'. rewrite Hay1 in Hay2.
    cbn [default] in Hsy2', Hay2. unfold id in Hsy2', Hay2.
    cbn [dict_set] in Hsy2'.
    rewrite (proj2 (String.eqb_neq _ _) Hne) in Hsy2'.
    rewrite Hoy1, Hoy2 in Hsy2'.
    destruct (fuse_stored weights _ _ _ ky y1 _ Hnonempty Hcollect Hay2 Hsy2')
      as (fused_y & Hfy & Hiny).
    exists fused_y. split; [exact Hfy|]. exact Hiny.
  - repeat split; reflexivity.
Qed.

Lemma coverage_bonus_scenario_witness :
  fusion_score_of "x"
    (_fuse_algorithm_results two_algorithm_weights sample_results_x)
  = Some 0.8500000000000001
  /\ fusion_score_of "y"
       (_fuse_algorithm_results two_algorithm_weights sample_results_y)
     = Some 0.9
  /\ exists fused_x,
       _fuse_algorithm_results two_algorithm_weights sample_results_x
       = Ok fused_x
       /\ with_fusion (sample_item "x" 0.8) 0.8500000000000001 1
            [("cf"%string, {| info_score := 0.8; info_weight := 0.5;
                              info_position := 0 |})] ∈ fused_x.
Proof.
  split; [reflexivity|]. split; [reflexivity|].
  assert (Hz : forall k : string, k <> "z"%string ->
               forall q, other_id k (sample_item "z" q)).
  { intros k Hk q. exists "z"%string. split; [reflexivity|].
    intros Heq. by apply Hk. }
  apply (coverage_bonus_scenario "cf" "dl" "x" "y"
           (sample_item "x" 0.8) (sample_item "y" 0.8) (sample_item "y" 0.8)
           [sample_item "z" 0.3] [sample_item "z" 0.9]
           [] [sample_item "z" 0.9]);
    try reflexivity; try discriminate;
    repeat constructor; apply Hz; discriminate.
Defined.

(** C8, as the specification states it, fails: the stage computes in
    binary64, where the two fusion scores are 0.8500000000000001 and 0.9
    and their difference is not 0.05. *)
Lemma coverage_difference_is_not_exact :
  let fx := fusion_score_of "x"
              (_fuse_algorithm_results two_algorithm_weights sample_results_x) in
  let fy := fusion_score_of "y"
              (_fuse_algorithm_results two_algorithm_weights sample_results_y) in
  fx = Some 0.8500000000000001
  /\ fy = Some 0.9
  /\ default 0 fy - default 0 fx = 0.04999999999999993
  /\ (default 0 fy - default 0 fx =? 0.05) = false
  /\ default 0 fy - default 0 fx <> 0.05.
Proof.
  repeat split; try reflexivity. vm_compute. discriminate.
Qed.

End FusionFloatFacts.

(** ** The inference batcher: sealing, delivery and reloading *)

Module BatcherFacts.
Import ModelServer PyFacts ModelServerFacts.

Lemma slice_partition {A} (l : list A) (k : Z) :
  slice_to l k ++ slice_from l k = l.
Proof.
  unfold slice_to, slice_from. destruct (0 <=? k)%Z; apply take_drop.
Qed.

Lemma pending_after_step (s : ModelServer) :
  pending_requests (batch_processor_step s) = pending_requests (after_seal s).
Proof.
  unfold batch_processor_step. destruct (sealed_batch s) as [|r0 b]; [done|].
  by destruct (process_batch_frame (after_seal s) (r0 :: b)) as (-> & _).
Qed.

(** X1.  One iteration of the batch processor splits the queue: the
    sealed batch followed by what stays pending is the queue as it was, so
    no request is lost, repeated or reordered; with a non-negative
    [max_batch_size] the batch holds at most that many requests. *)
Theorem seal_splits_queue (s : ModelServer) :
  sealed_batch s ++ pending_requests (batch_processor_step s)
  = pending_requests s
  /\ ((0 <= max_batch_size s)%Z ->
      (Z.of_nat (length (sealed_batch s)) <= max_batch_size s)%Z).
Proof.
  rewrite pending_after_step. unfold sealed_batch, after_seal.
  destruct (pending_requests s) as [|r0 l] eqn:E.
  - split; [by rewrite E|]. simpl. lia.
  - simpl pending_requests. split; [apply slice_partition|].
    intros Hmax. unfold slice_to.
    destruct (0 <=? _)%Z eqn:Hk; [|apply Z.leb_gt in Hk; lia].
    rewrite length_take. lia.
Qed.

Lemma step_objects_cases (s : ModelServer) :
  exists s' (l : list (nat * Q)),
    objects s' = objects s /\ l.*1 `sublist_of` sealed_batch s
    /\ objects (batch_processor_step s)
       = objects (fold_left (fun st rs => set_result st (fst rs) (snd rs)) l s').
Proof.
  destruct (model s) as [m|] eqn:Hm.
  - destruct (m (request_features s <$> sealed_batch s)) as [scores|] eqn:Hs.
    + destruct (step_objects_scored s m scores Hm Hs) as (s' & Ho & Hstep).
      exists s', (zip (sealed_batch s) scores). split; [done|]. split; [|done].
      generalize (sealed_batch s). clear. intros b. revert scores.
      induction b as [|x b IH]; intros [|q scores]; simpl; try done.
      * apply sublist_nil_l.
      * by apply sublist_skip.
    + destruct (step_objects_failed s) as (s' & Ho & Hstep);
        [right; by exists m|].
      exists s', (zip (sealed_batch s) (replicate (length (sealed_batch s)) 0)).
      split; [done|]. rewrite <- set_default_as_zip. split; [|done].
      rewrite fst_zip; [done|]. by rewrite length_replicate.
  - destruct (step_objects_failed s) as (s' & Ho & Hstep); [by left|].
    exists s', (zip (sealed_batch s) (replicate (length (sealed_batch s)) 0)).
    split; [done|]. rewrite <- set_default_as_zip. split; [|done].
    rewrite fst_zip; [done|]. by rewrite length_replicate.
Qed.

(** X2.  An iteration completes requests of its sealed batch only: every
    other request, pending or already answered, is left as it was. *)
Theorem step_leaves_other_requests (s : ModelServer) (req : nat) :
  req ∉ sealed_batch s ->
  objects (batch_processor_step s) !! req = objects s !! req.
Proof.
  intros Hnot. destruct (step_objects_cases s) as (s' & l & Ho & Hsub & ->).
  rewrite set_results_other; [by rewrite Ho|].
  intros Hin. apply Hnot. by eapply elem_of_sublist.
Qed.

Lemma step_leaves_other_requests_witness :
  objects (batch_processor_step
             (snd (submit_all (init (Some sample_model) 2) sample_inputs)))
    !! 2%nat
  = objects (snd (submit_all (init (Some sample_model) 2) sample_inputs))
      !! 2%nat.
Proof.
  apply step_leaves_other_requests. vm_compute.
  intros H. repeat (apply elem_of_cons in H as [H|H]; [discriminate|]).
  by apply elem_of_nil in H.
Defined.

(** X3.  A scorer that answers with fewer scores than the batch has
    requests leaves the requests beyond its answer without a result: the
    pairs of [zip] end with the shorter list.  Such a caller is not
    answered by the iteration (it gets the timeout default). *)
Theorem short_answer_leaves_requests_open (s : ModelServer) (m : Model)
    (scores : list Q) (i req : nat) :
  wf s -> model s = Some m ->
  m (request_features s <$> sealed_batch s) = Some scores ->
  sealed_batch s !! i = Some req -> (length scores <= i)%nat ->
  predict_async_result (batch_processor_step s) req
  = predict_async_result s req.
Proof.
  intros Hwf Hm Hs Hb Hlen. unfold predict_async_result.
  destruct (step_objects_scored s m scores Hm Hs) as (s' & Ho & ->).
  rewrite set_results_other; [by rewrite Ho|].
  assert (Hnd : NoDup (sealed_batch s)).
  { eapply sublist_NoDup; [apply (wf_nodup _ Hwf)|apply sealed_batch_sublist]. }
  revert Hnd Hb Hlen. generalize (sealed_batch s). clear. intros b.
  revert scores i. induction b as [|x b IH]; intros scores i Hnd Hb Hlen Hin.
  - done.
  - destruct scores as [|q scores]; [by apply elem_of_nil in Hin|].
    apply NoDup_cons in Hnd as [Hx Hnd].
    destruct i as [|i]; [simpl in Hlen; lia|].
    simpl in Hb, Hin. apply elem_of_cons in Hin as [->|Hin].
    + apply Hx. by eapply list_elem_of_lookup_2.
    + apply (IH scores i); [done|done|simpl in Hlen; lia|done].
Qed.

Lemma short_answer_leaves_requests_open_witness :
  predict_async_result
    (batch_processor_step
       (snd (submit_all (init (Some short_model) 3) sample_inputs))) 2
  = Some (Returned (Some 0)).
Proof.
  rewrite (short_answer_leaves_requests_open
             (snd (submit_all (init (Some short_model) 3) sample_inputs))
             short_model [0.5] 2 2);
    [reflexivity|apply wf_submitted|reflexivity|reflexivity|reflexivity|].
  simpl. lia.
Defined.

(** *** Loading and reloading *)

Lemma unscored_batch_zero (s : ModelServer) (req : nat) :
  wf s ->
  (model s = None \/
   exists m, model s = Some m /\
             m (request_features s <$> sealed_batch s) = None) ->
  req ∈ sealed_batch s ->
  objects (batch_processor_step s) !! req
  = (fun r => completed r 0) <$> objects s !! req.
Proof.
  intros Hwf Hfail Hb.
  destruct (step_objects_failed s Hfail) as (s' & Hobj & ->).
  assert (Hin : req ∈ pending_requests s).
  { eapply elem_of_sublist; [done|apply sealed_batch_sublist]. }
  destruct (wf_pending _ Hwf _ Hin) as [r Hr].
  rewrite Hr. simpl.
  apply set_default_lookup; try done.
  - eapply sublist_NoDup; [apply (wf_nodup _ Hwf)|apply sealed_batch_sublist].
  - by rewrite Hobj.
Qed.

(** X4.  A reload that fails, because the model cannot be constructed
    or because its weights cannot be loaded, puts the model and the
    version that were in place back, and leaves the queue, the requests
    and the load time alone; a reload that succeeds installs the loaded
    model with the version of its path. *)
Theorem reload_restores_on_failure (ld : Loader) (d : Deployment)
    (path : option string) (now : Z) :
  let p := effective_path d path in
  let '(success, d') := reload_model ld d path now in
  match WideDeepModel ld, keras_load ld p with
  | Some _, Some m =>
      success = true
      /\ model (server d') = Some m
      /\ model_version d' = Some (version_of ld p)
      /\ model_loaded_time d' = Some now
  | _, _ =>
      success = false
      /\ model (server d') = model (server d)
      /\ model_version d' = model_version d
      /\ model_loaded_time d' = model_loaded_time d
  end
  /\ pending_requests (server d') = pending_requests (server d)
  /\ objects (server d') = objects (server d)
  /\ max_batch_size (server d') = max_batch_size (server d).
Proof.
  unfold reload_model, load_model. simpl.
  destruct (WideDeepModel ld); [|by repeat split].
  destruct (keras_load ld (effective_path d path)); simpl; by repeat split.
Qed.

(** X5.  A [load_model] that fails returns [False] and keeps the
    version and the load time that were in place.  When the model could
    not be constructed, the model is left as it was: a server that never
    loaded one still has none, [health_check] reports it as not loaded,
    and every request of a batch it seals is answered with [0.0].  When
    the model was constructed and only its weights could not be loaded,
    the fresh, untrained model has replaced the one in place, and
    [health_check] reports a loaded model. *)
Theorem failed_load_keeps_or_replaces_model (ld : Loader) (d : Deployment)
    (path : option string) (now : Z) (req : nat) :
  fst (load_model ld d path now) = false ->
  wf (server d) ->
  let d' := snd (load_model ld d path now) in
  model_version d' = model_version d
  /\ model_loaded_time d' = model_loaded_time d
  /\ pending_requests (server d') = pending_requests (server d)
  /\ objects (server d') = objects (server d)
  /\ match WideDeepModel ld with
     | None =>
         d' = d
         /\ (model (server d) = None ->
             model_loaded d' = false
             /\ (req ∈ sealed_batch (server d') ->
                 predict_async_result (batch_processor_step (server d')) req
                 = Some (Returned (Some 0))))
     | Some fresh =>
         keras_load ld (effective_path d path) = None
         /\ model (server d') = Some fresh
         /\ model_loaded d' = true
     end.
Proof.
  unfold load_model. intros Hfail Hwf.
  destruct (WideDeepModel ld) as [fresh|].
  - destruct (keras_load ld (effective_path d path)); [done|].
    cbn. by repeat split.
  - cbn [snd]. do 4 (split; [done|]). split; [done|].
    intros Hnone. split; [unfold model_loaded; by rewrite Hnone|].
    intros Hreq. unfold predict_async_result.
    rewrite unscored_batch_zero; [|done|by left|done].
    assert (Hin : req ∈ pending_requests (server d)).
    { eapply elem_of_sublist; [exact Hreq|apply sealed_batch_sublist]. }
    destruct (wf_pending _ Hwf _ Hin) as [r Hr].
    simpl. by rewrite Hr.
Qed.

Lemma failed_load_keeps_or_replaces_model_witness :
  (let d' := snd (load_model broken_loader sample_deployment None 0) in
   d' = sample_deployment
   /\ model_loaded d' = false
   /\ predict_async_result (batch_processor_step (server d')) 1
      = Some (Returned (Some 0)))
  /\ (let d' := snd (load_model missing_file_loader sample_deployment None 0) in
      model (server d') = Some short_model /\ model_loaded d' = true).
Proof.
  split.
  - destruct (failed_load_keeps_or_replaces_model broken_loader
                sample_deployment None 0 1 eq_refl (wf_submitted _ _ _))
      as (_ & _ & _ & _ & Hsame & Hnone).
    destruct (Hnone eq_refl) as [Hloaded Hzero].
    cbn zeta. split; [exact Hsame|]. split; [exact Hloaded|].
    apply Hzero. vm_compute.
    apply elem_of_cons. right. apply elem_of_cons. by left.
  - destruct (failed_load_keeps_or_replaces_model missing_file_loader
                sample_deployment None 0 1 eq_refl (wf_submitted _ _ _))
      as (_ & _ & _ & _ & _ & Hfresh & Hloaded).
    by split.
Defined.

End BatcherFacts.

(** ** The sliding window of online feedback *)

Module OnlineEvaluatorFacts.
Import OnlineEvaluator.

(** Appending to the last [k] elements of a list and popping the oldest
    one when the window is full gives the last [k] elements again. *)
Lemma push_window {A} (w : Z) (all : list A) (x : A) (n : nat) :
  length all = n ->
  (if (w <? Z.of_nat (n `min` Z.to_nat w + 1))%Z
   then pop0 (drop (n - Z.to_nat w) all ++ [x])
   else drop (n - Z.to_nat w) all ++ [x])
  = drop (n + 1 - Z.to_nat w) (all ++ [x]).
Proof.
  intros <-.
  destruct (w <? _)%Z eqn:E.
  - apply Z.ltb_lt in E.
    assert (Hfull : (Z.to_nat w <= length all)%nat) by lia.
    unfold pop0. rewrite <- drop_app_le by lia. rewrite drop_drop.
    f_equal. lia.
  - apply Z.ltb_ge in E.
    replace (length all - Z.to_nat w)%nat with 0%nat by lia.
    by replace (length all + 1 - Z.to_nat w)%nat with 0%nat by lia.
Qed.

Lemma add_feedbacks_window (w : Z) (feedback : list (Q * Z)) (now : string) :
  let e := add_feedbacks (init w) feedback now in
  let skip := (length feedback - Z.to_nat w)%nat in
  window_size e = w
  /\ predictions e = drop skip feedback.*1
  /\ labels e = drop skip feedback.*2
  /\ timestamps e = drop skip (replicate (length feedback) now).
Proof.
  unfold add_feedbacks. induction feedback as [|[p l] fb IH] using rev_ind.
  - done.
  - rewrite fold_left_app. cbn [fold_left fst snd].
    destruct IH as (Hw & Hp & Hl & Ht).
    set (e := fold_left _ fb (init w)) in *.
    assert (Hlen : length (predictions e)
                   = (length fb `min` Z.to_nat w)%nat).
    { rewrite Hp, length_drop, length_fmap. lia. }
    unfold add_prediction. rewrite Hw, length_app, Hlen. cbn [length].
    rewrite Hp, Hl, Ht.
    pose proof (push_window w fb.*1 p (length fb) (length_fmap _ _)) as Ep.
    pose proof (push_window w fb.*2 l (length fb) (length_fmap _ _)) as El.
    pose proof (push_window w (replicate (length fb) now) now (length fb)
                  (length_replicate _ _)) as Et.
    rewrite !fmap_app, length_app. cbn [length fmap list_fmap fst snd].
    replace (replicate (length fb + 1) now)
      with (replicate (length fb) now ++ [now])
      by (rewrite Nat.add_1_r; symmetry; apply replicate_S_end).
    destruct (w <? _)%Z; cbn [window_size predictions labels timestamps];
      by rewrite <- Ep, <- El, <- Et.
Qed.

(** X6.  After any sequence of feedback the evaluator holds the most
    recent [window_size] predictions and their labels, oldest first and
    aligned, never more than [window_size] of them; with a window size of
    zero or less it holds nothing. *)
Theorem feedback_window_is_recent (w : Z) (feedback : list (Q * Z))
    (now : string) :
  let e := add_feedbacks (init w) feedback now in
  let keep := Z.to_nat w in
  predictions e = drop (length feedback - keep) feedback.*1
  /\ labels e = drop (length feedback - keep) feedback.*2
  /\ length (predictions e) = (length feedback `min` keep)%nat
  /\ length (labels e) = length (predictions e)
  /\ length (timestamps e) = length (predictions e).
Proof.
  destruct (add_feedbacks_window w feedback now) as (_ & Hp & Hl & Ht).
  simpl. rewrite Hp, Hl, Ht.
  rewrite !length_drop, !length_fmap, length_replicate.
  repeat split; lia.
Qed.

End OnlineEvaluatorFacts.

(** ** The rank endpoint *)

Module RankingApiFacts.
Import RankingService PyFacts RankingServiceFacts.



Lemma ranked_items_of_pairs (pairs : list (RankingApi.CandidateItem * Q)) :
  RankingApi.ranked_items_of
    ((fun p => with_ranking_score (RankingApi.candidate_dict p.1) p.2)
       <$> pairs)
  = Ok ((fun p => RankingApi.ranked p.1 p.2) <$> pairs).
Proof.
  induction pairs as [|[item q] pairs IH]; [done|].
  cbn [fmap list_fmap RankingApi.ranked_items_of].
  change (list_fmap _ _ ?f pairs) with (f <$> pairs).
  rewrite IH. done.
Qed.

Lemma slice_to_fmap {A B} (f : A -> B) (l : list A) (k : Z) :
  slice_to (f <$> l) k = f <$> slice_to l k.
Proof.
  unfold slice_to. rewrite length_fmap.
  destruct (0 <=? k)%Z; by rewrite fmap_take.
Qed.




Lemma score_candidates_model_down {Redis} (env : Collaborators Redis)
    (uf ctxf : Features) (r : Redis) (candidates : list Candidate) :
  (forall f, predict_try env f = Raise) ->
  fst (score_candidates env uf ctxf r candidates)
  = (fun c => with_ranking_score c 0) <$> candidates.
Proof.
  intros Hdown. revert r.
  induction candidates as [|c rest IH]; intros r; [done|].
  cbn [score_candidates].
  assert (Hc : fst (score_candidate env uf ctxf r c) = with_ranking_score c 0).
  { unfold score_candidate, score_candidate_try.
    destruct (content_id c) as [cid|]; [|done]. simpl.
    destruct (_get_content_features env r cid) as [cf r'].
    unfold _predict_score. by rewrite Hdown. }
  destruct (score_candidate env uf ctxf r c) as [c' r1]. simpl in Hc. subst c'.
  specialize (IH r1).
  destruct (score_candidates env uf ctxf r1 rest) as [rest' r2].
  simpl in *. by rewrite IH.
Qed.

Lemma rank_candidates_all_zero {Redis} (env : Collaborators Redis) (r : Redis)
    (uid : string) (candidates : list Candidate) (context : option Features) :
  (forall f, predict_try env f = Raise)
  \/ (exists kv ctx, context = Some (kv :: ctx)
                     /\ process_context_features env (kv :: ctx) = Raise) ->
  fst (RankingService.rank_candidates env r uid candidates context)
  = (fun c => with_ranking_score c 0) <$> candidates.
Proof.
  intros Hfail. unfold RankingService.rank_candidates.
  destruct candidates as [|c0 rest]; [done|].
  destruct (_get_user_features env r uid) as [uf r1].
  assert (Hzero : forall ctxf r1,
            (forall f, predict_try env f = Raise) ->
            fst (let '(scored_candidates, r2) :=
                   score_candidates env uf ctxf r1 (c0 :: rest) in
                 (sorted_reverse ranking_score_key scored_candidates, r2))
            = (fun c => with_ranking_score c 0) <$> (c0 :: rest)).
  { intros ctxf r' Hdown.
    pose proof (score_candidates_model_down env uf ctxf r' (c0 :: rest) Hdown)
      as Hs.
    destruct (score_candidates env uf ctxf r' (c0 :: rest)) as [scored r2].
    cbn [fst] in *. subst scored.
    apply sorted_reverse_const with (k := 0).
    apply Forall_fmap, Forall_forall. by intros c _. }
  destruct Hfail as [Hdown|(kv & ctx & -> & ->)]; [|done].
  destruct context as [[|kv ctx]|].
  - by apply Hzero.
  - destruct (process_context_features env (kv :: ctx)); [by apply Hzero|done].
  - by apply Hzero.
Qed.

(** X8.  When the model cannot predict (every prediction raises), or
    the context of the request cannot be processed, a rank request is
    still answered: with the first [max_results] candidates in the order
    of the request, each with score [0.0]. *)
Theorem failed_scoring_keeps_request_order {Redis} (env : Collaborators Redis)
    (r : Redis) (request : RankingApi.RankingRequest) :
  RankingApi.admitted request ->
  (forall f, predict_try env f = Raise)
  \/ (exists kv ctx, RankingApi.context request = Some (kv :: ctx)
                     /\ process_context_features env (kv :: ctx) = Raise) ->
  fst (RankingApi.rank_candidates (Some env) r request)
  = RankingApi.Answer
      {| RankingApi.response_user_id := RankingApi.user_id request;
         RankingApi.ranked_items :=
           (fun item => RankingApi.ranked item 0)
             <$> take (Z.to_nat (RankingApi.max_results request))
                   (RankingApi.candidates request);
         RankingApi.total_candidates :=
           length (RankingApi.candidates request) |}.
Proof.
  intros [Hlo Hhi] Hfail.
  pose proof (rank_candidates_all_zero env r (RankingApi.user_id request)
                (RankingApi.candidate_dict <$> RankingApi.candidates request)
                (RankingApi.context request) Hfail) as Hout.
  unfold RankingApi.rank_candidates.
  destruct (RankingService.rank_candidates _ _ _ _ _) as [ranked r'].
  cbn [fst] in *. subst ranked.
  assert (Heq :
    (fun c => with_ranking_score c 0)
      <$> (RankingApi.candidate_dict <$> RankingApi.candidates request)
    = (fun p : RankingApi.CandidateItem * Q =>
         with_ranking_score (RankingApi.candidate_dict p.1) p.2)
        <$> ((fun item => (item, 0)) <$> RankingApi.candidates request))
    by (by rewrite <- !list_fmap_compose).
  rewrite Heq, slice_to_fmap, ranked_items_of_pairs, slice_to_fmap.
  rewrite <- list_fmap_compose.
  unfold slice_to. by rewrite (proj2 (Z.leb_le 0 _)) by lia.
Qed.

Lemma failed_scoring_keeps_request_order_witness :
  fst (RankingApi.rank_candidates (Some RankingApi.model_down_env) ()
         RankingApi.sample_request)
  = RankingApi.Answer
      {| RankingApi.response_user_id := "u";
         RankingApi.ranked_items :=
           [RankingApi.ranked (RankingApi.sample_candidate_item "a") 0;
            RankingApi.ranked (RankingApi.sample_candidate_item "b") 0];
         RankingApi.total_candidates := 3 |}.
Proof.
  apply (failed_scoring_keeps_request_order RankingApi.model_down_env ()
           RankingApi.sample_request).
  - unfold RankingApi.admitted. simpl. lia.
  - left. reflexivity.
Defined.

End RankingApiFacts.

(** ** Viewer features: recomputation, cache and ingestion *)

Module UserFeatureCacheFacts.
Import Schemas UserFeatureService PyFacts UserFeatureServiceFacts.

Lemma content_types_of_length (l : list (string * nat)) (cts : list ContentType) :
  content_types_of l = Ok cts -> length cts = length l.
Proof.
  revert cts. induction l as [|[ct n] l IH]; intros cts H; simpl in H.
  - by inversion H.
  - destruct (ContentType_of ct); [|done]. simpl in H.
    destruct (content_types_of l) as [cs|]; [|done]. simpl in H.
    inversion H; subst. simpl. by rewrite (IH cs).
Qed.

(** What the recomputation returns for a non-empty result: the defaults
    of the schema with a clamped score, at most three preferred types, a
    level and the vector generated from them. *)
Lemma compute_from_rows_shape (uid : string) (now : Z) (row : BehaviorRow)
    (rows : list BehaviorRow) (f : UserFeatures) :
  compute_from_rows uid now (row :: rows) = Ok f ->
  exists (bscore : Q) (prefs : list ContentType) (level : string),
    0 <= bscore /\ bscore <= 10
    /\ (length prefs <= 3)%nat
    /\ level ∈ ["low"; "medium"; "high"]%string
    /\ let g :=
         with_activity_level
           (with_preferred (with_behavior_score (new_features uid now) bscore)
              prefs) level in
       f = with_feature_vector g (_generate_feature_vector g).
Proof.
  intros Hf.
  destruct (compute_from_rows_clamped uid now (row :: rows) f Hf) as [Hlo Hhi].
  unfold compute_from_rows in Hf.
  destruct (accumulate_rows (row :: rows) 0 []) as [[total counts]|]; [|done].
  cbn [mbind exec_bind] in Hf.
  set (level := if (100 <? sum_list (row_action_count <$> row :: rows))%nat
                then "high"%string
                else if (20 <? sum_list (row_action_count <$> row :: rows))%nat
                     then "medium"%string else "low"%string) in *.
  assert (Hlevel : level ∈ ["low"; "medium"; "high"]%string).
  { subst level. repeat case_match; set_solver. }
  clearbody level.
  destruct counts as [|kv counts].
  - inversion Hf; subst f. clear Hf.
    exists (Qmin (total / 100.0) 10.0), [], level.
    repeat split; [exact Hlo|exact Hhi|simpl; lia|exact Hlevel].
  - destruct (content_types_of _) as [cts|] eqn:Hcts; [|done].
    cbn [mbind exec_bind] in Hf. inversion Hf; subst f. clear Hf.
    apply content_types_of_length in Hcts.
    exists (Qmin (total / 100.0) 10.0), cts, level.
    repeat split; [exact Hlo|exact Hhi| |exact Hlevel].
    rewrite Hcts, length_take. lia.
Qed.

Lemma fold_insert_ones (offset : nat) (indices : list nat) (vector : list Q) :
  length (fold_left (fun v i => <[(offset + i)%nat := 1.0]> v) indices vector)
  = length vector
  /\ (Forall (fun x => 0 <= x /\ x <= 1) vector ->
      Forall (fun x => 0 <= x /\ x <= 1)
        (fold_left (fun v i => <[(offset + i)%nat := 1.0]> v) indices vector)).
Proof.
  revert vector. induction indices as [|i indices IH]; intros vector; [done|].
  cbn [fold_left]. destruct (IH (<[(offset + i)%nat := 1.0]> vector)) as [Hl Hb].
  split; [by rewrite Hl, length_insert|].
  intros Hv. apply Hb. apply Forall_insert; [done|]. by vm_compute.
Qed.

(** The generated vector has 64 entries, all in [[0, 1]], when the score
    it is generated from is in [[0, 10]]. *)
Lemma generate_feature_vector_bounds (f : UserFeatures) :
  0 <= behavior_score f -> behavior_score f <= 10 ->
  length (_generate_feature_vector f) = 64%nat
  /\ Forall (fun x => 0 <= x /\ x <= 1) (_generate_feature_vector f).
Proof.
  intros Hlo Hhi. unfold _generate_feature_vector.
  set (activity := if String.eqb (activity_level f) "low" then 0.2
                   else if String.eqb (activity_level f) "medium" then 0.6
                   else if String.eqb (activity_level f) "high" then 1.0
                   else 0.2).
  assert (Hact : 0 <= activity /\ activity <= 1)
    by (subst activity; repeat case_match; by vm_compute).
  clearbody activity.
  set (v1 := <[1%nat := activity]> (<[0%nat := behavior_score f / 10.0]>
                                      (replicate 64 0.0))).
  assert (Hv1 : length v1 = 64%nat /\ Forall (fun x => 0 <= x /\ x <= 1) v1).
  { subst v1. split; [by rewrite !length_insert, length_replicate|].
    apply Forall_insert; [|done]. apply Forall_insert.
    - apply Forall_replicate. by vm_compute.
    - split.
      + apply Qle_shift_div_l; [by vm_compute|]. by rewrite Qmult_0_l.
      + apply Qle_shift_div_r; [by vm_compute|].
        apply Qle_trans with 10; [done|by vm_compute]. }
  clearbody v1. destruct Hv1 as [Hlen Hb].
  match goal with
  | |- context [fold_left ?g ?idx (fold_left ?g2 ?idx2 v1)] =>
      destruct (fold_insert_ones 2 idx2 v1) as [Hl2 Hb2];
      destruct (fold_insert_ones 5 idx (fold_left g2 idx2 v1)) as [Hl5 Hb5]
  end.
  split; [by rewrite Hl5, Hl2|]. by apply Hb5, Hb2.
Qed.

(** X9.  Whatever [_compute_user_features] returns for a viewer is well
    formed: it carries the viewer's id, a behavior score in [[0, 10]], one
    of the three activity levels, at most three preferred content types,
    and a feature vector of 64 entries that all lie in [[0, 1]]. *)
Theorem computed_features_well_formed (ch : ClickHouse) (uid : string)
    (now : Z) (f : UserFeatures) :
  _compute_user_features ch uid now = Some f ->
  user_id f = uid
  /\ 0 <= behavior_score f /\ behavior_score f <= 10
  /\ activity_level f ∈ ["low"; "medium"; "high"]%string
  /\ (length (preferred_content_types f) <= 3)%nat
  /\ length (feature_vector f) = 64%nat
  /\ Forall (fun x => 0 <= x /\ x <= 1) (feature_vector f).
Proof.
  unfold _compute_user_features. destruct (ch uid) as [rows|]; [|done].
  cbn [mbind exec_bind].
  destruct (compute_from_rows uid now rows) as [f'|] eqn:Hf; [|done].
  intros [= ->]. destruct rows as [|row rows].
  - inversion Hf; subst f.
    cbn [_create_default_features user_id behavior_score activity_level
         preferred_content_types feature_vector with_feature_vector
         new_features].
    repeat split; try (by vm_compute); [set_solver|simpl; lia|].
    apply Forall_replicate. by vm_compute.
  - apply compute_from_rows_shape in Hf
      as (bscore & prefs & level & Hlo & Hhi & Hprefs & Hlevel & ->).
    cbn [user_id behavior_score activity_level preferred_content_types
         feature_vector with_feature_vector with_activity_level with_preferred
         with_behavior_score new_features].
    repeat split; try done.
    + apply generate_feature_vector_bounds; done.
    + apply generate_feature_vector_bounds; done.
Qed.

Lemma computed_features_well_formed_witness :
  user_id sample_computed = "1"%string
  /\ 0 <= behavior_score sample_computed /\ behavior_score sample_computed <= 10
  /\ activity_level sample_computed ∈ ["low"; "medium"; "high"]%string
  /\ (length (preferred_content_types sample_computed) <= 3)%nat
  /\ length (feature_vector sample_computed) = 64%nat
  /\ Forall (fun x => 0 <= x /\ x <= 1) (feature_vector sample_computed).
Proof.
  apply (computed_features_well_formed sample_log "1" 100 sample_computed).
  by vm_compute.
Defined.

Lemma redis_get_setex (redis : Redis) (key key' : string) (ttl : Z)
    (value : UserFeatures) (now now' : Z) :
  redis_get (redis_setex redis key ttl value now) key' now'
  = if decide (key = key') then
      if (now' <? now + ttl)%Z then Some value else None
    else redis_get redis key' now'.
Proof.
  unfold redis_get, redis_setex, Redis.
  destruct (decide (key = key')) as [->|Hne].
  - by rewrite lookup_insert_eq.
  - by rewrite lookup_insert_ne.
Qed.



(** One event on the cache entry of a viewer: the entry of the event's
    viewer is what [get_user_features] left, overwritten by the patch
    unless the patch raises; every other entry is left alone. *)
Lemma get_user_features_other (ch : ClickHouse) (redis : Redis)
    (uid uid' : string) (now : Z) :
  uid' <> uid ->
  snd (get_user_features ch redis uid now) !! (redis_key_prefix ++ uid')%string
  = redis !! (redis_key_prefix ++ uid')%string.
Proof.
  intros Hne. unfold get_user_features.
  destruct (redis_get redis _ now); [done|].
  destruct (_compute_user_features ch uid now); [|done].
  unfold _cache_user_features, redis_setex, Redis. cbn [snd].
  rewrite lookup_insert_ne; [done|].
  intros Heq. apply Hne. symmetry. by apply (String.app_inj _) in Heq.
Qed.

Lemma process_user_behavior_cases (ch : ClickHouse) (redis : Redis)
    (b : UserBehavior) (now : Z) :
  let loaded := get_user_features ch redis (b_user_id b) now in
  let current :=
    default (_create_default_features (b_user_id b) now) (fst loaded) in
  process_user_behavior ch redis b now
  = match time_diff current b with
    | Ok _ =>
        _cache_user_features (snd loaded) (b_user_id b)
          (patch_features current b now) now
    | Raise => snd loaded
    end.
Proof.
  cbn zeta. unfold process_user_behavior, patch_features_try.
  destruct (get_user_features ch redis (b_user_id b) now) as [loaded r1].
  cbn [fst snd]. by destruct (time_diff _ b).
Qed.

Lemma process_user_behavior_other (ch : ClickHouse) (redis : Redis)
    (b : UserBehavior) (now : Z) (uid : string) :
  uid <> b_user_id b ->
  process_user_behavior ch redis b now !! (redis_key_prefix ++ uid)%string
  = redis !! (redis_key_prefix ++ uid)%string.
Proof.
  intros Hne. rewrite process_user_behavior_cases. cbn zeta.
  rewrite <- (get_user_features_other ch redis (b_user_id b) uid now Hne).
  destruct (time_diff _ b); [|done].
  unfold _cache_user_features, redis_setex, Redis.
  rewrite lookup_insert_ne; [done|].
  intros Heq. apply Hne. symmetry. by apply (String.app_inj _) in Heq.
Qed.

(** X11.  Processing a behavior event never touches the cache entry of
    another viewer.  When the event's timestamp and the [last_active] of
    the viewer's features are both naive or both aware (or no
    [last_active] is set), the patched features are cached for
    [USER_FEATURE_EXPIRE] seconds, stamped with the event's time as
    [last_active] and the service clock as [updated_at].  When one is
    naive and the other aware, the subtraction raises, the exception is
    swallowed and the event is dropped: nothing but what
    [get_user_features] cached is written. *)
Theorem behavior_touches_only_its_viewer (ch : ClickHouse) (redis : Redis)
    (b : UserBehavior) (now : Z) :
  let redis' := process_user_behavior ch redis b now in
  let loaded := get_user_features ch redis (b_user_id b) now in
  let current :=
    default (_create_default_features (b_user_id b) now) (fst loaded) in
  (forall uid, uid <> b_user_id b ->
     redis' !! (redis_key_prefix ++ uid)%string
     = redis !! (redis_key_prefix ++ uid)%string)
  /\ (from_option (fun active => aware active = aware (b_timestamp b)) True
        (last_active current) ->
      exists f,
        redis' !! (redis_key_prefix ++ b_user_id b)%string
        = Some (f, (now + USER_FEATURE_EXPIRE)%Z)
        /\ f = patch_features current b now
        /\ last_active f = Some (b_timestamp b)
        /\ updated_at f = now)
  /\ (forall active,
        last_active current = Some active ->
        aware active <> aware (b_timestamp b) ->
        redis' = snd loaded).
Proof.
  cbn zeta. rewrite process_user_behavior_cases.
  set (loaded := get_user_features ch redis (b_user_id b) now).
  set (current := default _ (fst loaded)).
  split; [|split].
  - intros uid Hne.
    rewrite <- (process_user_behavior_other ch redis b now uid Hne).
    by rewrite process_user_behavior_cases.
  - intros Hsame.
    assert (Hok : exists d, time_diff current b = Ok d).
    { unfold time_diff, datetime_sub.
      destruct (last_active current) as [active|]; [|by eexists].
      cbn [from_option] in Hsame. rewrite Hsame, Bool.eqb_reflx. by eexists. }
    destruct Hok as [d ->].
    eexists. split; [|split; [reflexivity|by split]].
    unfold _cache_user_features, redis_setex, Redis.
    by rewrite lookup_insert_eq.
  - intros active Hactive Hdiff.
    unfold time_diff, datetime_sub. rewrite Hactive.
    destruct (Bool.eqb (aware (b_timestamp b)) (aware active)) eqn:E; [|done].
    apply Bool.eqb_prop in E. by rewrite E in Hdiff.
Qed.

Lemma behavior_touches_only_its_viewer_witness :
  process_user_behavior empty_log
    (process_user_behavior empty_log ∅ (sample_purchase 1) 100)
    sample_aware_view 200
  = process_user_behavior empty_log ∅ (sample_purchase 1) 100.
Proof.
  destruct (behavior_touches_only_its_viewer empty_log
              (process_user_behavior empty_log ∅ (sample_purchase 1) 100)
              sample_aware_view 200) as (_ & _ & Hdrop).
  rewrite (Hdrop (naive 1)); [reflexivity|reflexivity|discriminate].
Defined.

(** X12.  Ingesting a sequence of events whose timestamps are, for the
    viewer, all naive or all aware like the [last_active] of the cached
    features, adds to the cached behavior score of the viewer one tenth of
    the weight of each of the viewer's events, and nothing for the events
    of others; no bound is applied. *)
Theorem ingestion_adds_weighted_tenths (ch : ClickHouse)
    (events : list UserBehavior) (now : Z) (uid : string) (redis : Redis)
    (f0 : UserFeatures) (offset : bool) :
  redis_get redis (redis_key_prefix ++ uid)%string now = Some f0 ->
  from_option (fun active => aware active = offset) True (last_active f0) ->
  Forall (fun b => b_user_id b = uid -> aware (b_timestamp b) = offset)
    events ->
  exists f,
    redis_get (process_user_behaviors ch redis events now)
      (redis_key_prefix ++ uid)%string now = Some f
    /\ behavior_score f
       == behavior_score f0
          + foldr Qplus 0
              ((fun b => behavior_weight (b_action_type b) * 0.1)
                 <$> filter (fun b => b_user_id b = uid) events).
Proof.
  unfold process_user_behaviors. intros Hhit Hf0 Hevents. revert redis f0 Hhit Hf0.
  induction Hevents as [|b events Hb _ IH]; intros redis f0 Hhit Hf0.
  - exists f0. split; [done|]. simpl. by rewrite Qplus_0_r.
  - cbn [fold_left]. rewrite filter_cons.
    destruct (decide (b_user_id b = uid)) as [Hid|Hne].
    + specialize (Hb Hid).
      assert (Hstep : redis_get (process_user_behavior ch redis b now)
                        (redis_key_prefix ++ uid)%string now
                      = Some (patch_features f0 b now)).
      { rewrite process_user_behavior_cases. subst uid.
        unfold get_user_features. rewrite Hhit. cbn [fst snd default].
        unfold id, time_diff, datetime_sub.
        destruct (last_active f0) as [active|]; cbn [from_option] in Hf0.
        - rewrite Hf0, Hb, Bool.eqb_reflx. cbn [mbind exec_bind].
          unfold _cache_user_features.
          rewrite redis_get_setex, decide_True by done.
          unfold USER_FEATURE_EXPIRE.
          by rewrite (proj2 (Z.ltb_lt _ _)) by lia.
        - unfold _cache_user_features.
          rewrite redis_get_setex, decide_True by done.
          unfold USER_FEATURE_EXPIRE.
          by rewrite (proj2 (Z.ltb_lt _ _)) by lia. }
      destruct (IH _ _ Hstep) as (f & Hf & Hscore).
      { unfold patch_features. by cbn [last_active with_times from_option]. }
      exists f. split; [done|].
      rewrite Hscore, patch_features_score. cbn [fmap list_fmap foldr].
      by rewrite Qplus_assoc.
    + apply IH; [|done].
      unfold redis_get.
      rewrite process_user_behavior_other by (intros Heq; by apply Hne).
      exact Hhit.
Qed.

Lemma ingestion_adds_weighted_tenths_witness :
  exists f,
    redis_get
      (process_user_behaviors empty_log
         (process_user_behavior empty_log ∅ (sample_purchase 1) 100)
         (sample_purchase <$> [2; 3]%Z) 100)
      (redis_key_prefix ++ "1")%string 100 = Some f
    /\ behavior_score f
       == 0.5 + foldr Qplus 0
                  ((fun b => behavior_weight (b_action_type b) * 0.1)
                     <$> filter (fun b => b_user_id b = "1"%string)
                           (sample_purchase <$> [2; 3]%Z)).
Proof.
  destruct (ingestion_adds_weighted_tenths empty_log
              (sample_purchase <$> [2; 3]%Z) 100 "1"
              (process_user_behavior empty_log ∅ (sample_purchase 1) 100)
              (patch_features (_create_default_features "1" 100)
                 (sample_purchase 1) 100) false) as (f & Hf & Hscore).
  - by vm_compute.
  - reflexivity.
  - repeat constructor.
  - exists f. split; [exact Hf|].
    rewrite Hscore. apply Qplus_comp; [by vm_compute|reflexivity].
Defined.

(** X13.  The patch of one event never lowers anything: the behavior
    score grows, the activity level stays or rises by one step, and the
    interest tags are extended at the end, without a repeated tag if
    there was none. *)
Theorem patch_never_lowers (f : UserFeatures) (b : UserBehavior) (now : Z) :
  let f' := patch_features f b now in
  behavior_score f < behavior_score f'
  /\ (activity_rank (activity_level f) <= activity_rank (activity_level f')
      <= activity_rank (activity_level f) + 1)%nat
  /\ interests f `prefix_of` interests f'
  /\ (NoDup (interests f) -> NoDup (interests f')).
Proof.
  cbn zeta. split.
  { rewrite patch_features_score.
    rewrite <- (Qplus_0_r (behavior_score f)) at 1.
    apply Qplus_lt_r.
    apply Qmult_lt_0_compat; [apply behavior_weight_pos|by vm_compute]. }
  unfold patch_features.
  set (f1 := with_behavior_score f _).
  assert (Hi1 : interests f1 = interests f) by done.
  assert (Ha1 : activity_level f1 = activity_level f) by done.
  clearbody f1.
  set (f2 := _update_interest_tags f1 b).
  assert (Ha2 : activity_level f2 = activity_level f).
  { subst f2. unfold _update_interest_tags.
    destruct (b_content_type b); repeat case_match; by rewrite <- Ha1. }
  assert (Hi2 : interests f `prefix_of` interests f2
                /\ (NoDup (interests f) -> NoDup (interests f2))).
  { subst f2. unfold _update_interest_tags. rewrite <- Hi1.
    destruct (b_content_type b); repeat case_match; cbn [interests with_interests];
      try (split; [done|done]);
      (split; [by apply prefix_app_r|]);
      intros Hnd; apply NoDup_app; (split; [done|]);
      (split; [|apply NoDup_singleton]);
      intros x Hx Hx'; apply list_elem_of_singleton in Hx'; subst x;
      match goal with
      | H : bool_decide _ = false |- _ => apply bool_decide_eq_false in H
      end; done. }
  clearbody f2.
  set (f3 := _update_activity_level f2 b).
  assert (Hi3 : interests f3 = interests f2).
  { subst f3. unfold _update_activity_level. by repeat case_match. }
  assert (Ha3 : (activity_rank (activity_level f2)
                 <= activity_rank (activity_level f3)
                 <= activity_rank (activity_level f2) + 1)%nat).
  { subst f3. unfold _update_activity_level.
    destruct (last_active f2); [|lia].
    destruct (_ <? _)%Z; [|lia].
    destruct (String.eqb (activity_level f2) "low") eqn:E1.
    { apply String.eqb_eq in E1. rewrite E1.
      cbn [activity_level with_activity_level].
      change (activity_rank "low") with 1%nat.
      change (activity_rank "medium") with 2%nat. lia. }
    destruct (String.eqb (activity_level f2) "medium") eqn:E2; [|lia].
    apply String.eqb_eq in E2. rewrite E2.
    cbn [activity_level with_activity_level].
    change (activity_rank "medium") with 2%nat.
    change (activity_rank "high") with 3%nat. lia. }
  clearbody f3.
  cbn [activity_level interests with_times].
  rewrite Hi3. rewrite Ha2 in Ha3. by split.
Qed.

End UserFeatureCacheFacts.

(** ** Weighted scores and the counts of a group *)

Module ClickHouseCountFacts.
Import Schemas ClickHouseService.

Lemma countIf_cons (a : string) (row : Row) (group : list Row) :
  inject_Z (Z.of_nat (countIf a (row :: group)))
  == (if String.eqb (action_type row) a then 1 else 0)
     + inject_Z (Z.of_nat (countIf a group)).
Proof.
  unfold countIf. rewrite filter_cons.
  destruct (String.eqb (action_type row) a) eqn:E.
  - rewrite decide_True by done. cbn [length].
    rewrite Nat2Z.inj_succ, <- Z.add_1_l, inject_Z_plus. reflexivity.
  - rewrite decide_False by congruence. by rewrite Qplus_0_l.
Qed.

(** X14.  In the item aggregates the popularity score of a group is the
    weighted sum of the counts the same query reports: views, twice the
    clicks, three times the likes, five times the shares, four times the
    comments and ten times the purchases; an action of any other kind
    adds nothing.  The trend score is the same sum without the purchases,
    so a purchase does not move an item in the trending list. *)
Theorem popularity_is_weighted_counts (group : list Row) :
  let n a := inject_Z (Z.of_nat (countIf a group)) in
  weighted_score ItemAggregates group
  == n "view"%string + 2 * n "click"%string + 3 * n "like"%string
     + 5 * n "share"%string + 4 * n "comment"%string
     + 10 * n "purchase"%string
  /\ weighted_score Trending group
     == n "view"%string + 2 * n "click"%string + 3 * n "like"%string
        + 5 * n "share"%string + 4 * n "comment"%string
  /\ weighted_score ItemAggregates group
     == weighted_score Trending group + 10 * n "purchase"%string.
Proof.
  cbn zeta.
  assert (H12 :
    weighted_score ItemAggregates group
    == inject_Z (Z.of_nat (countIf "view" group))
       + 2 * inject_Z (Z.of_nat (countIf "click" group))
       + 3 * inject_Z (Z.of_nat (countIf "like" group))
       + 5 * inject_Z (Z.of_nat (countIf "share" group))
       + 4 * inject_Z (Z.of_nat (countIf "comment" group))
       + 10 * inject_Z (Z.of_nat (countIf "purchase" group))
    /\ weighted_score Trending group
       == inject_Z (Z.of_nat (countIf "view" group))
          + 2 * inject_Z (Z.of_nat (countIf "click" group))
          + 3 * inject_Z (Z.of_nat (countIf "like" group))
          + 5 * inject_Z (Z.of_nat (countIf "share" group))
          + 4 * inject_Z (Z.of_nat (countIf "comment" group))).
  { induction group as [|row group [IH1 IH2]].
    - split; reflexivity.
    - change (weighted_score ItemAggregates (row :: group))
        with (popularity_score_term (action_type row)
              + weighted_score ItemAggregates group).
      change (weighted_score Trending (row :: group))
        with (trend_score_term (action_type row)
              + weighted_score Trending group).
      rewrite !countIf_cons, IH1, IH2.
      unfold popularity_score_term, trend_score_term. cbn [multiIf].
      destruct (String.eqb (action_type row) "view") eqn:E1.
      { apply String.eqb_eq in E1. rewrite E1. cbn. split; ring. }
      destruct (String.eqb (action_type row) "click") eqn:E2.
      { apply String.eqb_eq in E2. rewrite E2. cbn. split; ring. }
      destruct (String.eqb (action_type row) "like") eqn:E3.
      { apply String.eqb_eq in E3. rewrite E3. cbn. split; ring. }
      destruct (String.eqb (action_type row) "share") eqn:E4.
      { apply String.eqb_eq in E4. rewrite E4. cbn. split; ring. }
      destruct (String.eqb (action_type row) "comment") eqn:E5.
      { apply String.eqb_eq in E5. rewrite E5. cbn. split; ring. }
      destruct (String.eqb (action_type row) "purchase") eqn:E6.
      { cbn. split; ring. }
      split; ring. }
  destruct H12 as [H1 H2]. split; [exact H1|]. split; [exact H2|].
  rewrite H1, H2. ring.
Qed.

End ClickHouseCountFacts.

(** ** The stages of the fusion pipeline *)

Module FusionStageFacts.
Import FusionRerankingService PyFacts FusionFacts.

#[local] Existing Instance distinct_items_sym.

(** *** Text similarity and deduplication *)

Lemma ratio_range (i u : nat) :
  (i <= u)%nat -> (0 < u)%nat ->
  0 <= inject_Z (Z.of_nat i) / inject_Z (Z.of_nat u)
  /\ inject_Z (Z.of_nat i) / inject_Z (Z.of_nat u) <= 1.
Proof.
  intros Hle Hpos.
  assert (Hu : 0 < inject_Z (Z.of_nat u)).
  { rewrite <- (Zlt_Qlt 0). lia. }
  split.
  - apply Qle_shift_div_l; [done|]. rewrite Qmult_0_l.
    rewrite <- (Zle_Qle 0). lia.
  - apply Qle_shift_div_r; [done|]. rewrite Qmult_1_l.
    rewrite <- Zle_Qle. lia.
Qed.

(** X15.  [_calculate_text_similarity] is a similarity: symmetric, with
    values in [[0, 1]], and 1 between a non-empty text and itself.  An
    empty text is similar to nothing, itself included. *)
Theorem text_similarity_is_a_similarity (text1 text2 : string) :
  _calculate_text_similarity text1 text2
  = _calculate_text_similarity text2 text1
  /\ 0 <= _calculate_text_similarity text1 text2
  /\ _calculate_text_similarity text1 text2 <= 1
  /\ (text1 <> ""%string -> _calculate_text_similarity text1 text1 == 1)
  /\ _calculate_text_similarity "" text2 = 0.0.
Proof.
  split; [apply text_similarity_sym|].
  assert (Hrange : 0 <= _calculate_text_similarity text1 text2
                   /\ _calculate_text_similarity text1 text2 <= 1).
  { unfold _calculate_text_similarity.
    destruct (_ || _); [by vm_compute|].
    destruct (_ && _); [by vm_compute|].
    destruct (0 <? _)%nat eqn:E; [|by vm_compute].
    apply Nat.ltb_lt in E. apply ratio_range; [|done].
    apply subseteq_size.
    etrans; [apply intersection_subseteq_l|apply union_subseteq_l]. }
  split; [apply Hrange|]. split; [apply Hrange|]. split; [|done].
  intros Hne. unfold _calculate_text_similarity.
  rewrite (proj2 (String.eqb_neq _ _) Hne). cbn [orb].
  set (words := list_to_set (C:=gset string) (split text1)).
  clearbody words.
  destruct (bool_decide (words = ∅) && bool_decide (words = ∅)) eqn:Hempty;
    [by vm_compute|].
  assert (Hi : words ∩ words = words) by apply (idemp_L (∩)).
  assert (Hu : words ∪ words = words) by apply (idemp_L (∪)).
  rewrite Hi, Hu.
  assert (Hpos : (0 < size words)%nat).
  { destruct (decide (size words = 0%nat)) as [Hz|Hz]; [|lia].
    apply size_empty_inv, leibniz_equiv in Hz. subst words.
    by rewrite bool_decide_eq_true_2 in Hempty. }
  rewrite (proj2 (Nat.ltb_lt _ _) Hpos).
  apply Qmult_inv_r. intros Hz.
  assert (Hlt : 0 < inject_Z (Z.of_nat (size words))).
  { rewrite <- (Zlt_Qlt 0). lia. }
  rewrite Hz in Hlt. by apply Qlt_irrefl in Hlt.
Qed.

(** The loop appends to [deduplicated] a sublist of [results]. *)
Lemma dedup_loop_sublist (cfg : DedupConfig) (results : list Content)
    (deduplicated : list Content) (seen : gset string) (out : list Content) :
  dedup_loop cfg results deduplicated seen = Ok out ->
  exists kept, out = deduplicated ++ kept /\ kept `sublist_of` results.
Proof.
  revert deduplicated seen.
  induction results as [|content rest IH]; intros dd seen Hloop;
    simpl in Hloop.
  - inversion Hloop; subst. exists []. by rewrite app_nil_r.
  - unfold subscript_content_id in Hloop.
    destruct (content_id content) as [cid|]; [|done]. simpl in Hloop.
    destruct (bool_decide (cid ∈ seen)).
    { destruct (IH _ _ Hloop) as (kept & -> & Hsub).
      exists kept. split; [done|]. by apply sublist_cons. }
    destruct (_is_similar_to_existing cfg content dd).
    { destruct (IH _ _ Hloop) as (kept & -> & Hsub).
      exists kept. split; [done|]. by apply sublist_cons. }
    destruct (IH _ _ Hloop) as (kept & -> & Hsub).
    exists (content :: kept). split; [by rewrite <- app_assoc|].
    by apply sublist_skip.
Qed.

(** On a list that is pairwise distinct already the loop keeps every
    item. *)
Lemma dedup_loop_distinct (cfg : DedupConfig) (results : list Content)
    (deduplicated : list Content) (seen : gset string) :
  pairwise (distinct_items cfg) (deduplicated ++ results) ->
  Forall (fun c => is_Some (content_id c)) results ->
  (forall cid, cid ∈ seen ->
     exists c, c ∈ deduplicated /\ content_id c = Some cid) ->
  dedup_loop cfg results deduplicated seen = Ok (deduplicated ++ results).
Proof.
  revert deduplicated seen.
  induction results as [|content rest IH]; intros dd seen Hp Hids Hseen.
  - by rewrite app_nil_r.
  - apply Forall_cons in Hids as [[cid Hid] Hids].
    cbn [dedup_loop]. unfold subscript_content_id. rewrite Hid.
    cbn [from_option mbind exec_bind].
    assert (Hdd : Forall (fun e => distinct_items cfg e content) dd).
    { apply Forall_forall. intros e He.
      apply list_elem_of_lookup in He as [i Hi].
      apply (pairwise_lookup (distinct_items cfg) (dd ++ content :: rest)
               i (length dd) e content Hp).
      - apply lookup_lt_Some in Hi. lia.
      - by rewrite lookup_app_l by (by eapply lookup_lt_Some).
      - by rewrite list_lookup_middle. }
    rewrite bool_decide_eq_false_2.
    2:{ intros Hin. destruct (Hseen cid Hin) as (c & Hc & Hcid).
        destruct (proj1 (Forall_forall _ _) Hdd c Hc) as [Hne _].
        apply Hne. by rewrite Hcid, Hid. }
    replace (_is_similar_to_existing cfg content dd) with false.
    2:{ symmetry. unfold _is_similar_to_existing.
        apply not_true_is_false. intros Hex.
        apply existsb_exists in Hex as (e & He & Hgt).
        apply list_elem_of_In in He.
        destruct (proj1 (Forall_forall _ _) Hdd e He) as [_ Hsim].
        rewrite overall_similarity_sym in Hsim.
        apply Qlt_bool_iff in Hgt. by apply Qlt_not_le in Hgt. }
    rewrite (IH (dd ++ [content]) ({[cid]} ∪ seen)).
    + by rewrite <- app_assoc.
    + by rewrite <- app_assoc.
    + done.
    + intros k Hk. apply elem_of_union in Hk as [Hk|Hk].
      * apply elem_of_singleton in Hk as ->. exists content.
        split; [set_solver|done].
      * destruct (Hseen k Hk) as (c & Hc & Hcid). exists c.
        split; [set_solver|done].
Qed.

(** X16.  Deduplication keeps a sublist of its input in the input's
    order, the first item always; and deduplicating its output once more
    changes nothing. *)
Theorem deduplication_is_stable (svc : Service) (results out : list Content) :
  _deduplicate_results svc results = Ok out ->
  out `sublist_of` results
  /\ head out = head results
  /\ _deduplicate_results svc out = Ok out.
Proof.
  intros Hout.
  pose proof (deduplicate_results_pairwise svc results out Hout) as Hp.
  unfold _deduplicate_results in *.
  destruct (dedup_loop_sublist _ _ _ _ _ Hout) as (kept & -> & Hsub).
  cbn [app] in *. split; [done|]. split.
  - destruct results as [|content rest]; simpl in Hout.
    + by inversion Hout.
    + unfold subscript_content_id in Hout.
      destruct (content_id content) as [cid|]; [|done]. simpl in Hout.
      rewrite bool_decide_eq_false_2 in Hout by set_solver.
      cbn [_is_similar_to_existing existsb] in Hout.
      apply dedup_loop_sublist in Hout as (kept' & -> & _). done.
  - apply (dedup_loop_distinct (dedup_config svc) kept [] ∅); [done| |set_solver].
    apply Forall_forall. intros c Hc.
    assert (Hin : c ∈ results) by (by eapply elem_of_sublist).
    clear -Hout Hin. revert Hout. generalize (@nil Content) (∅ : gset string).
    induction results as [|content rest IH]; intros dd seen Hloop;
      [by apply elem_of_nil in Hin|].
    simpl in Hloop. unfold subscript_content_id in Hloop.
    destruct (content_id content) as [cid|] eqn:Hid; [|done].
    simpl in Hloop.
    apply elem_of_cons in Hin as [->|Hin]; [by rewrite Hid|].
    repeat case_match; by eapply IH.
Qed.

Lemma deduplication_is_stable_witness :
  [sample_item "a" "hello world" 0.9; sample_item "c" "foo bar" 0.6]
    `sublist_of` [sample_item "a" "hello world" 0.9;
                  sample_item "b" "Hello World" 0.8;
                  sample_item "c" "foo bar" 0.6]
  /\ head [sample_item "a" "hello world" 0.9; sample_item "c" "foo bar" 0.6]
     = head [sample_item "a" "hello world" 0.9;
             sample_item "b" "Hello World" 0.8;
             sample_item "c" "foo bar" 0.6]
  /\ _deduplicate_results two_algorithm_service
       [sample_item "a" "hello world" 0.9; sample_item "c" "foo bar" 0.6]
     = Ok [sample_item "a" "hello world" 0.9; sample_item "c" "foo bar" 0.6].
Proof.
  apply (deduplication_is_stable two_algorithm_service
           [sample_item "a" "hello world" 0.9;
            sample_item "b" "Hello World" 0.8;
            sample_item "c" "foo bar" 0.6]).
  by vm_compute.
Defined.

(** *** Stage 1: every content once *)

Lemma dict_get_None {V} (d : dict V) (k : string) :
  dict_get d k = None <-> k ∉ d.*1.
Proof.
  induction d as [|[k' v'] d IH]; simpl.
  - split; [intros _; apply not_elem_of_nil|done].
  - rewrite not_elem_of_cons. destruct (String.eqb k' k) eqn:E.
    + apply String.eqb_eq in E. split; [done|]. intros [Hne _]. by subst.
    + apply String.eqb_neq in E. rewrite IH. split; [|tauto].
      intros Hk. split; [|done]. by intros ->.
Qed.

Lemma dict_set_absent {V} (d : dict V) (k : string) (v : V) :
  dict_get d k = None -> dict_set d k v = d ++ [(k, v)].
Proof.
  induction d as [|[k' v'] d IH]; simpl; [done|].
  destruct (String.eqb k' k); [done|]. intros H. by rewrite IH.
Qed.

(** The stored contents after the first pass: one entry per id, each an
    item of the lists read so far, filed under its own id; and every item
    read has an entry. *)
Lemma collect_content_stored (name : string) (w : Q) (idx : nat) (c : Content)
    (items : list Content) (st st' : dict (dict ScoreInfo) * dict Content) :
  NoDup (snd st).*1 ->
  (forall k x, (k, x) ∈ snd st -> content_id x = Some k /\ x ∈ items) ->
  (forall x, x ∈ items -> exists k, content_id x = Some k /\ k ∈ (snd st).*1) ->
  collect_content name w idx c st = Ok st' ->
  NoDup (snd st').*1
  /\ (forall k x, (k, x) ∈ snd st' ->
        content_id x = Some k /\ x ∈ items ++ [c])
  /\ (forall x, x ∈ items ++ [c] ->
        exists k, content_id x = Some k /\ k ∈ (snd st').*1).
Proof.
  destruct st as [scores all]. cbn [snd].
  intros Hnd Hin Hcov Hc. unfold collect_content, subscript_content_id in Hc.
  destruct (content_id c) as [cid|] eqn:Hid; [|done].
  cbn [from_option mbind exec_bind] in Hc. inversion Hc; subst st'. clear Hc.
  cbn [snd].
  destruct (dict_get all cid) as [c0|] eqn:Hget.
  - split; [done|]. split.
    + intros k x Hx. destruct (Hin k x Hx) as [Hk Hi].
      split; [done|]. apply elem_of_app. by left.
    + intros x Hx. apply elem_of_app in Hx as [Hx|Hx]; [by apply Hcov|].
      apply list_elem_of_singleton in Hx as ->. exists cid. split; [done|].
      apply dict_get_elem in Hget.
      apply list_elem_of_fmap. by exists (cid, c0).
  - rewrite (dict_set_absent _ _ _ Hget).
    apply dict_get_None in Hget. rewrite fmap_app. cbn [fmap list_fmap fst].
    split; [|split].
    + apply NoDup_app. split; [done|]. split; [|apply NoDup_singleton].
      intros k Hk Hk'. apply list_elem_of_singleton in Hk'. by subst.
    + intros k x Hx. apply elem_of_app in Hx as [Hx|Hx].
      * destruct (Hin k x Hx) as [Hk Hi]. split; [done|].
        apply elem_of_app. by left.
      * apply list_elem_of_singleton in Hx. inversion Hx; subst.
        split; [done|]. apply elem_of_app. right. by apply list_elem_of_singleton.
    + intros x Hx. apply elem_of_app in Hx as [Hx|Hx].
      * destruct (Hcov x Hx) as (k & Hk & Hkin). exists k. split; [done|].
        apply elem_of_app. by left.
      * apply list_elem_of_singleton in Hx as ->. exists cid. split; [done|].
        apply elem_of_app. right. by apply list_elem_of_singleton.
Qed.

Lemma collect_results_stored (name : string) (w : Q) (results : list Content)
    (idx : nat) (items : list Content)
    (st st' : dict (dict ScoreInfo) * dict Content) :
  NoDup (snd st).*1 ->
  (forall k x, (k, x) ∈ snd st -> content_id x = Some k /\ x ∈ items) ->
  (forall x, x ∈ items -> exists k, content_id x = Some k /\ k ∈ (snd st).*1) ->
  collect_results name w idx results st = Ok st' ->
  NoDup (snd st').*1
  /\ (forall k x, (k, x) ∈ snd st' ->
        content_id x = Some k /\ x ∈ items ++ results)
  /\ (forall x, x ∈ items ++ results ->
        exists k, content_id x = Some k /\ k ∈ (snd st').*1).
Proof.
  revert idx items st.
  induction results as [|c rest IH]; intros idx items st Hnd Hin Hcov Hr;
    simpl in Hr.
  - inversion Hr; subst. by rewrite app_nil_r.
  - destruct (collect_content name w idx c st) as [st1|] eqn:Hc; [|done].
    simpl in Hr.
    destruct (collect_content_stored _ _ _ _ _ _ _ Hnd Hin Hcov Hc)
      as (Hnd1 & Hin1 & Hcov1).
    destruct (IH _ _ _ Hnd1 Hin1 Hcov1 Hr) as (Hnd2 & Hin2 & Hcov2).
    rewrite <- app_assoc in Hin2, Hcov2. done.
Qed.

Lemma collect_algorithms_stored (weights : dict Q)
    (algorithm_results : list (string * list Content)) (items : list Content)
    (st st' : dict (dict ScoreInfo) * dict Content) :
  NoDup (snd st).*1 ->
  (forall k x, (k, x) ∈ snd st -> content_id x = Some k /\ x ∈ items) ->
  (forall x, x ∈ items -> exists k, content_id x = Some k /\ k ∈ (snd st).*1) ->
  collect_algorithms weights algorithm_results st = Ok st' ->
  NoDup (snd st').*1
  /\ (forall k x, (k, x) ∈ snd st' ->
        content_id x = Some k
        /\ x ∈ items ++ mjoin (snd <$> algorithm_results))
  /\ (forall x, x ∈ items ++ mjoin (snd <$> algorithm_results) ->
        exists k, content_id x = Some k /\ k ∈ (snd st').*1).
Proof.
  revert items st.
  induction algorithm_results as [|[name results] rest IH];
    intros items st Hnd Hin Hcov Ha; simpl in Ha.
  - inversion Ha; subst. by rewrite app_nil_r.
  - destruct (collect_results name _ 0 results st) as [st1|] eqn:Hr; [|done].
    simpl in Ha.
    destruct (collect_results_stored _ _ _ _ _ _ _ Hnd Hin Hcov Hr)
      as (Hnd1 & Hin1 & Hcov1).
    destruct (IH _ _ Hnd1 Hin1 Hcov1 Ha) as (Hnd2 & Hin2 & Hcov2).
    cbn [fmap list_fmap mjoin list_join snd]. rewrite app_assoc. done.
Qed.

Lemma fuse_contents_copies (weights : dict Q)
    (scores : dict (dict ScoreInfo)) (all : dict Content) (out : list Content) :
  fuse_contents weights scores all = Ok out ->
  Forall2 (fun entry c' => exists s n d, c' = with_fusion (snd entry) s n d)
    all out.
Proof.
  revert out. induction all as [|entry all IH]; intros out Hf; simpl in Hf.
  - inversion Hf. constructor.
  - destruct (fuse_content weights scores entry) as [c'|] eqn:Hc; [|done].
    simpl in Hf.
    destruct (fuse_contents weights scores all) as [cs|]; [|done].
    simpl in Hf. inversion Hf; subst.
    constructor; [|by apply IH].
    unfold fuse_content in Hc. destruct weights; [done|].
    inversion Hc. by eexists _, _, _.
Qed.

(** X17.  The fusion stage lists every content of its input exactly
    once, however many algorithms or positions name it: the ids of its
    output are pairwise different, every input item's id is among them,
    every output item is a copy of an input item with the fusion keys
    written, and the output is in descending order of fusion score. *)
Theorem fusion_lists_each_content_once (svc : Service)
    (algorithm_results : list (string * list Content)) (fused : list Content) :
  _fuse_algorithm_results svc algorithm_results = Ok fused ->
  NoDup (content_id <$> fused)
  /\ StronglySorted (desc fusion_score_key) fused
  /\ (forall name results c,
        (name, results) ∈ algorithm_results -> c ∈ results ->
        content_id c ∈ content_id <$> fused)
  /\ (forall c', c' ∈ fused ->
        exists name results c s n d,
          (name, results) ∈ algorithm_results /\ c ∈ results
          /\ c' = with_fusion c s n d).
Proof.
  unfold _fuse_algorithm_results. intros Hf.
  destruct (collect_algorithms _ algorithm_results ([], []))
    as [[scores all]|] eqn:Hc; [|done].
  cbn [mbind exec_bind] in Hf.
  destruct (fuse_contents _ scores all) as [out|] eqn:Ho; [|done].
  cbn [mbind exec_bind] in Hf. inversion Hf; subst fused. clear Hf.
  destruct (collect_algorithms_stored (algorithm_weights svc)
              algorithm_results [] ([], []) (scores, all))
    as (Hnd & Hin & Hcov); [apply NoDup_nil_2| | |exact Hc|].
  { intros k x Hx. by apply elem_of_nil in Hx. }
  { intros x Hx. by apply elem_of_nil in Hx. }
  cbn [snd app] in *.
  apply fuse_contents_copies in Ho.
  assert (Hids : content_id <$> out = Some <$> all.*1).
  { clear -Ho Hin. induction Ho as [|[k x] c' all out (s & n & d & ->) _ IH];
      [done|].
    rewrite !fmap_cons. cbn [fst snd].
    destruct (Hin k x) as [Hk _]; [by left|].
    rewrite IH; [by rewrite <- Hk|].
    intros k' x' Hx'. apply Hin. by right. }
  split; [|split; [|split]].
  - rewrite sorted_reverse_perm, Hids.
    apply (NoDup_fmap_2 Some), Hnd.
  - apply sorted_reverse_sorted.
  - intros name results c Hr Hcin.
    rewrite sorted_reverse_perm, Hids.
    destruct (Hcov c) as (k & Hk & Hkin).
    { apply list_elem_of_join. exists results. split; [done|].
      apply list_elem_of_fmap. by exists (name, results). }
    rewrite Hk. apply list_elem_of_fmap. by exists k.
  - intros c' Hc'. rewrite sorted_reverse_perm in Hc'.
    apply list_elem_of_lookup in Hc' as [i Hi].
    destruct (Forall2_lookup_r _ _ _ _ _ Ho Hi)
      as ([k x] & Hx & s & n & d & ->).
    apply list_elem_of_lookup_2 in Hx.
    destruct (Hin k x Hx) as [_ Hxin].
    apply list_elem_of_join in Hxin as (results & Hxr & Hres).
    apply list_elem_of_fmap in Hres as ([name results'] & -> & Hres).
    by exists name, results', x, s, n, d.
Qed.

Lemma fusion_lists_each_content_once_witness :
  exists fused,
    _fuse_algorithm_results two_algorithm_service sample_results = Ok fused
    /\ NoDup (content_id <$> fused)
    /\ StronglySorted (desc fusion_score_key) fused.
Proof.
  eexists. split; [by vm_compute|].
  destruct (fusion_lists_each_content_once two_algorithm_service
              sample_results _ ltac:(by vm_compute)) as (Hnd & Hs & _).
  by split.
Defined.

(** *** The regular and the degraded way out of [fuse_and_rerank] *)

Lemma StronglySorted_take {A} (R : A -> A -> Prop) (l : list A) (n : nat) :
  StronglySorted R l -> StronglySorted R (take n l).
Proof.
  intros Hs. revert n. induction Hs as [|x l _ IH Hx]; intros [|n]; simpl;
    try constructor; [apply IH|by apply Forall_take].
Qed.

Lemma slice_to_take {A} (l : list A) (k : Z) :
  exists n, slice_to l k = take n l /\ ((0 <= k)%Z -> n = Z.to_nat k).
Proof.
  unfold slice_to. destruct (0 <=? k)%Z eqn:E.
  - by eexists.
  - eexists. split; [done|]. apply Z.leb_gt in E. lia.
Qed.

(** X18.  What [fuse_and_rerank] returns on its regular path passed
    every business rule at the time of the call, carries a final score
    and its breakdown, is in descending order of final score, and holds
    at most [target_size] items. *)
Theorem fuse_output_is_checked_and_ordered (svc : Service) (now : Z)
    (algorithm_results : dict (list Content)) (target_size : Z)
    (context : option Context) (items : list Content) :
  fuse_and_rerank svc now algorithm_results target_size context = Fused items ->
  Forall (fun c => rejection (business_rules svc) now c = None
                   /\ is_Some (final_score c)
                   /\ is_Some (score_breakdown c)) items
  /\ StronglySorted (desc final_score_key) items
  /\ ((0 <= target_size)%Z -> (Z.of_nat (length items) <= target_size)%Z).
Proof.
  unfold fuse_and_rerank, fuse_and_rerank_try.
  destruct (_fuse_algorithm_results svc algorithm_results) as [fused|];
    [|done].
  cbn [mbind exec_bind].
  destruct (_deduplicate_results svc fused) as [dd|]; [|done].
  cbn [mbind exec_bind].
  destruct (_ensure_diversity svc _ target_size) as [dv|] eqn:Hdv; [|done].
  apply ensure_diversity_submseteq in Hdv.
  unfold _final_ranking_optimization.
  destruct (optimize_contents svc now context dv) as [opt|] eqn:Hopt; [|done].
  cbn [mbind exec_bind]. intros [= <-].
  apply optimize_contents_finalized in Hopt.
  destruct (slice_to_take (sorted_reverse final_score_key opt) target_size)
    as (n & -> & Hn).
  split; [|split].
  - apply Forall_take. rewrite sorted_reverse_perm.
    assert (Hdvok : Forall (fun c => rejection (business_rules svc) now c = None)
                      dv).
    { apply Forall_forall. intros c Hc.
      apply (elem_of_submseteq _ _ _ Hc) in Hdv.
      unfold _apply_business_rules in Hdv.
      by apply list_elem_of_filter in Hdv as [? _]. }
    clear Hdv. induction Hopt as [|c c' dv opt (f & b & ->) _ IH];
      [constructor|].
    apply Forall_cons in Hdvok as [Hc Hdvok].
    constructor; [|by apply IH].
    split; [exact Hc|]. by split; eexists.
  - apply StronglySorted_take, sorted_reverse_sorted.
  - intros Hpos. rewrite length_take, (Hn Hpos). lia.
Qed.

Lemma fuse_output_is_checked_and_ordered_witness :
  Forall (fun c => rejection (business_rules two_algorithm_service) 0 c = None
                   /\ is_Some (final_score c)
                   /\ is_Some (score_breakdown c)) sample_fused_items
  /\ StronglySorted (desc final_score_key) sample_fused_items
  /\ ((0 <= 10)%Z -> (Z.of_nat (length sample_fused_items) <= 10)%Z).
Proof.
  apply (fuse_output_is_checked_and_ordered two_algorithm_service 0
           sample_results 10 None).
  by vm_compute.
Defined.

Lemma collect_results_missing_id (name : string) (w : Q)
    (results : list Content) (idx : nat)
    (st : dict (dict ScoreInfo) * dict Content) :
  Exists (fun c => content_id c = None) results ->
  collect_results name w idx results st = Raise.
Proof.
  intros Hex. revert idx st.
  induction Hex as [c rest Hc|c rest _ IH]; intros idx st; simpl.
  - unfold collect_content, subscript_content_id. rewrite Hc.
    by destruct st.
  - destruct (collect_content name w idx c st); [apply IH|done].
Qed.

Lemma collect_algorithms_missing_id (weights : dict Q)
    (algorithm_results : list (string * list Content))
    (st : dict (dict ScoreInfo) * dict Content) :
  Exists (fun kv => Exists (fun c => content_id c = None) (snd kv))
    algorithm_results ->
  collect_algorithms weights algorithm_results st = Raise.
Proof.
  intros Hex. revert st.
  induction Hex as [[name results] rest Hc|[name results] rest _ IH];
    intros st; simpl.
  - by rewrite collect_results_missing_id.
  - destruct (collect_results name _ 0 results st); [apply IH|done].
Qed.

(** X19.  When an item of any algorithm's list lacks its [content_id],
    [fuse_and_rerank] takes the degraded way out: it returns the first
    [target_size] items of the first non-empty list as they were sent,
    neither fused nor deduplicated nor checked against the business
    rules. *)
Theorem missing_id_degrades (svc : Service) (now : Z)
    (algorithm_results : list (string * list Content)) (target_size : Z)
    (context : option Context) (name : string) (results : list Content)
    (c : Content) :
  (name, results) ∈ algorithm_results -> c ∈ results ->
  content_id c = None ->
  fuse_and_rerank svc now algorithm_results target_size context
  = Degraded (fallback_results algorithm_results target_size)
  /\ forall empty first_name first rest,
       algorithm_results = empty ++ (first_name, first) :: rest ->
       Forall (fun kv => snd kv = []) empty -> first <> [] ->
       fallback_results algorithm_results target_size
       = slice_to first target_size.
Proof.
  intros Hr Hc Hid. split.
  - unfold fuse_and_rerank, fuse_and_rerank_try, _fuse_algorithm_results.
    rewrite collect_algorithms_missing_id; [done|].
    apply Exists_exists. exists (name, results). split; [done|].
    apply Exists_exists. by exists c.
  - intros empty first_name first rest -> Hempty Hne. clear Hr.
    induction Hempty as [|[n l] empty Hl _ IH]; simpl in *.
    + by destruct first.
    + subst l. exact IH.
Qed.

Lemma missing_id_degrades_witness :
  fuse_and_rerank two_algorithm_service 0
    [("cf", []);
     ("dl", [sample_item "a" "alpha" 0.9;
             with_quality_score (sample_item "b" "beta" 0.8) (Some 0.1);
             anonymous_item])]%string 2 None
  = Degraded [sample_item "a" "alpha" 0.9;
              with_quality_score (sample_item "b" "beta" 0.8) (Some 0.1)].
Proof.
  destruct (missing_id_degrades two_algorithm_service 0
              [("cf", []);
               ("dl", [sample_item "a" "alpha" 0.9;
                       with_quality_score (sample_item "b" "beta" 0.8)
                         (Some 0.1);
                       anonymous_item])]%string 2 None "dl"
              [sample_item "a" "alpha" 0.9;
               with_quality_score (sample_item "b" "beta" 0.8) (Some 0.1);
               anonymous_item] anonymous_item) as [Hd _].
  - apply elem_of_cons. right. apply elem_of_cons. by left.
  - do 2 (apply elem_of_cons; right). apply elem_of_cons. by left.
  - reflexivity.
  - rewrite Hd. reflexivity.
Defined.

(** *** Stage 4: when the selection loop ends *)

Lemma diversity_score_range (cfg : DiversityConfig) (candidate : Content)
    (selected : list Content) (n : Counters) :
  0 <= _calculate_diversity_score cfg candidate selected n
  /\ _calculate_diversity_score cfg candidate selected n <= 1.
Proof.
  unfold _calculate_diversity_score. destruct selected; [by vm_compute|].
  split.
  - apply Q.min_glb; [by vm_compute|].
    apply Qle_trans with 0.0; [by vm_compute|apply Q.le_max_l].
  - apply Qle_trans with 1.0; [apply Q.le_min_l|by vm_compute].
Qed.

Lemma mmr_score_nonneg (cfg : DiversityConfig) (diversified : list Content)
    (n : Counters) (c : Content) (s : Q) :
  fusion_score c = Some s -> 0 <= s -> -1 < mmr_score cfg diversified n c.
Proof.
  intros Hs Hpos. unfold mmr_score. rewrite Hs. cbn [default].
  destruct (diversity_score_range cfg c diversified n) as [Hlo _].
  apply Qlt_le_trans with 0; [by vm_compute|].
  rewrite <- (Qplus_0_r 0). apply Qplus_le_compat.
  - apply Qmult_le_0_compat; [by vm_compute|done].
  - apply Qmult_le_0_compat; [by vm_compute|done].
Qed.

Lemma mmr_score_low (cfg : DiversityConfig) (diversified : list Content)
    (n : Counters) (c : Content) (s : Q) :
  fusion_score c = Some s -> s <= -2 -> mmr_score cfg diversified n c <= -1.
Proof.
  intros Hs Hlow. unfold mmr_score. rewrite Hs. cbn [default].
  destruct (diversity_score_range cfg c diversified n) as [_ Hhi].
  apply Qle_trans with (0.7 * -2 + (1 - 0.7) * 1); [|by vm_compute].
  apply Qplus_le_compat.
  - apply Qmult_le_l; [by vm_compute|done].
  - apply Qmult_le_l; [by vm_compute|done].
Qed.

(** Once the inner loop holds a candidate it ends with one. *)
Lemma best_of_keeps (combined : Content -> Q) (remaining : list Content)
    (idx : nat) (best : nat * Content) (best_score : Q) :
  is_Some (best_of combined idx remaining (Some best) best_score).
Proof.
  revert idx best best_score.
  induction remaining as [|x rest IH]; intros idx best best_score; simpl.
  - by eexists.
  - destruct (Qgt_bool (combined x) best_score); apply IH.
Qed.

Lemma best_of_finds (combined : Content -> Q) (x : Content)
    (rest : list Content) :
  -1 < combined x -> is_Some (best_of combined 0 (x :: rest) None (-1)).
Proof.
  intros Hx. simpl. unfold Qgt_bool.
  rewrite (proj2 (Qlt_bool_iff _ _) Hx). apply best_of_keeps.
Qed.

Lemma best_of_none (combined : Content -> Q) (remaining : list Content)
    (idx : nat) :
  Forall (fun c => combined c <= -1) remaining ->
  best_of combined idx remaining None (-1) = None.
Proof.
  intros Hall. revert idx.
  induction Hall as [|x rest Hx _ IH]; intros idx; simpl; [done|].
  unfold Qgt_bool. by rewrite (proj2 (Qlt_bool_false_iff _ _) Hx).
Qed.

Lemma fused_truthy (c : Content) (s : Q) :
  fusion_score c = Some s -> dict_truthy c = true.
Proof.
  intros Hs. unfold dict_truthy. rewrite Hs. cbn [has_key].
  by rewrite !orb_true_r.
Qed.

(** With non-negative fusion scores every iteration selects an item, so
    the loop fills [diversified] up to [target_size]. *)
Lemma mmr_loop_fills (cfg : DiversityConfig) (target_size : Z) (fuel : nat)
    (diversified remaining : list Content) (n : Counters) :
  (length remaining <= fuel)%nat ->
  Forall (fun c => exists s, fusion_score c = Some s /\ 0 <= s) remaining ->
  (Z.of_nat (length diversified) <= target_size
   <= Z.of_nat (length diversified + length remaining))%Z ->
  exists out,
    mmr_loop cfg fuel target_size diversified remaining n = Some out
    /\ Z.of_nat (length out) = target_size
    /\ diversified `prefix_of` out.
Proof.
  revert diversified remaining n.
  induction fuel as [|fuel IH]; intros dv rem n Hfuel Hgood Hsize.
  - destruct rem; [|simpl in Hfuel; lia]. simpl in *.
    rewrite andb_false_r. exists dv. split; [done|]. split; [lia|done].
  - cbn [mmr_loop].
    destruct (Z.of_nat (length dv) <? target_size)%Z eqn:Hlt.
    2:{ apply Z.ltb_ge in Hlt. exists dv. cbn [andb].
        split; [done|]. split; [lia|done]. }
    apply Z.ltb_lt in Hlt.
    destruct rem as [|x rem]; [simpl in Hsize; lia|].
    rewrite bool_decide_eq_false_2 by done. cbn [andb negb].
    apply Forall_cons in Hgood as Hgood'. destruct Hgood' as [(s & Hs & Hpos) _].
    destruct (best_of_finds (mmr_score cfg dv n) x rem
                (mmr_score_nonneg cfg dv n x s Hs Hpos)) as [[i c] Hbest].
    rewrite Hbest.
    apply best_of_lookup in Hbest as [?|[_ Hl]]; [done|].
    rewrite Nat.sub_0_r in Hl.
    assert (Hc : exists s, fusion_score c = Some s /\ 0 <= s).
    { apply (proj1 (Forall_forall _ _) Hgood). by eapply list_elem_of_lookup_2. }
    destruct Hc as (sc & Hsc & _). rewrite (fused_truthy c sc Hsc).
    assert (Hdel : S (length (delete i (x :: rem))) = length (x :: rem)).
    { rewrite length_delete by (by eexists).
      apply lookup_lt_Some in Hl. simpl in *. lia. }
    destruct (IH (dv ++ [c]) (delete i (x :: rem))
                (_update_diversity_counters c n)) as (out & Hout & Hlen & Hpre).
    + cbn [length] in *. lia.
    + by apply Forall_delete.
    + rewrite length_app. cbn [length] in *. lia.
    + exists out. split; [done|]. split; [done|].
      etrans; [|exact Hpre]. by apply prefix_app_r.
Qed.

(** X20.  When no fusion score is negative, the diversification of a
    list longer than [target_size] returns: exactly [target_size] items of
    the list, the first of the list first. *)
Theorem diversity_selects_target_size (svc : Service) (results : list Content)
    (target_size : Z) :
  (1 <= target_size < Z.of_nat (length results))%Z ->
  Forall (fun c => exists s, fusion_score c = Some s /\ 0 <= s) results ->
  exists out,
    _ensure_diversity svc results target_size = Some out
    /\ Z.of_nat (length out) = target_size
    /\ head out = head results
    /\ out ⊆+ results.
Proof.
  intros [Hlo Hhi] Hgood.
  assert (Hsub : forall out, _ensure_diversity svc results target_size = Some out
                             -> out ⊆+ results)
    by (intros out; apply ensure_diversity_submseteq).
  unfold _ensure_diversity in *.
  rewrite (proj2 (Z.leb_gt _ _)) in * by lia.
  destruct results as [|best_item remaining]; [simpl in Hhi; lia|].
  apply Forall_cons in Hgood as [_ Hgood].
  destruct (mmr_loop_fills (diversity_config svc) target_size
              (length remaining) [best_item] remaining
              (_update_diversity_counters best_item empty_counters))
    as (out & Hout & Hlen & Hpre); [done|done|simpl in *; lia|].
  exists out. split; [done|]. split; [done|]. split; [|by apply Hsub].
  destruct Hpre as [k ->]. done.
Qed.

Lemma diversity_selects_target_size_witness :
  exists out,
    _ensure_diversity two_algorithm_service
      [fused_item "a" 0.9; fused_item "b" 0.8; fused_item "c" 0.7] 2
    = Some out
    /\ Z.of_nat (length out) = 2%Z
    /\ head out = Some (fused_item "a" 0.9)
    /\ out ⊆+ [fused_item "a" 0.9; fused_item "b" 0.8; fused_item "c" 0.7].
Proof.
  apply (diversity_selects_target_size two_algorithm_service
           [fused_item "a" 0.9; fused_item "b" 0.8; fused_item "c" 0.7] 2).
  - simpl. lia.
  - repeat constructor; eexists; (split; [reflexivity|by vm_compute]).
Defined.

(** X21.  When every item after the first has a fusion score of -2 or
    less, the selection loop of the diversification never ends: no
    candidate beats the initial best score of -1, nothing is selected,
    and the loop repeats in the same state. *)
Theorem diversity_never_returns_on_low_scores (svc : Service)
    (results : list Content) (target_size : Z) :
  (1 < target_size < Z.of_nat (length results))%Z ->
  Forall (fun c => exists s, fusion_score c = Some s /\ s <= -2)
    (tail results) ->
  _ensure_diversity svc results target_size = None.
Proof.
  intros [Hlo Hhi] Hlow. unfold _ensure_diversity.
  rewrite (proj2 (Z.leb_gt _ _)) by lia.
  destruct results as [|best_item remaining]; [simpl in Hhi; lia|].
  cbn [tail] in Hlow.
  destruct remaining as [|x remaining]; [simpl in Hhi; lia|].
  cbn [length mmr_loop].
  rewrite (proj2 (Z.ltb_lt _ _)) by lia.
  rewrite bool_decide_eq_false_2 by done. cbn [andb negb].
  rewrite best_of_none; [done|].
  eapply Forall_impl; [exact Hlow|].
  intros c (s & Hs & Hle). by eapply mmr_score_low.
Qed.

Lemma diversity_never_returns_on_low_scores_witness :
  _ensure_diversity two_algorithm_service
    [fused_item "a" 0.9; fused_item "b" (-2); fused_item "c" (-3)] 2
  = None.
Proof.
  apply (diversity_never_returns_on_low_scores two_algorithm_service
           [fused_item "a" 0.9; fused_item "b" (-2); fused_item "c" (-3)] 2).
  - simpl. lia.
  - repeat constructor; eexists; (split; [reflexivity|by vm_compute]).
Defined.

(** *** The fusion endpoint and the review rule *)

Lemma collect_results_with_ids (name : string) (w : Q) (results : list Content)
    (idx : nat) (st : dict (dict ScoreInfo) * dict Content) :
  Forall (fun c => is_Some (content_id c)) results ->
  completes (collect_results name w idx results st).
Proof.
  intros Hids. revert idx st.
  induction Hids as [|c rest [cid Hc] _ IH]; intros idx st; simpl; [done|].
  unfold collect_content, subscript_content_id. rewrite Hc.
  destruct st as [scores all]. cbn [from_option mbind exec_bind]. apply IH.
Qed.

Lemma collect_algorithms_with_ids (weights : dict Q)
    (algorithm_results : list (string * list Content))
    (st : dict (dict ScoreInfo) * dict Content) :
  Forall (fun kv => Forall (fun c => is_Some (content_id c)) (snd kv))
    algorithm_results ->
  completes (collect_algorithms weights algorithm_results st).
Proof.
  intros Hids. revert st.
  induction Hids as [|[name results] rest Hr _ IH]; intros st; simpl; [done|].
  pose proof (collect_results_with_ids name
                (default 0.1 (dict_get weights name)) results 0 st Hr) as Hc.
  destruct (collect_results name _ 0 results st) as [st1|]; [|done].
  apply IH.
Qed.

Lemma dedup_loop_with_ids (cfg : DedupConfig) (results : list Content)
    (deduplicated : list Content) (seen : gset string) :
  Forall (fun c => is_Some (content_id c)) results ->
  completes (dedup_loop cfg results deduplicated seen).
Proof.
  intros Hids. revert deduplicated seen.
  induction Hids as [|c rest [cid Hc] _ IH]; intros dd seen; simpl; [done|].
  unfold subscript_content_id. rewrite Hc. cbn [from_option mbind exec_bind].
  repeat case_match; apply IH.
Qed.

Lemma unreviewed_is_rejected (rules : BusinessRules) (now : Z) (c : Content) :
  default true (require_content_review rules) = true ->
  review_status c = None -> rejection rules now c <> None.
Proof.
  intros Hreq Hs. unfold rejection. rewrite Hs, Hreq. simpl.
  repeat case_match; discriminate.
Qed.

Lemma ensure_diversity_nil (svc : Service) (target_size : Z) :
  _ensure_diversity svc [] target_size = Some [].
Proof.
  unfold _ensure_diversity. destruct (_ <=? _)%Z; [done|].
  simpl. by rewrite andb_false_r.
Qed.

Lemma slice_to_nil {A} (k : Z) : slice_to (@nil A) k = [].
Proof. unfold slice_to. destruct (0 <=? k)%Z; apply take_nil. Qed.

(** Items that all carry an id and no review status, under rules that
    require review: the pipeline runs through and returns nothing. *)
Lemma unreviewed_input_fuses_to_nothing (svc : Service) (now : Z)
    (algorithm_results : list (string * list Content)) (target_size : Z)
    (context : option Context) :
  default true (require_content_review (business_rules svc)) = true ->
  algorithm_weights svc <> [] ->
  Forall (fun kv => Forall (fun c => is_Some (content_id c)
                                     /\ review_status c = None) (snd kv))
    algorithm_results ->
  fuse_and_rerank svc now algorithm_results target_size context = Fused [].
Proof.
  intros Hreq Hw Hitems.
  assert (Hids : Forall (fun kv => Forall (fun c => is_Some (content_id c))
                                     (snd kv)) algorithm_results).
  { eapply Forall_impl; [exact Hitems|]. intros kv Hkv.
    eapply Forall_impl; [exact Hkv|]. by intros c [? _]. }
  pose proof (collect_algorithms_with_ids (algorithm_weights svc)
                algorithm_results ([], []) Hids) as Hc.
  destruct (collect_algorithms _ algorithm_results ([], []))
    as [[scores all]|] eqn:Hcollect; [clear Hc|done].
  destruct (collect_algorithms_stored (algorithm_weights svc)
              algorithm_results [] ([], []) (scores, all))
    as (_ & Hin & _); [apply NoDup_nil_2| | |exact Hcollect|].
  { intros k x Hx. by apply elem_of_nil in Hx. }
  { intros x Hx. by apply elem_of_nil in Hx. }
  cbn [snd app] in Hin.
  destruct (fuse_contents_total (algorithm_weights svc) scores all Hw)
    as (out & Hout & _).
  pose proof (fuse_contents_copies _ _ _ _ Hout) as Hcopies.
  assert (Hfused : Forall (fun c => is_Some (content_id c)
                                    /\ review_status c = None) out).
  { apply Forall_forall. intros c' Hc'.
    apply list_elem_of_lookup in Hc' as [i Hi].
    destruct (Forall2_lookup_r _ _ _ _ _ Hcopies Hi)
      as ([k x] & Hx & s & n & d & ->).
    apply list_elem_of_lookup_2 in Hx. destruct (Hin k x Hx) as [Hk Hxin].
    apply list_elem_of_join in Hxin as (results & Hxr & Hres).
    apply list_elem_of_fmap in Hres as (kv & -> & Hkv).
    pose proof (proj1 (Forall_forall _ _)
                  (proj1 (Forall_forall _ _) Hitems kv Hkv) x Hxr) as [_ Hrev].
    cbn [with_fusion content_id review_status snd].
    split; [by exists k|done]. }
  unfold fuse_and_rerank, fuse_and_rerank_try, _fuse_algorithm_results.
  rewrite Hcollect. cbn [mbind exec_bind]. rewrite Hout. cbn [mbind exec_bind].
  set (fused := sorted_reverse fusion_score_key out).
  assert (Hfused' : Forall (fun c => is_Some (content_id c)
                                     /\ review_status c = None) fused)
    by (subst fused; by rewrite sorted_reverse_perm).
  clearbody fused.
  pose proof (dedup_loop_with_ids (dedup_config svc) fused [] ∅) as Hdd.
  unfold _deduplicate_results.
  destruct (dedup_loop (dedup_config svc) fused [] ∅) as [dd|] eqn:Hloop.
  2:{ exfalso. apply Hdd. eapply Forall_impl; [exact Hfused'|]. by intros c [? _]. }
  clear Hdd. cbn [mbind exec_bind].
  apply dedup_loop_sublist in Hloop as (kept & -> & Hsub). cbn [app].
  assert (Hnone : _apply_business_rules svc now kept = []).
  { unfold _apply_business_rules.
    assert (Hkept : Forall (fun c => review_status c = None) kept).
    { apply Forall_forall. intros c Hc.
      apply (elem_of_sublist _ _ _ Hc) in Hsub.
      by apply (proj1 (Forall_forall _ _) Hfused') in Hsub as [_ ?]. }
    clear -Hkept Hreq. induction Hkept as [|c kept Hc _ IH]; [done|].
    rewrite filter_cons, decide_False; [done|].
    by apply unreviewed_is_rejected. }
  rewrite Hnone, ensure_diversity_nil.
  cbn. by rewrite slice_to_nil.
Qed.

(** X22.  A request to the fusion endpoint carries no review status for
    its items, so a service whose rules require review (the default)
    filters every one of them: the endpoint answers with an empty list,
    whatever the algorithms sent. *)
Theorem fusion_endpoint_returns_nothing_under_review (svc : Service)
    (now : Z) (request : RankingApi.FusionRerankingRequest) :
  default true (require_content_review (business_rules svc)) = true ->
  algorithm_weights svc <> [] ->
  RankingApi.fusion_rerank (Some svc) now request
  = Some (RankingApi.Answer
            {| RankingApi.fusion_response_user_id :=
                 RankingApi.fusion_user_id request;
               RankingApi.fused_items := [];
               RankingApi.fusion_total_candidates :=
                 sum_list ((fun kv => length (snd kv))
                             <$> RankingApi.algorithm_results request) |}).
Proof.
  intros Hreq Hw. unfold RankingApi.fusion_rerank.
  rewrite unreviewed_input_fuses_to_nothing; [done|done|done|].
  apply Forall_fmap, Forall_forall. intros kv _. cbn [snd].
  apply Forall_fmap, Forall_forall. intros item _.
  split; [by eexists|done].
Qed.

Lemma fusion_endpoint_returns_nothing_under_review_witness :
  RankingApi.fusion_rerank (Some (default_service sample_math)) 0
    RankingApi.sample_fusion_request
  = Some (RankingApi.Answer
            {| RankingApi.fusion_response_user_id := "u";
               RankingApi.fused_items := [];
               RankingApi.fusion_total_candidates := 3 |}).
Proof.
  apply (fusion_endpoint_returns_nothing_under_review
           (default_service sample_math) 0 RankingApi.sample_fusion_request).
  - reflexivity.
  - discriminate.
Defined.

End FusionStageFacts.

(** ** Stage 5 of the fusion pipeline *)

Module FinalRankingFacts.
Import FusionRerankingService PyFacts FusionFacts.

Lemma clamp_range (x : Q) : 0 <= Qmin 1.0 (Qmax 0.0 x) /\ Qmin 1.0 (Qmax 0.0 x) <= 1.
Proof.
  split.
  - apply Q.min_glb; [by vm_compute|].
    apply Qle_trans with 0.0; [by vm_compute|apply Q.le_max_l].
  - apply Qle_trans with 1.0; [apply Q.le_min_l|by vm_compute].
Qed.

Lemma freshness_boost_range (svc : Service) (now : Z) (c : Content) :
  0 <= _calculate_freshness_boost svc now c
  /\ _calculate_freshness_boost svc now c <= 1.
Proof.
  unfold _calculate_freshness_boost.
  destruct (publish_time c) as [[t|t|]|]; try (by vm_compute).
  destruct (Qeq_bool _ 0); [by vm_compute|].
  destruct (exp _ _); [apply clamp_range|by vm_compute].
Qed.

Lemma popularity_boost_range (svc : Service) (c : Content) (p : Q) :
  _calculate_popularity_boost svc c = Ok p -> p <= 1.
Proof.
  unfold _calculate_popularity_boost.
  destruct (log1p_count svc (view_count c)); [|done].
  destruct (log1p_count svc (like_count c)); [|done].
  destruct (log1p_count svc (share_count c)); [|done].
  destruct (log1p_count svc (comment_count c)); [|done].
  cbn [mbind exec_bind]. destruct (Qeq_bool _ 0); [done|].
  intros [= <-]. apply Qle_trans with 1.0; [apply Q.le_min_l|by vm_compute].
Qed.

Lemma personalization_boost_range (now : Z) (c : Content)
    (context : option Context) :
  0.5 <= _calculate_personalization_boost now c context
  /\ _calculate_personalization_boost now c context <= 0.8.
Proof.
  unfold _calculate_personalization_boost.
  destruct context as [ctx|]; [|by vm_compute].
  destruct (context_truthy (Some ctx)); [|by vm_compute].
  destruct (_ && _); destruct (in_list _ _); by vm_compute.
Qed.

(** X23.  Stage 5 records the boosts it applied, and they are bounded
    whatever the item and the float library: the base score is the fusion
    score, the freshness boost lies in [[0, 1]], the popularity boost is
    at most 1 and the personalization boost lies in [[0.5, 0.8]]. *)
Theorem boosts_are_bounded (svc : Service) (now : Z)
    (context : option Context) (c c' : Content) :
  optimize_content svc now context c = Ok c' ->
  exists b,
    score_breakdown c' = Some b
    /\ base_score b = default 0.0 (fusion_score c)
    /\ 0 <= freshness_boost b /\ freshness_boost b <= 1
    /\ popularity_boost b <= 1
    /\ 0.5 <= personalization_boost b /\ personalization_boost b <= 0.8
    /\ fusion_score c' = fusion_score c
    /\ content_id c' = content_id c.
Proof.
  unfold optimize_content.
  destruct (_calculate_popularity_boost svc c) as [p|] eqn:Hp; [|done].
  cbn [mbind exec_bind]. intros [= <-].
  eexists. split; [reflexivity|].
  cbn [base_score freshness_boost popularity_boost personalization_boost].
  split; [done|].
  split; [apply freshness_boost_range|]. split; [apply freshness_boost_range|].
  split; [by eapply popularity_boost_range|].
  split; [apply personalization_boost_range|].
  split; [apply personalization_boost_range|]. done.
Qed.

Lemma boosts_are_bounded_witness :
  exists c' b,
    optimize_content two_algorithm_service 0 None (fused_item "a" 0.9) = Ok c'
    /\ score_breakdown c' = Some b
    /\ base_score b = 0.9
    /\ freshness_boost b <= 1 /\ popularity_boost b <= 1
    /\ personalization_boost b <= 0.8.
Proof.
  eexists.
  destruct (boosts_are_bounded two_algorithm_service 0 None
              (fused_item "a" 0.9) _ ltac:(by vm_compute))
    as (b & Hb & Hbase & _ & Hf & Hp & _ & Hq & _).
  exists b. split; [by vm_compute|]. done.
Defined.

Lemma log1p_count_fails (svc : Service) (count : option Z) :
  log1p_count svc count = Raise <-> (default 0 count + 1 <= 0)%Z.
Proof.
  unfold log1p_count. destruct (0 <? _)%Z eqn:E.
  - apply Z.ltb_lt in E. split; [done|lia].
  - apply Z.ltb_ge in E. done.
Qed.

Lemma popularity_boost_fails (svc : Service) (c : Content) :
  _calculate_popularity_boost svc c = Raise
  <-> Exists (fun count => (default 0 count + 1 <= 0)%Z)
        [view_count c; like_count c; share_count c; comment_count c]
      \/ default 20 (max_popularity_score (final_ranking_config svc)) == 0.
Proof.
  unfold _calculate_popularity_boost.
  rewrite !Exists_cons, Exists_nil, <- !(log1p_count_fails svc).
  destruct (log1p_count svc (view_count c)); cbn [mbind exec_bind];
    [|split; [intros _; by left; left|done]].
  destruct (log1p_count svc (like_count c)); cbn [mbind exec_bind];
    [|split; [intros _; by left; right; left|done]].
  destruct (log1p_count svc (share_count c)); cbn [mbind exec_bind];
    [|split; [intros _; by left; right; right; left|done]].
  destruct (log1p_count svc (comment_count c)); cbn [mbind exec_bind];
    [|split; [intros _; by left; right; right; right; left|done]].
  destruct (Qeq_bool _ 0) eqn:E.
  - apply Qeq_bool_iff in E. split; [intros _; by right|done].
  - apply Qeq_bool_neq in E. split; [done|].
    intros [[H|[H|[H|[H|[]]]]]|H]; try discriminate. done.
Qed.

(** X24.  Stage 5 raises exactly when an item that reached it has a
    view, like, share or comment count of -1 or less (the logarithm of a
    non-positive number), or when the configured [max_popularity_score]
    is zero and there is an item at all. *)
Theorem final_ranking_fails_on_bad_counts (svc : Service) (now : Z)
    (context : option Context) (results : list Content) :
  _final_ranking_optimization svc now context results = Raise
  <-> Exists (fun c =>
                Exists (fun count => (default 0 count + 1 <= 0)%Z)
                  [view_count c; like_count c; share_count c; comment_count c]
                \/ default 20 (max_popularity_score (final_ranking_config svc))
                   == 0) results.
Proof.
  unfold _final_ranking_optimization.
  assert (H : optimize_contents svc now context results = Raise
              <-> Exists (fun c => _calculate_popularity_boost svc c = Raise)
                    results).
  { induction results as [|c rest IH]; simpl.
    - split; [done|]. intros H. by apply Exists_nil in H.
    - rewrite Exists_cons. unfold optimize_content.
      destruct (_calculate_popularity_boost svc c); cbn [mbind exec_bind];
        [|split; [intros _; by left|done]].
      destruct (optimize_contents svc now context rest); cbn [mbind exec_bind].
      + split; [done|]. intros [?|Hr]; [done|]. by apply IH in Hr.
      + split; [|done]. intros _. right. by apply IH. }
  rewrite <- (Exists_proper _ _ (fun c => popularity_boost_fails svc c) _ _ eq_refl).
  rewrite <- H.
  destruct (optimize_contents svc now context results); by cbn.
Qed.

End FinalRankingFacts.

(** ** The features a candidate is scored on *)

Module RankingFeatureFacts.
Import RankingService PyFacts FusionFacts.

Lemma dict_get_absent {V} (d : dict V) (k : string) :
  k ∉ d.*1 -> dict_get d k = None.
Proof.
  induction d as [|[k' v'] d IH]; simpl; [done|].
  rewrite not_elem_of_cons. intros [Hne Hk].
  by rewrite (proj2 (String.eqb_neq _ _) (not_eq_sym Hne)), IH.
Qed.

(** [{**d1, **d2}]: a key of [d2] takes its value from [d2], any other
    key from [d1]. *)
Lemma dict_get_merge {V} (d1 d2 : dict V) (k : string) :
  NoDup d2.*1 ->
  dict_get (dict_merge d1 d2) k
  = from_option Some (dict_get d1 k) (dict_get d2 k).
Proof.
  unfold dict_merge. revert d1.
  induction d2 as [|[k' v] d2 IH]; intros d1 Hnd; [done|].
  rewrite fmap_cons in Hnd. apply NoDup_cons in Hnd as [Hk' Hnd].
  cbn [fold_left fst snd]. rewrite (IH _ Hnd). cbn [dict_get].
  destruct (String.eqb k' k) eqn:E.
  - apply String.eqb_eq in E as ->.
    by rewrite (dict_get_absent d2 k Hk'), dict_get_set_eq.
  - apply String.eqb_neq in E. by rewrite dict_get_set_ne.
Qed.

(** X25.  The features a candidate is scored on are the viewer's, the
    content's and the context's merged in this order: a context feature
    overrides a content feature of the same name, and either overrides a
    viewer feature of that name. *)
Theorem context_overrides_stored_features {Redis} (env : Collaborators Redis)
    (uf ctxf : Features) (r : Redis) (c : Candidate) (cid : string) :
  content_id c = Some cid ->
  NoDup (fst (_get_content_features env r cid)).*1 -> NoDup ctxf.*1 ->
  exists combined,
    score_candidate_try env uf ctxf r c
    = Ok (with_ranking_score c (_predict_score env combined),
          snd (_get_content_features env r cid))
    /\ forall k,
         dict_get combined k
         = from_option Some
             (from_option Some (dict_get uf k)
                (dict_get (fst (_get_content_features env r cid)) k))
             (dict_get ctxf k).
Proof.
  intros Hid Hcf Hctx. unfold score_candidate_try. rewrite Hid.
  cbn [from_option mbind exec_bind].
  destruct (_get_content_features env r cid) as [cf r']. cbn [fst snd] in *.
  eexists. split; [reflexivity|].
  intros k. by rewrite !dict_get_merge.
Qed.

Lemma context_overrides_stored_features_witness :
  exists combined,
    score_candidate_try tie_env default_user_features
      [("content_type", FStr "video"); ("hour", FNum 3)]%string ()
      (sample_candidate "A" 5)
    = Ok (with_ranking_score (sample_candidate "A" 5)
            (_predict_score tie_env combined), ())
    /\ dict_get combined "content_type" = Some (FStr "video")
    /\ dict_get combined "content_category" = Some (FStr "general")
    /\ dict_get combined "user_age" = Some (FNum 25).
Proof.
  destruct (context_overrides_stored_features tie_env default_user_features
              [("content_type", FStr "video"); ("hour", FNum 3)]%string ()
              (sample_candidate "A" 5) "A") as (combined & Hc & Hget).
  - reflexivity.
  - apply (bool_decide_unpack (NoDup _)). by vm_compute.
  - apply (bool_decide_unpack (NoDup _)). by vm_compute.
  - exists combined. split; [exact Hc|]. by rewrite !Hget.
Defined.

End RankingFeatureFacts.
